(** * Conference organisation app: seat accounting, wishlists, featured
      speaker and announcements

    A shallow embedding of [conference_organization_app/conference.py]
    (the App Engine endpoints service [ConferenceApi]) and the properties
    of its registration, wishlist, featured-speaker and announcement code.

    Modelling conventions.
    - The datastore is one finite map per entity kind, keyed by the
      websafe (urlsafe) string of the entity key; [ndb.Key(urlsafe=k).get()]
      is a lookup.  The urlsafe encoding is injective and carries the kind
      and the ancestor path, so a key of one kind never resolves in the map
      of another kind; requests that carry a key of the wrong kind are
      outside the model.  A session entity records the websafe key of its
      parent conference ([sess.key.parent().urlsafe()]).
    - Python integers are unbounded: [Z].
    - Every endpoint is a computation in a state-and-exception monad over a
      [World]: the three datastore maps, memcache, and a log of the
      datastore, memcache and task-queue calls that were issued.
    - [@ndb.transactional] runs its body and, when the body raises, throws
      the datastore writes of the body away.  Without [xg=True] a
      transaction works on one entity group: the datastore refuses the
      first call on a second group with [BadRequestError].  The group of a
      key is the root of its path: a conference lies in the group of the
      profile it was created under, a session in the group of its
      conference.
    - A query with an inequality filter answers in ascending order of the
      filtered property. *)

From stdpp Require Import base gmap list strings fin_maps.
From Stdlib Require Import ZArith Lia Sorted.

Local Open Scope string_scope.
Local Open Scope list_scope.

(** ** Exceptions *)

Inductive Exn :=
  | UnauthorizedException (msg : string)
  | BadRequestException (msg : string)
  | NotFoundException (msg : string)
  | ForbiddenException (msg : string)
  | ConflictException (msg : string)
  | ValueError
  | BadValueError
  | BadRequestError      (* datastore_errors.BadRequestError *)
  | AttributeError (msg : string)
  | UnboundLocalError (msg : string)
  | IndexError (msg : string).

Inductive Outcome (A : Type) :=
  | Ok (a : A)
  | Raise (e : Exn).
Arguments Ok {A} a.
Arguments Raise {A} e.

(** ** Entities *)

Record User := mkUser {
  user_id : string;      (* utils.getUserId(user) *)
  nickname : string;
  email : string }.

Record Profile := mkProfile {
  displayName : string;
  mainEmail : string;
  teeShirtSize : string;
  conferenceKeysToAttend : list string;
  sessWishlist : list string }.

Record Date := mkDate {
  date_year : Z;
  date_month : Z;
  date_day : Z }.

Record Conference := mkConference {
  name : string;
  city : string;
  topics : list string;
  maxAttendees : Z;
  seatsAvailable : Z;
  startDate : option Date;
  endDate : option Date;
  month : Z;
  organizerUserId : string }.

(** A session; [sess_parent] is [sess.key.parent().urlsafe()].  Dates and
    times are kept as the text [str] renders them to. *)
Record Session := mkSession {
  sess_parent : string;
  sess_name : option string;
  sess_highlights : list string;
  sess_speaker : option string;
  sess_date : option string;
  sess_startTime : option string;
  sess_duration : option string;
  sess_typeOfSession : option string }.

Definition set_conferenceKeysToAttend (l : list string) (p : Profile) : Profile :=
  mkProfile (displayName p) (mainEmail p) (teeShirtSize p) l (sessWishlist p).

Definition set_sessWishlist (l : list string) (p : Profile) : Profile :=
  mkProfile (displayName p) (mainEmail p) (teeShirtSize p)
            (conferenceKeysToAttend p) l.

Definition set_seatsAvailable (n : Z) (c : Conference) : Conference :=
  mkConference (name c) (city c) (topics c) (maxAttendees c) n
               (startDate c) (endDate c) (month c) (organizerUserId c).

(** ** The world: datastore, memcache and the log of calls *)

Inductive Kind := KProfile | KConference | KSession.

Inductive Event :=
  | DsGet (k : Kind) (key : string)
  | DsPut (k : Kind) (key : string)
  | DsQuery (k : Kind) (ancestor : option string)
  | DsAllocateIds (k : Kind) (parent : string)
  | McGet (key : string)
  | McSet (key value : string)
  | McDelete (key : string)
  | TqAdd (url : string).

Record World := mkWorld {
  profiles : gmap string Profile;
  conferences : gmap string Conference;
  sessions : gmap string Session;
  memcache : gmap string string;
  trace : list Event }.

Definition log (e : Event) (w : World) : World :=
  mkWorld (profiles w) (conferences w) (sessions w) (memcache w)
          (trace w ++ [e]).

(** ** The monad of endpoint bodies *)

Definition M (A : Type) : Type := World -> Outcome A * World.

Definition ret {A} (a : A) : M A := fun w => (Ok a, w).

Definition raise {A} (e : Exn) : M A := fun w => (Raise e, w).

Definition bind {A B} (m : M A) (k : A -> M B) : M B :=
  fun w => match m w with
           | (Ok a, w') => k a w'
           | (Raise e, w') => (Raise e, w')
           end.

Notation "x <- c1 ;; c2" := (bind c1 (fun x => c2))
  (at level 100, c1 at next level, right associativity).
Notation "c1 ;; c2" := (bind c1 (fun _ => c2))
  (at level 100, right associativity).

(** [@ndb.transactional]: commit on return, roll the datastore back when
    the body raises.  Memcache is not part of the transaction.  The
    retries on contention are not modelled.  The limit of one entity
    group of a transaction without [xg] is modelled where a transaction
    works on the entities of two users, in [addSessionToWishlist]
    ([refuse_second_group]); [_conferenceRegistration] has [xg=True], and
    [_updateConferenceObject] works on the conference and on the profile
    of its organizer, who is taken to be the user it was created under. *)
Definition transactional {A} (body : M A) : M A :=
  fun w => match body w with
           | (Ok a, w') => (Ok a, w')
           | (Raise e, w') =>
               (Raise e,
                mkWorld (profiles w) (conferences w) (sessions w)
                        (memcache w') (trace w'))
           end.

(** *** Datastore and memcache calls *)

Definition get_profile (uid : string) : M (option Profile) :=
  fun w => (Ok (profiles w !! uid), log (DsGet KProfile uid) w).

Definition put_profile (uid : string) (p : Profile) : M unit :=
  fun w => (Ok tt,
            log (DsPut KProfile uid)
                (mkWorld (<[uid := p]> (profiles w)) (conferences w)
                         (sessions w) (memcache w) (trace w))).

Definition get_conference (key : string) : M (option Conference) :=
  fun w => (Ok (conferences w !! key), log (DsGet KConference key) w).

Definition put_conference (key : string) (c : Conference) : M unit :=
  fun w => (Ok tt,
            log (DsPut KConference key)
                (mkWorld (profiles w) (<[key := c]> (conferences w))
                         (sessions w) (memcache w) (trace w))).

Definition get_session (key : string) : M (option Session) :=
  fun w => (Ok (sessions w !! key), log (DsGet KSession key) w).

Definition memcache_get (key : string) : M (option string) :=
  fun w => (Ok (memcache w !! key), log (McGet key) w).

Definition memcache_set (key value : string) : M unit :=
  fun w => (Ok tt,
            log (McSet key value)
                (mkWorld (profiles w) (conferences w) (sessions w)
                         (<[key := value]> (memcache w)) (trace w))).

Definition memcache_delete (key : string) : M unit :=
  fun w => (Ok tt,
            log (McDelete key)
                (mkWorld (profiles w) (conferences w) (sessions w)
                         (delete key (memcache w)) (trace w))).

Definition taskqueue_add (url : string) : M unit :=
  fun w => (Ok tt, log (TqAdd url) w).

(** ** Profiles *)

(** [_getProfileFromUser]: the caller's profile with its key (the user
    id), created and stored on first access. *)
Definition _getProfileFromUser (user : option User) : M (string * Profile) :=
  match user with
  | None => raise (UnauthorizedException "Authorization required")
  | Some u =>
      profile <- get_profile (user_id u) ;;
      match profile with
      | Some p => ret (user_id u, p)
      | None =>
          let p := mkProfile (nickname u) (email u) "NOT_SPECIFIED" [] [] in
          put_profile (user_id u) p ;;
          ret (user_id u, p)
      end
  end.

(** ** Registration *)

(** [list.remove(x)]: drop the first occurrence of [x]. *)
Fixpoint list_remove (x : string) (l : list string) : list string :=
  match l with
  | [] => []
  | y :: l' => if decide (x = y) then l' else y :: list_remove x l'
  end.

(** [_conferenceRegistration(request, reg)], under
    [@ndb.transactional(xg=True)]. *)
Definition _conferenceRegistration (user : option User) (wsck : string)
    (reg : bool) : M bool :=
  transactional (
    prof <- _getProfileFromUser user ;;
    conf <- get_conference wsck ;;
    match conf with
    | None => raise (NotFoundException ("No conference found with key: " +:+ wsck))
    | Some conf =>
        if reg then
          if bool_decide (wsck ∈ conferenceKeysToAttend prof.2) then
            raise (ConflictException
                     "You have already registered for this conference")
          else if (seatsAvailable conf <=? 0)%Z then
            raise (ConflictException "There are no seats available.")
          else
            put_profile prof.1
              (set_conferenceKeysToAttend
                 (conferenceKeysToAttend prof.2 ++ [wsck]) prof.2) ;;
            put_conference wsck
              (set_seatsAvailable (seatsAvailable conf - 1) conf) ;;
            ret true
        else
          if bool_decide (wsck ∈ conferenceKeysToAttend prof.2) then
            put_profile prof.1
              (set_conferenceKeysToAttend
                 (list_remove wsck (conferenceKeysToAttend prof.2)) prof.2) ;;
            put_conference wsck
              (set_seatsAvailable (seatsAvailable conf + 1) conf) ;;
            ret true
          else
            put_profile prof.1 prof.2 ;;
            put_conference wsck conf ;;
            ret false
    end).

Definition registerForConference (user : option User) (wsck : string) : M bool :=
  _conferenceRegistration user wsck true.

Definition unregisterFromConference (user : option User) (wsck : string) : M bool :=
  _conferenceRegistration user wsck false.

(** ** Wishlist *)

(** The lookup of the caller's profile in a transaction without [xg] that
    has already worked on the entity group [g]: the profile is the root of
    its own group, and the datastore refuses the call when that is not
    [g]. *)
Definition refuse_second_group (g : string) (user : option User) : M unit :=
  match user with
  | Some u =>
      if decide (user_id u = g) then ret tt
      else fun w => (Raise BadRequestError, log (DsGet KProfile (user_id u)) w)
  | None => ret tt
  end.

(** [addSessionToWishlist], under [@ndb.transactional] (no [xg]).  The
    session is read first, so the transaction works on the group of the
    session key, [entity_group websafeSessionKey]: the id of the user under
    whose profile the conference of the session was created. *)
Definition addSessionToWishlist (entity_group : string -> string)
    (user : option User) (websafeSessionKey : string) : M bool :=
  transactional (
    sess <- get_session websafeSessionKey ;;
    match sess with
    | None =>
        raise (NotFoundException
                 ("No session found with key: " +:+ websafeSessionKey))
    | Some _ =>
        refuse_second_group (entity_group websafeSessionKey) user ;;
        prof <- _getProfileFromUser user ;;
        if bool_decide (websafeSessionKey ∈ sessWishlist prof.2) then
          raise (ConflictException "This session is already on your wishlist")
        else
          put_profile prof.1
            (set_sessWishlist (sessWishlist prof.2 ++ [websafeSessionKey])
                              prof.2) ;;
          ret true
    end).

(** [deleteSessionInWishlist]; no transaction.  [sess.key] is evaluated
    before any check on [sess]. *)
Definition deleteSessionInWishlist (user : option User)
    (websafeSessionKey : string) : M bool :=
  prof <- _getProfileFromUser user ;;
  sess <- get_session websafeSessionKey ;;
  match sess with
  | None => raise (AttributeError "'NoneType' object has no attribute 'key'")
  | Some s =>
      conf <- get_conference (sess_parent s) ;;
      match conf with
      | None =>
          raise (NotFoundException
                   ("No conference found with session key: "
                      +:+ websafeSessionKey))
      | Some _ =>
          if negb (bool_decide (websafeSessionKey ∈ sessWishlist prof.2)) then
            raise (ConflictException "The session doesn't exist")
          else
            put_profile prof.1
              (set_sessWishlist
                 (list_remove websafeSessionKey (sessWishlist prof.2))
                 prof.2) ;;
            ret true
      end
  end.

(** [ndb.get_multi]: one result per key, [None] where the key does not
    resolve; a found entity carries its key. *)
Fixpoint get_multi_sessions (keys : list string)
    : M (list (option (string * Session))) :=
  match keys with
  | [] => ret []
  | k :: keys' =>
      s <- get_session k ;;
      rest <- get_multi_sessions keys' ;;
      ret (((fun x => (k, x)) <$> s) :: rest)
  end.

(** [str(x)] of an optional text value: [str(None)] is ["None"]. *)
Definition py_str (x : option string) : string := default "None" x.

(** The fields of [SessionForm] that [conference.py] reads and writes
    ([DEFAULTS_SESSION] and the [del data[...]] lines of
    [_createSessionObject]). *)
Record SessionForm (SessionType : Type) := mkSessionForm {
  sf_name : option string;
  sf_highlights : list string;
  sf_speaker : option string;
  sf_date : option string;
  sf_startTime : option string;
  sf_duration : option string;
  sf_typeOfSession : option SessionType;
  sf_websafeKey : option string;
  sf_websafeCnfKey : option string }.
Arguments mkSessionForm {SessionType}.
Arguments sf_websafeKey {SessionType}.
Arguments sf_name {SessionType}.
Arguments sf_speaker {SessionType}.

Section SessionForms.
  (** The enum [SessionType] is declared in [models.py];
      [getattr(SessionType, x)] is a parameter: the member, or the
      exception the lookup raises. *)
Variable SessionType : Type.
Variable getattr_SessionType : option string -> Outcome SessionType.

  (** [_copySessionToForm(sess)].  [hasattr(None, f)] is false for every
      form field, so for [None] the only branch taken is the one of
      [websafeKey], which evaluates [sess.key]. *)
Definition _copySessionToForm (sess : option (string * Session))
      : M (SessionForm SessionType) :=
    match sess with
    | None => raise (AttributeError "'NoneType' object has no attribute 'key'")
    | Some (key, s) =>
        match getattr_SessionType (sess_typeOfSession s) with
        | Raise e => raise e
        | Ok ty =>
            ret (mkSessionForm (sess_name s) (sess_highlights s)
                   (Some (py_str (sess_speaker s)))
                   (Some (py_str (sess_date s)))
                   (Some (py_str (sess_startTime s)))
                   (Some (py_str (sess_duration s)))
                   (Some ty) (Some key) None)
        end
    end.

Fixpoint copy_all (l : list (option (string * Session)))
      : M (list (SessionForm SessionType)) :=
    match l with
    | [] => ret []
    | s :: l' =>
        f <- _copySessionToForm s ;;
        fs <- copy_all l' ;;
        ret (f :: fs)
    end.

  (** [getSessionsInWishlist]. *)
Definition getSessionsInWishlist (user : option User)
      : M (list (SessionForm SessionType)) :=
    prof <- _getProfileFromUser user ;;
    sessions <- get_multi_sessions (sessWishlist prof.2) ;;
    copy_all sessions.
End SessionForms.

(** ** Featured speaker *)

Definition MEMCACHE_FEATURED_KEY : string := "FEATURED SPEAKER: ".

(** [Session.query(ancestor=key).fetch()]. *)
Definition sessions_under (ancestor : string) (w : World)
    : list (string * Session) :=
  filter (fun ks => sess_parent ks.2 = ancestor) (map_to_list (sessions w)).

Definition query_sessions (ancestor : string) : M (list (string * Session)) :=
  fun w => (Ok (sessions_under ancestor w),
            log (DsQuery KSession (Some ancestor)) w).

(** Truth value of an optional string: [None] and [""] are false. *)
Definition truthy (x : option string) : bool :=
  match x with
  | None => false
  | Some s => negb (bool_decide (s = ""))
  end.

(** [Counter(l)[key]]. *)
Definition counter (l : list string) (key : string) : nat :=
  length (filter (fun x => x = key) l).

(** The local variables of [_cacheFeaturedSpeaker] that its loops update.
    [speakerArray] is unbound ([None]) until the first assignment, then
    the list [[]] ([Some None]) or [[speaker, appearances]]. *)
Record Locals := mkLocals {
  speaker_list : list string;
  speaker : option string;
  appearances : nat;
  speakerArray : option (option (option string * nat)) }.

(** One turn of [for key in dict]. *)
Definition key_step (st : Locals) (key : string) : Locals :=
  let value := counter (speaker_list st) key in
  let st' :=
    if (appearances st <? value)%nat
    then mkLocals (speaker_list st) (Some key) value (speakerArray st)
    else st in
  mkLocals (speaker_list st') (speaker st') (appearances st')
           (Some (Some (speaker st', appearances st'))).

Section FeaturedSpeaker.
  (** The order in which [for key in dict] visits the keys of
      [Counter(l)]: a Python 2 dictionary iterates in hash-table order. *)
Variable dict_keys : list string -> list string.

  (** One turn of [for spkr in sess]; in Python 2 the tab-indented block
      (from [speakerArray = []] to the end of [for key in dict]) sits at
      the depth of [speaker_list.append], inside [if spkr.speaker]. *)
Definition sess_step (st : Locals) (spkr : string * Session) : Locals :=
    if truthy (sess_speaker spkr.2) then
      let l := speaker_list st ++ [default "" (sess_speaker spkr.2)] in
      foldl key_step (mkLocals l (speaker st) 0 (Some None)) (dict_keys l)
    else st.

  (** [_cacheFeaturedSpeaker(websafeConferenceKey)].  Storing [None] in
      memcache reads back like an absent entry and is modelled as one. *)
Definition _cacheFeaturedSpeaker (websafeConferenceKey : string)
      : M (option string) :=
    conf <- get_conference websafeConferenceKey ;;
    match conf with
    | None =>
        raise (NotFoundException
                 ("No conference found with key: " +:+ websafeConferenceKey))
    | Some _ =>
        sess <- query_sessions websafeConferenceKey ;;
        let st := foldl sess_step (mkLocals [] None 0 None) sess in
        match speakerArray st with
        | None =>
            raise (UnboundLocalError
                     "local variable 'speakerArray' referenced before assignment")
        | Some None => raise (IndexError "list index out of range")
        | Some (Some (featuredSpeaker, speakerAppearances)) =>
            if (2 <=? speakerAppearances)%nat then
              match featuredSpeaker with
              | Some s => memcache_set MEMCACHE_FEATURED_KEY s
              | None => memcache_delete MEMCACHE_FEATURED_KEY
              end ;;
              ret featuredSpeaker
            else ret None
        end
    end.
End FeaturedSpeaker.

(** [getFeaturedSpeaker]. *)
Definition getFeaturedSpeaker : M string :=
  featured <- memcache_get MEMCACHE_FEATURED_KEY ;;
  ret (if truthy featured then default "" featured
       else "There are 0 featured speakers").

(** ** Announcements *)

Definition MEMCACHE_ANNOUNCEMENTS_KEY : string := "RECENT_ANNOUNCEMENTS".

(** [ANNOUNCEMENT_TPL % s]. *)
Definition ANNOUNCEMENT_TPL (s : string) : string :=
  "Last chance to attend! The following conferences are nearly sold out: "
    +:+ s.

(** [sep.join(l)]. *)
Fixpoint join (sep : string) (l : list string) : string :=
  match l with
  | [] => ""
  | [x] => x
  | x :: l' => x +:+ sep +:+ join sep l'
  end.

(** [Conference.query(ndb.AND(seatsAvailable <= 5, seatsAvailable > 0))]. *)
Definition nearly_sold_out (c : Conference) : bool :=
  (seatsAvailable c <=? 5)%Z && (0 <? seatsAvailable c)%Z.

(** The order of the answers of a query with an inequality filter on
    [seatsAvailable]: ascending in [seatsAvailable]; entities with the same
    number of seats come in the order of the index that serves the query,
    [index_before], a parameter.  The projection on [name] drops no
    entity: every stored conference has a name. *)
Definition result_before
    (index_before : string * Conference -> string * Conference -> bool)
    (a b : string * Conference) : bool :=
  (seatsAvailable a.2 <? seatsAvailable b.2)%Z
  || ((seatsAvailable a.2 =? seatsAvailable b.2)%Z && index_before a b).

Fixpoint insert_result
    (index_before : string * Conference -> string * Conference -> bool)
    (x : string * Conference) (l : list (string * Conference))
    : list (string * Conference) :=
  match l with
  | [] => [x]
  | y :: l' =>
      if result_before index_before x y then x :: y :: l'
      else y :: insert_result index_before x l'
  end.

Definition sort_results
    (index_before : string * Conference -> string * Conference -> bool)
    (l : list (string * Conference)) : list (string * Conference) :=
  foldr (insert_result index_before) [] l.

Definition query_conferences
    (index_before : string * Conference -> string * Conference -> bool)
    (p : Conference -> bool) : M (list (string * Conference)) :=
  fun w => (Ok (sort_results index_before
                  (filter (fun kc => p kc.2 = true)
                          (map_to_list (conferences w)))),
            log (DsQuery KConference None) w).

(** [_cacheAnnouncement]. *)
Definition _cacheAnnouncement
    (index_before : string * Conference -> string * Conference -> bool)
    : M string :=
  confs <- query_conferences index_before nearly_sold_out ;;
  match confs with
  | _ :: _ =>
      let announcement :=
        ANNOUNCEMENT_TPL (join ", " ((fun kc => name kc.2) <$> confs)) in
      memcache_set MEMCACHE_ANNOUNCEMENTS_KEY announcement ;;
      ret announcement
  | [] =>
      memcache_delete MEMCACHE_ANNOUNCEMENTS_KEY ;;
      ret ""
  end.

(** [getAnnouncement]: [memcache.get(KEY) or ""]. *)
Definition getAnnouncement : M string :=
  v <- memcache_get MEMCACHE_ANNOUNCEMENTS_KEY ;;
  ret (if truthy v then default "" v else "").

(** ** Creating and updating conferences *)

(** Modelled from the spec: [ConferenceForm] is declared in [models.py],
    which is not part of the sources at hand.  Its fields are those of the
    spec's Conference entity plus the two that [_createConferenceObject]
    deletes before building the entity; [None] (and [[]] for the repeated
    field) means that the request gave no value. *)
Record ConferenceForm := mkConferenceForm {
  cf_name : option string;
  cf_organizerUserId : option string;
  cf_topics : list string;
  cf_city : option string;
  cf_startDate : option string;
  cf_month : option Z;
  cf_maxAttendees : option Z;
  cf_seatsAvailable : option Z;
  cf_endDate : option string;
  cf_websafeKey : option string;
  cf_organizerDisplayName : option string }.

(** The fields that [request.all_fields()] yields for an update request
    ([CONF_POST_REQUEST]), taken in declaration order. *)
Inductive Field :=
  | F_name | F_organizerUserId | F_topics | F_city | F_startDate | F_month
  | F_maxAttendees | F_seatsAvailable | F_endDate | F_websafeKey
  | F_organizerDisplayName | F_websafeConferenceKey.

Definition all_fields : list Field :=
  [F_name; F_organizerUserId; F_topics; F_city; F_startDate; F_month;
   F_maxAttendees; F_seatsAvailable; F_endDate; F_websafeKey;
   F_organizerDisplayName; F_websafeConferenceKey].

(** A conference object in memory: the entity, its key, and the plain
    Python attributes that [setattr] leaves on it for names that are not
    properties of the model (they are not stored). *)
Record ConfObj := mkConfObj {
  co_key : string;
  co_entity : Conference;
  co_websafeKey : option string;
  co_organizerDisplayName : option string;
  co_websafeConferenceKey : option string }.

Definition with_entity (c : Conference) (o : ConfObj) : ConfObj :=
  mkConfObj (co_key o) c (co_websafeKey o) (co_organizerDisplayName o)
            (co_websafeConferenceKey o).

Definition DEFAULT_city : string := "London".
Definition DEFAULT_maxAttendees : Z := 500.
Definition DEFAULT_seatsAvailable : Z := 500.
Definition DEFAULT_topics : list string := ["Default"; "Programming Languages"].

Section Conferences.
  (** [datetime.strptime(s, "%Y-%m-%d").date()], [None] when it raises
      [ValueError]; and [str(d)] of a date. *)
Variable strptime : string -> option Date.
Variable str_date : Date -> string.

  (** A date field of a new conference: parsed when the text is
      non-empty. *)
Definition parse_if_given (x : option string) : Outcome (option Date) :=
    if truthy x then
      match strptime (String.substring 0 10 (default "" x)) with
      | Some d => Ok (Some d)
      | None => Raise ValueError
      end
    else Ok None.

  (** [_createConferenceObject(request)].  [conference_key] is the websafe
      key built from the id that [Conference.allocate_ids] returns. *)
Definition _createConferenceObject (user : option User)
      (request : ConferenceForm) (conference_key : string) : M ConferenceForm :=
    match user with
    | None => raise (UnauthorizedException "Authorization required")
    | Some u =>
        if negb (truthy (cf_name request)) then
          raise (BadRequestException "Conference 'name' field required")
        else
          let d_city := default DEFAULT_city (cf_city request) in
          let d_maxAttendees :=
            default DEFAULT_maxAttendees (cf_maxAttendees request) in
          let d_seatsAvailable :=
            default DEFAULT_seatsAvailable (cf_seatsAvailable request) in
          let d_topics :=
            match cf_topics request with
            | [] => DEFAULT_topics
            | t => t
            end in
          match parse_if_given (cf_startDate request) with
          | Raise e => raise e
          | Ok d_startDate =>
              let d_month :=
                match d_startDate with
                | Some d => date_month d
                | None => 0%Z
                end in
              match parse_if_given (cf_endDate request) with
              | Raise e => raise e
              | Ok d_endDate =>
                  let d_seats :=
                    if (0 <? d_maxAttendees)%Z then d_maxAttendees
                    else d_seatsAvailable in
                  (fun w => (Ok tt, log (DsAllocateIds KConference (user_id u)) w)) ;;
                  (* the Conference constructor rejects an empty text as a date *)
                  if bool_decide (cf_startDate request = Some "")
                     || bool_decide (cf_endDate request = Some "")
                  then raise BadValueError
                  else
                    put_conference conference_key
                      (mkConference (default "" (cf_name request)) d_city
                         d_topics d_maxAttendees d_seats d_startDate
                         d_endDate d_month (user_id u)) ;;
                    taskqueue_add "/tasks/send_confirmation_email" ;;
                    ret (mkConferenceForm (cf_name request)
                           (Some (user_id u)) d_topics (Some d_city)
                           (cf_startDate request) (cf_month request)
                           (Some d_maxAttendees) (Some d_seatsAvailable)
                           (cf_endDate request) (cf_websafeKey request)
                           (cf_organizerDisplayName request))
              end
          end
    end.

  (** The body of the loop of [_updateConferenceObject] for one field:
      copy the field when the request has data for it. *)
Definition copy_field (request : ConferenceForm)
      (websafeConferenceKey : string) (o : ConfObj) (f : Field)
      : Outcome ConfObj :=
    let c := co_entity o in
    match f with
    | F_name =>
        match cf_name request with
        | Some v =>
            Ok (with_entity
                  (mkConference v (city c) (topics c) (maxAttendees c)
                     (seatsAvailable c) (startDate c) (endDate c) (month c)
                     (organizerUserId c)) o)
        | None => Ok o
        end
    | F_organizerUserId =>
        match cf_organizerUserId request with
        | Some v =>
            Ok (with_entity
                  (mkConference (name c) (city c) (topics c) (maxAttendees c)
                     (seatsAvailable c) (startDate c) (endDate c) (month c)
                     v) o)
        | None => Ok o
        end
    | F_topics =>
        match cf_topics request with
        | [] => Ok o
        | v =>
            Ok (with_entity
                  (mkConference (name c) (city c) v (maxAttendees c)
                     (seatsAvailable c) (startDate c) (endDate c) (month c)
                     (organizerUserId c)) o)
        end
    | F_city =>
        match cf_city request with
        | Some v =>
            Ok (with_entity
                  (mkConference (name c) v (topics c) (maxAttendees c)
                     (seatsAvailable c) (startDate c) (endDate c) (month c)
                     (organizerUserId c)) o)
        | None => Ok o
        end
    | F_startDate =>
        match cf_startDate request with
        | Some v =>
            match strptime v with
            | Some d =>
                Ok (with_entity
                      (mkConference (name c) (city c) (topics c)
                         (maxAttendees c) (seatsAvailable c) (Some d)
                         (endDate c) (date_month d) (organizerUserId c)) o)
            | None => Raise ValueError
            end
        | None => Ok o
        end
    | F_month =>
        match cf_month request with
        | Some v =>
            Ok (with_entity
                  (mkConference (name c) (city c) (topics c) (maxAttendees c)
                     (seatsAvailable c) (startDate c) (endDate c) v
                     (organizerUserId c)) o)
        | None => Ok o
        end
    | F_maxAttendees =>
        match cf_maxAttendees request with
        | Some v =>
            Ok (with_entity
                  (mkConference (name c) (city c) (topics c) v
                     (seatsAvailable c) (startDate c) (endDate c) (month c)
                     (organizerUserId c)) o)
        | None => Ok o
        end
    | F_seatsAvailable =>
        match cf_seatsAvailable request with
        | Some v => Ok (with_entity (set_seatsAvailable v c) o)
        | None => Ok o
        end
    | F_endDate =>
        match cf_endDate request with
        | Some v =>
            match strptime v with
            | Some d =>
                Ok (with_entity
                      (mkConference (name c) (city c) (topics c)
                         (maxAttendees c) (seatsAvailable c) (startDate c)
                         (Some d) (month c) (organizerUserId c)) o)
            | None => Raise ValueError
            end
        | None => Ok o
        end
    | F_websafeKey =>
        match cf_websafeKey request with
        | Some v =>
            Ok (mkConfObj (co_key o) c (Some v) (co_organizerDisplayName o)
                          (co_websafeConferenceKey o))
        | None => Ok o
        end
    | F_organizerDisplayName =>
        match cf_organizerDisplayName request with
        | Some v =>
            Ok (mkConfObj (co_key o) c (co_websafeKey o) (Some v)
                          (co_websafeConferenceKey o))
        | None => Ok o
        end
    | F_websafeConferenceKey =>
        Ok (mkConfObj (co_key o) c (co_websafeKey o)
                      (co_organizerDisplayName o) (Some websafeConferenceKey))
    end.

Fixpoint copy_fields (request : ConferenceForm)
      (websafeConferenceKey : string) (fs : list Field) (o : ConfObj)
      : Outcome ConfObj :=
    match fs with
    | [] => Ok o
    | f :: fs' =>
        match copy_field request websafeConferenceKey o f with
        | Ok o' => copy_fields request websafeConferenceKey fs' o'
        | Raise e => Raise e
        end
    end.

Definition str_opt_date (d : option Date) : string :=
    match d with
    | Some d => str_date d
    | None => "None"
    end.

  (** [_copyConferenceToForm(conf, displayName)]. *)
Definition _copyConferenceToForm (o : ConfObj) (displayName : string)
      : ConferenceForm :=
    let c := co_entity o in
    mkConferenceForm (Some (name c)) (Some (organizerUserId c)) (topics c)
      (Some (city c)) (Some (str_opt_date (startDate c))) (Some (month c))
      (Some (maxAttendees c)) (Some (seatsAvailable c))
      (Some (str_opt_date (endDate c)))
      (Some (default (co_key o) (co_websafeKey o)))
      (if truthy (Some displayName) then Some displayName
       else co_organizerDisplayName o).

  (** [_updateConferenceObject(request)], under [@ndb.transactional()]. *)
Definition _updateConferenceObject (user : option User)
      (request : ConferenceForm) (websafeConferenceKey : string)
      : M ConferenceForm :=
    transactional (
      match user with
      | None => raise (UnauthorizedException "Authorization required")
      | Some u =>
          conf <- get_conference websafeConferenceKey ;;
          match conf with
          | None =>
              raise (NotFoundException
                       ("No conference found with key: "
                          +:+ websafeConferenceKey))
          | Some c =>
              if negb (bool_decide (user_id u = organizerUserId c)) then
                raise (ForbiddenException
                         "Only the owner can update the conference.")
              else
                match copy_fields request websafeConferenceKey all_fields
                        (mkConfObj websafeConferenceKey c None None None) with
                | Raise e => raise e
                | Ok o =>
                    put_conference websafeConferenceKey (co_entity o) ;;
                    prof <- get_profile (user_id u) ;;
                    match prof with
                    | None =>
                        raise (AttributeError
                          "'NoneType' object has no attribute 'displayName'")
                    | Some p => ret (_copyConferenceToForm o (displayName p))
                    end
                end
          end
      end).
End Conferences.

(** ** Sequences of registration calls *)

Inductive RegOp :=
  | Register (user : option User) (wsck : string)
  | Unregister (user : option User) (wsck : string).

Definition run_op (w : World) (op : RegOp) : World :=
  match op with
  | Register user wsck => (registerForConference user wsck w).2
  | Unregister user wsck => (unregisterFromConference user wsck w).2
  end.

Definition run_ops (ops : list RegOp) (w : World) : World :=
  foldl run_op w ops.

(** The profile [_getProfileFromUser] hands to the caller. *)
Definition fresh_profile (u : User) : Profile :=
  mkProfile (nickname u) (email u) "NOT_SPECIFIED" [] [].

Definition profile_of (u : User) (w : World) : Profile :=
  default (fresh_profile u) (profiles w !! user_id u).

(** The datastore and memcache of [w'] are those of [w]. *)
Definition same_store (w w' : World) : Prop :=
  profiles w' = profiles w ∧ conferences w' = conferences w ∧
  sessions w' = sessions w ∧ memcache w' = memcache w.

Definition already_registered : Exn :=
  ConflictException "You have already registered for this conference".

Definition sold_out : Exn :=
  ConflictException "There are no seats available.".

Definition no_conference (wsck : string) : Exn :=
  NotFoundException ("No conference found with key: " +:+ wsck).

(** ** Seat accounting *)

(** How many times profiles hold [wsck] in [conferenceKeysToAttend],
    summed over all stored profiles. *)
Definition attending (wsck : string) (ps : gmap string Profile) : nat :=
  map_fold (fun _ p n => (n + counter (conferenceKeysToAttend p) wsck)%nat)
           0%nat ps.

(** Every seat of the conference is either available or held by a
    registration. *)
Definition seats_accounted (wsck : string) (w : World) : Prop :=
  ∃ c, conferences w !! wsck = Some c ∧
       (0 <= seatsAvailable c)%Z ∧
       (seatsAvailable c + Z.of_nat (attending wsck (profiles w)))%Z
         = maxAttendees c.

(** Every conference key that a profile holds resolves. *)
Definition attendance_resolves (w : World) : Prop :=
  ∀ uid p wsck,
    profiles w !! uid = Some p ->
    wsck ∈ conferenceKeysToAttend p ->
    is_Some (conferences w !! wsck).

(** What a registration call does to the datastore. *)
Inductive reg_effect (w w' : World) : Prop :=
  | reg_unchanged :
      profiles w' = profiles w -> conferences w' = conferences w ->
      reg_effect w w'
  | reg_touched (u : User) :
      profiles w' = <[user_id u := profile_of u w]> (profiles w) ->
      conferences w' = conferences w ->
      reg_effect w w'
  | reg_registered (u : User) (wsck : string) (c : Conference) :
      conferences w !! wsck = Some c ->
      wsck ∉ conferenceKeysToAttend (profile_of u w) ->
      (0 < seatsAvailable c)%Z ->
      profiles w' =
        <[user_id u :=
            set_conferenceKeysToAttend
              (conferenceKeysToAttend (profile_of u w) ++ [wsck])
              (profile_of u w)]> (profiles w) ->
      conferences w' =
        <[wsck := set_seatsAvailable (seatsAvailable c - 1) c]>
          (conferences w) ->
      reg_effect w w'
  | reg_unregistered (u : User) (wsck : string) (c : Conference) :
      conferences w !! wsck = Some c ->
      wsck ∈ conferenceKeysToAttend (profile_of u w) ->
      profiles w' =
        <[user_id u :=
            set_conferenceKeysToAttend
              (list_remove wsck (conferenceKeysToAttend (profile_of u w)))
              (profile_of u w)]> (profiles w) ->
      conferences w' =
        <[wsck := set_seatsAvailable (seatsAvailable c + 1) c]>
          (conferences w) ->
      reg_effect w w'.

(** ** Sample data *)

Definition empty_world : World := mkWorld ∅ ∅ ∅ ∅ [].

Definition alice : User := mkUser "alice" "Alice" "alice@example.org".
Definition bob : User := mkUser "bob" "Bob" "bob@example.org".
Definition carol : User := mkUser "carol" "Carol" "carol@example.org".

(** A date parser and printer for the samples: no text is a date. *)
Definition no_date (s : string) : option Date := None.
Definition show_date (d : Date) : string := "".

(** A request that only names the conference and sizes it. *)
Definition conference_request (n : string) (maxA : option Z)
    (seats : option Z) : ConferenceForm :=
  mkConferenceForm (Some n) None [] None None None maxA seats None None None.

(** Scenario of the spec: a conference for two, created by Alice. *)
Definition pycon_world : World :=
  (_createConferenceObject no_date (Some alice)
     (conference_request "PyCon" (Some 2%Z) None) "pycon" empty_world).2.

(** A session type enum for the samples in which every name is a
    member. *)
Definition any_SessionType (x : option string) : Outcome string :=
  Ok (py_str x).

Definition pycon : Conference :=
  mkConference "PyCon" "London" DEFAULT_topics 2 2 None None 0 "alice".

Definition talk (spk : option string) : Session :=
  mkSession "pycon" (Some "Talk") [] spk None None None (Some "Lecture").

(** Alice's wishlist holds the key of a stored session and a key that
    resolves to nothing. *)
Definition stale_world : World :=
  mkWorld {[ "alice" := mkProfile "Alice" "alice@example.org" "NOT_SPECIFIED"
                                   [] ["talk"; "ghost"] ]}
          {[ "pycon" := pycon ]}
          {[ "talk" := talk (Some "Ada") ]}
          ∅ [].

Definition no_session (key : string) : Exn :=
  NotFoundException ("No session found with key: " +:+ key).

Definition already_on_wishlist : Exn :=
  ConflictException "This session is already on your wishlist".

Definition none_has_no_key : Exn :=
  AttributeError "'NoneType' object has no attribute 'key'".

(** The form [_copySessionToForm] builds for a stored session. *)
Definition form_of {SessionType} (key : string) (s : Session)
    (ty : SessionType) : SessionForm SessionType :=
  mkSessionForm (sess_name s) (sess_highlights s)
    (Some (py_str (sess_speaker s))) (Some (py_str (sess_date s)))
    (Some (py_str (sess_startTime s))) (Some (py_str (sess_duration s)))
    (Some ty) (Some key) None.

(** The events of a log that are datastore writes. *)
Definition is_put (e : Event) : Prop :=
  match e with
  | DsPut _ _ => True
  | _ => False
  end.

(** The speakers of a list of sessions, one entry per session that has a
    non-empty speaker, in the order of the list. *)
Definition speakers (sess : list (string * Session)) : list string :=
  omap (fun ks => if truthy (sess_speaker ks.2) then sess_speaker ks.2
                  else None) sess.

(** The number of sessions of a conference whose speaker is exactly [spk]. *)
Definition sessions_by (wsck : string) (w : World) (spk : string) : nat :=
  length (filter (fun ks => sess_speaker ks.2 = Some spk)
                 (sessions_under wsck w)).

(** Three sessions by Ada and one by Bob. *)
Definition featured_world : World :=
  mkWorld ∅ {[ "pycon" := pycon ]}
          {[ "t1" := talk (Some "Ada"); "t2" := talk (Some "Bob");
             "t3" := talk (Some "Ada"); "t4" := talk (Some "Ada") ]}
          ∅ [].

(** One session each by Ada and Bob, and a speaker published earlier. *)
Definition tie_world : World :=
  mkWorld ∅ {[ "pycon" := pycon ]}
          {[ "t1" := talk (Some "Ada"); "t2" := talk (Some "Bob") ]}
          {[ MEMCACHE_FEATURED_KEY := "Zed" ]} [].

(** A conference whose only session names no speaker. *)
Definition silent_world : World :=
  mkWorld ∅ {[ "pycon" := pycon ]} {[ "t1" := talk (Some "") ]} ∅ [].

(** The answer of the announcement query. *)
Definition nearly_sold_out_conferences
    (index_before : string * Conference -> string * Conference -> bool)
    (w : World) : list (string * Conference) :=
  sort_results index_before
    (filter (fun kc => nearly_sold_out kc.2 = true)
            (map_to_list (conferences w))).

(** The text of a list of names as the spec words it: the first name, and
    every further name after a comma and a blank. *)
Definition comma_separated (names : list string) : string :=
  match names with
  | [] => ""
  | n :: rest => foldl (fun text x => text +:+ ", " +:+ x) n rest
  end.

(** An index for the samples that puts no entity after another, and the
    entity groups of the samples: every key lies under Alice's profile. *)
Definition any_index (a b : string * Conference) : bool := true.
Definition alices_group (key : string) : string := "alice".

(** Two conferences that are about to sell out; the one with fewer seats
    has the later key. *)
Definition last_seats_world : World :=
  mkWorld ∅
    {[ "c1" := mkConference "FiveLeft" "London" [] 10 5 None None 0 "alice";
       "c2" := mkConference "OneLeft" "London" [] 10 1 None None 0 "alice";
       "c3" := mkConference "SoldOut" "London" [] 10 0 None None 0 "alice" ]}
    ∅ ∅ [].

(** What [list.remove(x)] does to a list that holds [x]: the first
    occurrence of [x] goes, everything else stays where it is. *)
Definition first_removed (x : string) (l l' : list string) : Prop :=
  ∃ l1 l2, l = l1 ++ x :: l2 ∧ (x ∉ l1) ∧ l' = l1 ++ l2.

(** Two conferences that differ at most in [seatsAvailable], and two
    profiles that differ at most in one of the two reference lists. *)
Definition same_but_seats (c c' : Conference) : Prop :=
  name c' = name c ∧ city c' = city c ∧ topics c' = topics c ∧
  maxAttendees c' = maxAttendees c ∧ startDate c' = startDate c ∧
  endDate c' = endDate c ∧ month c' = month c ∧
  organizerUserId c' = organizerUserId c.

Definition same_but_attendance (p p' : Profile) : Prop :=
  displayName p' = displayName p ∧ mainEmail p' = mainEmail p ∧
  teeShirtSize p' = teeShirtSize p ∧ sessWishlist p' = sessWishlist p.

Definition same_but_wishlist (p p' : Profile) : Prop :=
  displayName p' = displayName p ∧ mainEmail p' = mainEmail p ∧
  teeShirtSize p' = teeShirtSize p ∧
  conferenceKeysToAttend p' = conferenceKeysToAttend p.

(** The spec's announcement scenario: 3, 0 and 6 seats left. *)
Definition announcement_world : World :=
  mkWorld ∅
    {[ "c1" := mkConference "PyCon" "London" [] 10 3 None None 0 "alice";
       "c2" := mkConference "RustConf" "London" [] 10 0 None None 0 "alice";
       "c3" := mkConference "ICFP" "London" [] 10 6 None None 0 "alice" ]}
    ∅ ∅ [].

(** Alice has a profile and organises PyCon. *)
Definition organizer_world : World :=
  mkWorld {[ "alice" := fresh_profile alice ]} {[ "pycon" := pycon ]} ∅ ∅ [].

(** An update request that carries nothing but [seatsAvailable]. *)
Definition seats_request (n : Z) : ConferenceForm :=
  mkConferenceForm None None [] None None None None (Some n) None None None.

(** An update request that carries nothing but [maxAttendees]. *)
Definition capacity_request (n : Z) : ConferenceForm :=
  mkConferenceForm None None [] None None None (Some n) None None None None.

(** * Further endpoints and invariants *)

(** ** Duplicate-free reference lists *)

(** No profile holds a conference key or a session key twice. *)
Definition no_duplicates (w : World) : Prop :=
  ∀ uid p, profiles w !! uid = Some p ->
    NoDup (conferenceKeysToAttend p) ∧ NoDup (sessWishlist p).

(** Calls of the four endpoints that edit the reference lists. *)
Inductive ListOp :=
  | OpRegister (user : option User) (wsck : string)
  | OpUnregister (user : option User) (wsck : string)
  | OpAddWish (user : option User) (websafeSessionKey : string)
  | OpDeleteWish (user : option User) (websafeSessionKey : string).

Definition run_list_op (entity_group : string -> string) (w : World)
    (op : ListOp) : World :=
  match op with
  | OpRegister user wsck => (registerForConference user wsck w).2
  | OpUnregister user wsck => (unregisterFromConference user wsck w).2
  | OpAddWish user key => (addSessionToWishlist entity_group user key w).2
  | OpDeleteWish user key => (deleteSessionInWishlist user key w).2
  end.

Definition run_list_ops (entity_group : string -> string) (ops : list ListOp)
    (w : World) : World :=
  foldl (run_list_op entity_group) w ops.

(** An update request that carries nothing but a start date. *)
Definition start_date_request (d : string) : ConferenceForm :=
  mkConferenceForm None None [] None (Some d) None None None None None None.

(** An update request that carries nothing but a new organizer. *)
Definition hand_over_request (uid : string) : ConferenceForm :=
  mkConferenceForm None (Some uid) [] None None None None None None None None.

(** ** Query filters *)

(** One filter of a [ConferenceQueryForms] request: the three fields that
    [_formatFilters] reads; [None] when the request left the field out. *)
Record QueryFilter := mkQueryFilter {
  qf_field : option string;
  qf_operator : option string;
  qf_value : option string }.

(** A filter after formatting: datastore property, datastore operator and
    the value as given. *)
Record FormattedFilter := mkFormattedFilter {
  ff_field : string;
  ff_operator : string;
  ff_value : option string }.

Definition OPERATORS : gmap string string :=
  list_to_map [("EQ", "="); ("GT", ">"); ("GTEQ", ">="); ("LT", "<");
               ("LTEQ", "<="); ("NE", "!=")].

Definition FIELDS : gmap string string :=
  list_to_map [("CITY", "city"); ("TOPIC", "topics"); ("MONTH", "month");
               ("MAX_ATTENDEES", "maxAttendees")].

(** [FIELDS[filtr["field"]]] and [OPERATORS[filtr["operator"]]]; [None]
    is the [KeyError]. *)
Definition filter_field (f : QueryFilter) : option string :=
  qf_field f ≫= (fun k => FIELDS !! k).

Definition filter_operator (f : QueryFilter) : option string :=
  qf_operator f ≫= (fun k => OPERATORS !! k).

(** The loop of [_formatFilters] over the filters that are left, with the
    inequality field and the formatted filters so far. *)
Fixpoint format_loop (filters : list QueryFilter)
    (inequality_field : option string)
    (formatted_filters : list FormattedFilter)
    : Outcome (option string * list FormattedFilter) :=
  match filters with
  | [] => Ok (inequality_field, formatted_filters)
  | f :: rest =>
      match filter_field f, filter_operator f with
      | Some fld, Some op =>
          let filtr := mkFormattedFilter fld op (qf_value f) in
          if negb (bool_decide (op = "=")) then
            if truthy inequality_field
               && negb (bool_decide (inequality_field = Some fld))
            then Raise (BadRequestException
                          "Inequality filter is allowed on only one field.")
            else format_loop rest (Some fld) (formatted_filters ++ [filtr])
          else format_loop rest inequality_field (formatted_filters ++ [filtr])
      | _, _ =>
          Raise (BadRequestException
                   "Filter contains invalid field or operator.")
      end
  end.

(** [_formatFilters(filters)]. *)
Definition _formatFilters (filters : list QueryFilter)
    : Outcome (option string * list FormattedFilter) :=
  format_loop filters None [].

(** A filter whose operator is not equality. *)
Definition is_inequality (f : QueryFilter) : Prop :=
  ∃ op, filter_operator f = Some op ∧ op ≠ "=".

Definition sample_filters : list QueryFilter :=
  [mkQueryFilter (Some "CITY") (Some "EQ") (Some "London");
   mkQueryFilter (Some "MONTH") (Some "GT") (Some "5");
   mkQueryFilter (Some "MONTH") (Some "LTEQ") (Some "9")].

(** How a formatted filter relates to the filter it comes from. *)
Definition formats (f : QueryFilter) (o : FormattedFilter) : Prop :=
  filter_field f = Some (ff_field o) ∧
  filter_operator f = Some (ff_operator o) ∧
  ff_value o = qf_value f.

(** ** Sessions *)

Arguments sf_highlights {SessionType}.
Arguments sf_date {SessionType}.
Arguments sf_startTime {SessionType}.
Arguments sf_duration {SessionType}.
Arguments sf_typeOfSession {SessionType}.
Arguments sf_websafeCnfKey {SessionType}.

Definition put_session (key : string) (s : Session) : M unit :=
  fun w => (Ok tt,
            log (DsPut KSession key)
                (mkWorld (profiles w) (conferences w)
                         (<[key := s]> (sessions w)) (memcache w) (trace w))).

Definition DEFAULT_session_name : string := "Demo Session".
Definition DEFAULT_session_highlights : list string := ["Default"; "Highlight"].
Definition DEFAULT_session_speaker : string := "Michael Johnson".
Definition DEFAULT_session_date : string := "2016-01-01".
Definition DEFAULT_session_duration : string := "00:00".
Definition DEFAULT_session_startTime : string := "18:00".

Definition not_the_owner : Exn :=
  ForbiddenException "The conference can only be updated by the owner.".

Section Sessions.
(** The enum [SessionType] of [models.py]: the lookup by name, [str] of a
    member, and the member [SessionType("Lecture")] of [DEFAULTS_SESSION].
    An enum member is a true value. *)
Variable SessionType : Type.
Variable getattr_SessionType : option string -> Outcome SessionType.
Variable str_SessionType : SessionType -> string.
Variable Lecture : SessionType.
(** [datetime.strptime] with ["%Y-%m-%d"] and with ["%H:%M"] ([None] for
    [ValueError]) and [str] of the date and of the time. *)
Variable strptime : string -> option Date.
Variable str_date : Date -> string.
Variable Time : Type.
Variable strptime_time : string -> option Time.
Variable str_time : Time -> string.

Definition parse_time_if_given (x : option string) : Outcome (option Time) :=
  if truthy x then
    match strptime_time (String.substring 0 5 (default "" x)) with
    | Some t => Ok (Some t)
    | None => Raise ValueError
    end
  else Ok None.

(** [_createSessionObject(request)].  [conf.key] is read before any check
    on [conf] and on the caller.  [s_key] is the websafe key built from
    the id that [Session.allocate_ids] returns. *)
Definition _createSessionObject (user : option User)
    (request : SessionForm SessionType) (websafeConferenceKey : string)
    (s_key : string) : M (SessionForm SessionType) :=
  conf <- get_conference websafeConferenceKey ;;
  match conf with
  | None => raise none_has_no_key
  | Some c =>
      match user with
      | None => raise (UnauthorizedException "Authorization required")
      | Some u =>
          if negb (bool_decide (user_id u = organizerUserId c)) then
            raise not_the_owner
          else
            let d_name := default DEFAULT_session_name (sf_name request) in
            let d_highlights :=
              match sf_highlights request with
              | [] => DEFAULT_session_highlights
              | h => h
              end in
            let d_typeOfSession :=
              default Lecture (sf_typeOfSession request) in
            let d_speaker :=
              default DEFAULT_session_speaker (sf_speaker request) in
            let d_date := default DEFAULT_session_date (sf_date request) in
            let d_duration :=
              default DEFAULT_session_duration (sf_duration request) in
            let d_startTime :=
              default DEFAULT_session_startTime (sf_startTime request) in
            match parse_if_given strptime (Some d_date) with
            | Raise e => raise e
            | Ok date =>
                match parse_time_if_given (Some d_startTime) with
                | Raise e => raise e
                | Ok startTime =>
                    match parse_time_if_given (Some d_duration) with
                    | Raise e => raise e
                    | Ok duration =>
                        (fun w =>
                           (Ok tt,
                            log (DsAllocateIds KSession websafeConferenceKey)
                                w)) ;;
                        (* the Session constructor rejects an empty text as
                           a date or a time *)
                        if bool_decide (d_date = "")
                           || bool_decide (d_startTime = "")
                           || bool_decide (d_duration = "")
                        then raise BadValueError
                        else
                          put_session s_key
                            (mkSession websafeConferenceKey (Some d_name)
                               d_highlights (Some d_speaker)
                               (str_date <$> date) (str_time <$> startTime)
                               (str_time <$> duration)
                               (Some (str_SessionType d_typeOfSession))) ;;
                          taskqueue_add "/tasks/featured_speaker" ;;
                          sess <- get_session s_key ;;
                          _copySessionToForm SessionType getattr_SessionType
                            ((fun x => (s_key, x)) <$> sess)
                    end
                end
            end
      end
  end.

(** The three listings; each reads [conf.key] before its check on
    [conf]. *)
Definition list_sessions (websafeConferenceKey : string)
    (keep : Session -> bool) : M (list (SessionForm SessionType)) :=
  conf <- get_conference websafeConferenceKey ;;
  match conf with
  | None => raise none_has_no_key
  | Some _ =>
      sessions <- query_sessions websafeConferenceKey ;;
      copy_all SessionType getattr_SessionType
        (Some <$> filter (fun ks => keep ks.2 = true) sessions)
  end.

(** [getConferenceSessions]. *)
Definition getConferenceSessions (websafeConferenceKey : string)
    : M (list (SessionForm SessionType)) :=
  list_sessions websafeConferenceKey (fun _ => true).

(** [getConferenceSessionsByType]: the filter compares with
    [str(request.typeOfSession)]. *)
Definition getConferenceSessionsByType (typeOfSession : option SessionType)
    (websafeConferenceKey : string) : M (list (SessionForm SessionType)) :=
  list_sessions websafeConferenceKey
    (fun s => bool_decide (sess_typeOfSession s =
                           Some (py_str (str_SessionType <$> typeOfSession)))).

(** [getSessionsBySpeaker]: the filter compares with
    [str(request.speaker)]. *)
Definition getSessionsBySpeaker (speaker : option string)
    (websafeConferenceKey : string) : M (list (SessionForm SessionType)) :=
  list_sessions websafeConferenceKey
    (fun s => bool_decide (sess_speaker s = Some (py_str speaker))).
End Sessions.

(** A request for a session that only names the speaker. *)
Definition speaker_request (spk : option string) : SessionForm string :=
  mkSessionForm None [] spk None None None None None None.

(** Date and time parsers for the samples: every text is a date, and a
    time, rendered as itself. *)
Definition any_date (s : string) : option Date := Some (mkDate 2016 1 1).
Definition any_time (s : string) : option string := Some s.

(** ** Profiles *)

Definition set_displayName (n : string) (p : Profile) : Profile :=
  mkProfile n (mainEmail p) (teeShirtSize p) (conferenceKeysToAttend p)
            (sessWishlist p).

Definition set_teeShirtSize (t : string) (p : Profile) : Profile :=
  mkProfile (displayName p) (mainEmail p) t (conferenceKeysToAttend p)
            (sessWishlist p).

(** The two fields of [ProfileMiniForm] that [_doProfile] reads. *)
Record ProfileMiniForm (TeeShirtSize : Type) := mkProfileMiniForm {
  pmf_displayName : option string;
  pmf_teeShirtSize : option TeeShirtSize }.
Arguments mkProfileMiniForm {TeeShirtSize}.
Arguments pmf_displayName {TeeShirtSize}.
Arguments pmf_teeShirtSize {TeeShirtSize}.

(** Modelled from the spec: [ProfileForm] is declared in [models.py],
    which is not part of the sources at hand.  The form is given the fields
    of the spec's Profile; the t-shirt size is the enum member that
    [_copyProfileToForm] looks up. *)
Record ProfileForm (TeeShirtSize : Type) := mkProfileForm {
  pf_displayName : string;
  pf_mainEmail : string;
  pf_teeShirtSize : TeeShirtSize;
  pf_conferenceKeysToAttend : list string;
  pf_sessWishlist : list string }.
Arguments mkProfileForm {TeeShirtSize}.
Arguments pf_displayName {TeeShirtSize}.
Arguments pf_mainEmail {TeeShirtSize}.
Arguments pf_teeShirtSize {TeeShirtSize}.
Arguments pf_conferenceKeysToAttend {TeeShirtSize}.
Arguments pf_sessWishlist {TeeShirtSize}.

Section Profiles.
(** The enum [TeeShirtSize] of [models.py]: the lookup by name and [str]
    of a member.  An enum member is a true value. *)
Variable TeeShirtSize : Type.
Variable getattr_TeeShirtSize : string -> Outcome TeeShirtSize.
Variable str_TeeShirtSize : TeeShirtSize -> string.

(** [_copyProfileToForm(prof)]. *)
Definition _copyProfileToForm (prof : Profile) : M (ProfileForm TeeShirtSize) :=
  match getattr_TeeShirtSize (teeShirtSize prof) with
  | Raise e => raise e
  | Ok t =>
      ret (mkProfileForm (displayName prof) (mainEmail prof) t
             (conferenceKeysToAttend prof) (sessWishlist prof))
  end.

(** [_doProfile(save_request)]: each of the two fields that has a true
    value is written to the profile, which is stored at once.  Names are
    ASCII text, on which [str] is the identity. *)
Definition _doProfile (user : option User)
    (save_request : option (ProfileMiniForm TeeShirtSize))
    : M (ProfileForm TeeShirtSize) :=
  prof <- _getProfileFromUser user ;;
  prof' <- match save_request with
           | None => ret prof.2
           | Some req =>
               p1 <- (if truthy (pmf_displayName req) then
                        put_profile prof.1
                          (set_displayName (default "" (pmf_displayName req))
                                           prof.2) ;;
                        ret (set_displayName
                               (default "" (pmf_displayName req)) prof.2)
                      else ret prof.2) ;;
               match pmf_teeShirtSize req with
               | Some t =>
                   put_profile prof.1
                     (set_teeShirtSize (str_TeeShirtSize t) p1) ;;
                   ret (set_teeShirtSize (str_TeeShirtSize t) p1)
               | None => ret p1
               end
           end ;;
  _copyProfileToForm prof'.

(** [getProfile] and [saveProfile]. *)
Definition getProfile (user : option User) : M (ProfileForm TeeShirtSize) :=
  _doProfile user None.

Definition saveProfile (user : option User)
    (request : ProfileMiniForm TeeShirtSize) : M (ProfileForm TeeShirtSize) :=
  _doProfile user (Some request).
End Profiles.

(** A t-shirt enum for the samples in which every name is a member. *)
Definition any_TeeShirtSize (x : string) : Outcome string := Ok x.

(** ** Conferences to attend *)

Definition none_has_no_organizer : Exn :=
  AttributeError "'NoneType' object has no attribute 'organizerUserId'".

(** [ndb.get_multi] over conference keys and over profile keys. *)
Fixpoint get_multi_conferences (keys : list string)
    : M (list (option (string * Conference))) :=
  match keys with
  | [] => ret []
  | k :: keys' =>
      c <- get_conference k ;;
      rest <- get_multi_conferences keys' ;;
      ret (((fun x => (k, x)) <$> c) :: rest)
  end.

Fixpoint get_multi_profiles (keys : list string)
    : M (list (option (string * Profile))) :=
  match keys with
  | [] => ret []
  | k :: keys' =>
      p <- get_profile k ;;
      rest <- get_multi_profiles keys' ;;
      ret (((fun x => (k, x)) <$> p) :: rest)
  end.

(** [[ndb.Key(Profile, conf.organizerUserId) for conf in conferences]]. *)
Fixpoint organisers_of (confs : list (option (string * Conference)))
    : Outcome (list string) :=
  match confs with
  | [] => Ok []
  | None :: _ => Raise none_has_no_organizer
  | Some (_, c) :: rest =>
      match organisers_of rest with
      | Ok l => Ok (organizerUserId c :: l)
      | Raise e => Raise e
      end
  end.

(** The loop [names[profile.key.id()] = profile.displayName]. *)
Fixpoint names_of (profs : list (option (string * Profile)))
    (names : gmap string string) : Outcome (gmap string string) :=
  match profs with
  | [] => Ok names
  | None :: _ => Raise none_has_no_key
  | Some (uid, p) :: rest => names_of rest (<[uid := displayName p]> names)
  end.

Section ConferencesToAttend.
Variable str_date : Date -> string.

(** [getConferencesToAttend].  Every organizer id that is looked up in
    [names] was stored there by the loop before. *)
Definition getConferencesToAttend (user : option User)
    : M (list ConferenceForm) :=
  prof <- _getProfileFromUser user ;;
  confs <- get_multi_conferences (conferenceKeysToAttend prof.2) ;;
  match organisers_of confs with
  | Raise e => raise e
  | Ok organisers =>
      profs <- get_multi_profiles organisers ;;
      match names_of profs ∅ with
      | Raise e => raise e
      | Ok names =>
          ret (omap (fun o : option (string * Conference) =>
                       (fun kc : string * Conference =>
                          _copyConferenceToForm str_date
                            (mkConfObj kc.1 kc.2 None None None)
                            (default "" (names !! organizerUserId kc.2)))
                       <$> o) confs)
      end
  end.
End ConferencesToAttend.

(** Bob is registered for PyCon; its organizer Alice has no profile. *)
Definition attendee_world : World :=
  (registerForConference (Some bob) "pycon" pycon_world).2.

(** * Properties *)

Ltac unfold_m :=
  unfold registerForConference, unregisterFromConference,
    _conferenceRegistration, addSessionToWishlist, deleteSessionInWishlist,
    _getProfileFromUser, transactional, bind, ret,
    raise, get_profile, put_profile, get_conference, put_conference,
    get_session, memcache_get, memcache_set, memcache_delete, taskqueue_add,
    query_sessions, query_conferences, getSessionsInWishlist,
    _copySessionToForm, _cacheFeaturedSpeaker, _cacheAnnouncement,
    getAnnouncement, getFeaturedSpeaker, refuse_second_group, log in *.

Lemma elem_of_snoc (x : string) (l : list string) : x ∈ l ++ [x].
Proof. apply elem_of_app. right. apply list_elem_of_here. Qed.

Lemma list_remove_elem (x k : string) (l : list string) :
  k ∈ list_remove x l -> k ∈ l.
Proof.
  induction l as [|y l IH]; [done|]. cbn.
  destruct (decide (x = y)).
  - apply list_elem_of_further.
  - intros [->|H]%elem_of_cons; [apply list_elem_of_here|].
    by apply list_elem_of_further, IH.
Qed.

(** [list_remove] does what [list.remove] does. *)
Lemma list_remove_first_removed (x : string) (l : list string) :
  x ∈ l -> first_removed x l (list_remove x l).
Proof.
  induction l as [|y l IH]; [by inversion 1|].
  intros Hin. cbn [list_remove]. destruct (decide (x = y)) as [<-|Hne].
  - exists [], l. split; [done|]. split; [by inversion 1|done].
  - apply elem_of_cons in Hin as [Hin|Hin]; [congruence|].
    destruct (IH Hin) as (l1 & l2 & Hl & Hni & Hrem).
    exists (y :: l1), l2. rewrite Hrem. split; [by rewrite Hl|].
    split; [|done]. apply not_elem_of_cons. by split.
Qed.

(** ** The registration engine *)

Section Registration.
Context (u : User) (wsck : string) (w : World).

Lemma profile_of_Some p :
    profiles w !! user_id u = Some p -> profile_of u w = p.
  Proof. unfold profile_of. by intros ->. Qed.

Lemma profile_of_None :
    profiles w !! user_id u = None -> profile_of u w = fresh_profile u.
  Proof. unfold profile_of. by intros ->. Qed.

Lemma registration_not_found reg :
    conferences w !! wsck = None ->
    let r := _conferenceRegistration (Some u) wsck reg w in
    r.1 = Raise (no_conference wsck) ∧ same_store w r.2.
  Proof.
    intros Hc. unfold_m.
    destruct (profiles w !! user_id u); cbn; rewrite Hc; by cbn.
  Qed.

Lemma register_already c :
    conferences w !! wsck = Some c ->
    wsck ∈ conferenceKeysToAttend (profile_of u w) ->
    let r := registerForConference (Some u) wsck w in
    r.1 = Raise already_registered ∧ same_store w r.2.
  Proof.
    intros Hc Hin. unfold_m. unfold profile_of in Hin.
    destruct (profiles w !! user_id u) as [p|]; cbn in *; rewrite Hc; cbn.
    - rewrite bool_decide_eq_true_2 by done. by cbn.
    - by apply elem_of_nil in Hin.
  Qed.

Lemma register_no_seats c :
    conferences w !! wsck = Some c ->
    wsck ∉ conferenceKeysToAttend (profile_of u w) ->
    (seatsAvailable c <= 0)%Z ->
    let r := registerForConference (Some u) wsck w in
    r.1 = Raise sold_out ∧ same_store w r.2.
  Proof.
    intros Hc Hin Hs. unfold_m. unfold profile_of in Hin.
    apply Z.leb_le in Hs.
    destruct (profiles w !! user_id u) as [p|]; cbn in *; rewrite Hc; cbn;
      rewrite bool_decide_eq_false_2 by done; rewrite Hs; by cbn.
  Qed.

Lemma register_ok c :
    conferences w !! wsck = Some c ->
    wsck ∉ conferenceKeysToAttend (profile_of u w) ->
    (0 < seatsAvailable c)%Z ->
    let r := registerForConference (Some u) wsck w in
    let p := profile_of u w in
    r.1 = Ok true ∧
    profiles r.2 =
      <[user_id u :=
          set_conferenceKeysToAttend (conferenceKeysToAttend p ++ [wsck]) p]>
        (profiles w) ∧
    conferences r.2 =
      <[wsck := set_seatsAvailable (seatsAvailable c - 1) c]> (conferences w) ∧
    sessions r.2 = sessions w ∧ memcache r.2 = memcache w.
  Proof.
    intros Hc Hin Hs. unfold_m. unfold profile_of in *.
    assert ((seatsAvailable c <=? 0)%Z = false) as Hs' by by apply Z.leb_gt.
    destruct (profiles w !! user_id u) as [p|]; cbn in *; rewrite Hc; cbn;
      rewrite bool_decide_eq_false_2 by done; rewrite Hs'; cbn;
      rewrite ?insert_insert_eq; done.
  Qed.

Lemma unregister_absent c :
    conferences w !! wsck = Some c ->
    wsck ∉ conferenceKeysToAttend (profile_of u w) ->
    let r := unregisterFromConference (Some u) wsck w in
    r.1 = Ok false ∧
    profiles r.2 = <[user_id u := profile_of u w]> (profiles w) ∧
    conferences r.2 = conferences w ∧
    sessions r.2 = sessions w ∧ memcache r.2 = memcache w.
  Proof.
    intros Hc Hin. unfold_m. unfold profile_of in *.
    destruct (profiles w !! user_id u) as [p|]; cbn in *; rewrite Hc; cbn;
      rewrite bool_decide_eq_false_2 by done; cbn;
      rewrite ?insert_insert_eq, (insert_id (conferences w)) by done; done.
  Qed.

Lemma unregister_ok c :
    conferences w !! wsck = Some c ->
    wsck ∈ conferenceKeysToAttend (profile_of u w) ->
    let r := unregisterFromConference (Some u) wsck w in
    let p := profile_of u w in
    r.1 = Ok true ∧
    profiles r.2 =
      <[user_id u :=
          set_conferenceKeysToAttend
            (list_remove wsck (conferenceKeysToAttend p)) p]> (profiles w) ∧
    conferences r.2 =
      <[wsck := set_seatsAvailable (seatsAvailable c + 1) c]> (conferences w) ∧
    sessions r.2 = sessions w ∧ memcache r.2 = memcache w.
  Proof.
    intros Hc Hin. unfold_m. unfold profile_of in *.
    destruct (profiles w !! user_id u) as [p|]; cbn in *.
    - rewrite Hc; cbn. rewrite bool_decide_eq_true_2 by done. by cbn.
    - by apply elem_of_nil in Hin.
  Qed.
End Registration.

Lemma registration_unauthorized wsck reg w :
  let r := _conferenceRegistration None wsck reg w in
  r.1 = Raise (UnauthorizedException "Authorization required") ∧
  same_store w r.2.
Proof. by unfold_m. Qed.

(** C2.  [Register]: NotFound when the conference key does not resolve;
    Conflict when the key is already in the profile's
    [conferenceKeysToAttend]; Conflict when [seatsAvailable <= 0]; in each
    failure the stored profile and conference are left as they were.
    Otherwise it returns true; the stored profile then has the key
    appended to its list and is otherwise the same, the stored conference
    has [seatsAvailable] lower by exactly one and is otherwise the same,
    and a second registration by the same profile fails with Conflict and
    changes nothing. *)
Theorem C2_register (u : User) (wsck : string) (w : World) :
  let r := registerForConference (Some u) wsck w in
  let p := profile_of u w in
  (conferences w !! wsck = None ->
     r.1 = Raise (no_conference wsck) ∧ same_store w r.2) ∧
  (∀ c, conferences w !! wsck = Some c ->
     wsck ∈ conferenceKeysToAttend p ->
     r.1 = Raise already_registered ∧ same_store w r.2) ∧
  (∀ c, conferences w !! wsck = Some c -> (seatsAvailable c <= 0)%Z ->
     (∃ msg, r.1 = Raise (ConflictException msg)) ∧ same_store w r.2) ∧
  (∀ c, conferences w !! wsck = Some c ->
     wsck ∉ conferenceKeysToAttend p -> (0 < seatsAvailable c)%Z ->
     r.1 = Ok true ∧
     (∃ p', profiles r.2 !! user_id u = Some p' ∧
            conferenceKeysToAttend p' = conferenceKeysToAttend p ++ [wsck] ∧
            same_but_attendance p p') ∧
     (∀ v, v ≠ user_id u -> profiles r.2 !! v = profiles w !! v) ∧
     (∃ c', conferences r.2 !! wsck = Some c' ∧
            seatsAvailable c' = (seatsAvailable c - 1)%Z ∧
            same_but_seats c c') ∧
     (∀ k, k ≠ wsck -> conferences r.2 !! k = conferences w !! k) ∧
     sessions r.2 = sessions w ∧ memcache r.2 = memcache w ∧
     let r2 := registerForConference (Some u) wsck r.2 in
     r2.1 = Raise already_registered ∧ same_store r.2 r2.2).
Proof.
  cbv zeta. split; [|split; [|split]].
  - apply registration_not_found.
  - apply register_already.
  - intros c Hc Hs.
    destruct (decide (wsck ∈ conferenceKeysToAttend (profile_of u w))) as [Hin|Hin].
    + destruct (register_already u wsck w c Hc Hin) as [-> ?]. eauto.
    + destruct (register_no_seats u wsck w c Hc Hin Hs) as [-> ?]. eauto.
  - intros c Hc Hin Hs.
    destruct (register_ok u wsck w c Hc Hin Hs) as (Hr & Hp & Hcs & Hss & Hm).
    assert (let r2 := registerForConference (Some u) wsck
                        (registerForConference (Some u) wsck w).2 in
            r2.1 = Raise already_registered ∧
            same_store (registerForConference (Some u) wsck w).2 r2.2) as H2.
    { eapply register_already.
      - rewrite Hcs. apply lookup_insert_eq.
      - erewrite profile_of_Some by (rewrite Hp; apply lookup_insert_eq).
        cbn. apply elem_of_snoc. }
    cbv zeta in H2. destruct H2 as [H2 H2'].
    rewrite Hp, Hcs. split_and!; try done.
    + eexists. split; [apply lookup_insert_eq|]. by repeat split.
    + intros v Hv. by apply lookup_insert_ne.
    + eexists. split; [apply lookup_insert_eq|]. by repeat split.
    + intros k Hk. by apply lookup_insert_ne.
Qed.

Lemma C2_register_witness :
  let r := registerForConference (Some alice) "pycon" pycon_world in
  seatsAvailable <$> conferences pycon_world !! "pycon" = Some 2%Z ∧
  r.1 = Ok true ∧
  seatsAvailable <$> conferences r.2 !! "pycon" = Some 1%Z ∧
  conferenceKeysToAttend <$> profiles r.2 !! "alice" = Some ["pycon"] ∧
  let r2 := registerForConference (Some alice) "pycon" r.2 in
  r2.1 = Raise already_registered ∧ same_store r.2 r2.2.
Proof.
  destruct (C2_register alice "pycon" pycon_world) as (_ & _ & _ & H).
  destruct (H pycon)
    as (Hr & (p' & Hp' & Hkeys & _) & _ & (c' & Hc' & Hseats & _) & _ & _ & _
        & H2).
  - reflexivity.
  - vm_compute. by inversion 1.
  - cbn. lia.
  - cbv zeta. change (user_id alice) with "alice" in Hp'.
    rewrite Hc', Hp'. cbn [fmap option_fmap option_map].
    rewrite Hseats, Hkeys.
    split; [reflexivity|]. split; [exact Hr|]. split; [reflexivity|].
    split; [reflexivity|]. exact H2.
Defined.

(** C3.  [Unregister]: NotFound when the conference key does not resolve;
    when the key is not in the profile's list the call returns false (no
    exception) and leaves the conference and the profile's list as they
    were; otherwise it returns true; the stored profile's list is then the
    old list without the first occurrence of the key, the rest of the
    profile is the same, and the stored conference has [seatsAvailable]
    higher by exactly one, whatever [maxAttendees] is, and is otherwise the
    same. *)
Theorem C3_unregister (u : User) (wsck : string) (w : World) :
  let r := unregisterFromConference (Some u) wsck w in
  let p := profile_of u w in
  (conferences w !! wsck = None ->
     r.1 = Raise (no_conference wsck) ∧ same_store w r.2) ∧
  (∀ c, conferences w !! wsck = Some c ->
     wsck ∉ conferenceKeysToAttend p ->
     r.1 = Ok false ∧
     conferences r.2 = conferences w ∧
     profiles r.2 !! user_id u = Some p ∧
     (∀ v, v ≠ user_id u -> profiles r.2 !! v = profiles w !! v)) ∧
  (∀ c, conferences w !! wsck = Some c ->
     wsck ∈ conferenceKeysToAttend p ->
     r.1 = Ok true ∧
     (∃ p', profiles r.2 !! user_id u = Some p' ∧
            first_removed wsck (conferenceKeysToAttend p)
                          (conferenceKeysToAttend p') ∧
            length (conferenceKeysToAttend p) =
              S (length (conferenceKeysToAttend p')) ∧
            same_but_attendance p p') ∧
     (∀ v, v ≠ user_id u -> profiles r.2 !! v = profiles w !! v) ∧
     (∃ c', conferences r.2 !! wsck = Some c' ∧
            seatsAvailable c' = (seatsAvailable c + 1)%Z ∧
            maxAttendees c' = maxAttendees c ∧
            same_but_seats c c') ∧
     (∀ k, k ≠ wsck -> conferences r.2 !! k = conferences w !! k)).
Proof.
  cbv zeta. split; [|split].
  - apply registration_not_found.
  - intros c Hc Hin.
    destruct (unregister_absent u wsck w c Hc Hin) as (Hr & Hp & Hcs & _).
    rewrite Hp, Hcs. split_and!; try done.
    + apply lookup_insert_eq.
    + intros v Hv. by apply lookup_insert_ne.
  - intros c Hc Hin.
    destruct (unregister_ok u wsck w c Hc Hin) as (Hr & Hp & Hcs & _).
    rewrite Hp, Hcs. split_and!; try done.
    + eexists. split; [apply lookup_insert_eq|].
      pose proof (list_remove_first_removed wsck _ Hin) as Hrem.
      split; [exact Hrem|]. split; [|by repeat split].
      cbn. destruct Hrem as (l1 & l2 & Hl & _ & ->).
      rewrite Hl, !length_app. cbn. lia.
    + intros v Hv. by apply lookup_insert_ne.
    + eexists. split; [apply lookup_insert_eq|].
      split; [done|]. split; [done|]. by repeat split.
    + intros k Hk. by apply lookup_insert_ne.
Qed.

Lemma C3_unregister_witness :
  let w := (registerForConference (Some alice) "pycon" pycon_world).2 in
  let r := unregisterFromConference (Some alice) "pycon" w in
  conferenceKeysToAttend <$> profiles w !! "alice" = Some ["pycon"] ∧
  seatsAvailable <$> conferences w !! "pycon" = Some 1%Z ∧
  r.1 = Ok true ∧
  length <$> (conferenceKeysToAttend <$> profiles r.2 !! "alice") = Some 0%nat ∧
  seatsAvailable <$> conferences r.2 !! "pycon" = Some 2%Z.
Proof.
  destruct (C3_unregister alice "pycon"
              (registerForConference (Some alice) "pycon" pycon_world).2)
    as (_ & _ & H).
  destruct (H (set_seatsAvailable 1 pycon))
    as (Hr & (p' & Hp' & _ & Hlen & _) & _ & (c' & Hc' & Hseats & _) & _).
  - reflexivity.
  - vm_compute. apply list_elem_of_here.
  - cbv zeta. change (user_id alice) with "alice" in Hp'.
    rewrite Hp', Hc'. cbn [fmap option_fmap option_map].
    rewrite Hseats. injection Hlen as <-.
    split_and!; [reflexivity|reflexivity|exact Hr|reflexivity|reflexivity].
Defined.

(** The scenario of the spec on a conference for two: P1 registers (one
    seat left), P1 again (Conflict), P2 registers (none left), P3 is turned
    away (Conflict), P1 unregisters (one seat left). *)
Lemma registration_scenario :
  let s1 := registerForConference (Some alice) "pycon" pycon_world in
  let s2 := registerForConference (Some alice) "pycon" s1.2 in
  let s3 := registerForConference (Some bob) "pycon" s2.2 in
  let s4 := registerForConference (Some carol) "pycon" s3.2 in
  let s5 := unregisterFromConference (Some alice) "pycon" s4.2 in
  let seats w := seatsAvailable <$> conferences w !! "pycon" in
  seats pycon_world = Some 2%Z ∧
  s1.1 = Ok true ∧ seats s1.2 = Some 1%Z ∧
  s2.1 = Raise already_registered ∧ seats s2.2 = Some 1%Z ∧
  s3.1 = Ok true ∧ seats s3.2 = Some 0%Z ∧
  s4.1 = Raise sold_out ∧ seats s4.2 = Some 0%Z ∧
  s5.1 = Ok true ∧ seats s5.2 = Some 1%Z.
Proof. cbv zeta. split_and!; by vm_compute. Qed.

(** Unregistering does not compare with [maxAttendees]: Alice registers
    for her conference for two, lowers its capacity to one and
    unregisters; two seats are then available of a capacity of one. *)
Lemma unregister_no_clamp_scenario :
  let s1 := registerForConference (Some alice) "pycon" organizer_world in
  let s2 := _updateConferenceObject no_date show_date (Some alice)
              (capacity_request 1) "pycon" s1.2 in
  let s3 := unregisterFromConference (Some alice) "pycon" s2.2 in
  s1.1 = Ok true ∧ (∃ form, s2.1 = Ok form) ∧ s3.1 = Ok true ∧
  seatsAvailable <$> conferences s3.2 !! "pycon" = Some 2%Z ∧
  maxAttendees <$> conferences s3.2 !! "pycon" = Some 1%Z.
Proof.
  cbv zeta. split_and!; [by vm_compute| |by vm_compute..].
  eexists. vm_compute. reflexivity.
Qed.

(** ** Seat accounting *)

Lemma registration_effect user wsck reg w :
  reg_effect w (_conferenceRegistration user wsck reg w).2.
Proof.
  destruct user as [u|].
  2:{ destruct (registration_unauthorized wsck reg w) as (_ & ? & ? & _).
      by apply reg_unchanged. }
  destruct (conferences w !! wsck) as [c|] eqn:Hc.
  2:{ destruct (registration_not_found u wsck w reg Hc) as (_ & ? & ? & _).
      by apply reg_unchanged. }
  destruct (decide (wsck ∈ conferenceKeysToAttend (profile_of u w)))
    as [Hin|Hin]; destruct reg.
  - destruct (register_already u wsck w c Hc Hin) as (_ & ? & ? & _).
    by apply reg_unchanged.
  - destruct (unregister_ok u wsck w c Hc Hin) as (_ & ? & ? & _).
    by eapply reg_unregistered.
  - destruct (Z_le_gt_dec (seatsAvailable c) 0) as [Hs|Hs].
    + destruct (register_no_seats u wsck w c Hc Hin Hs) as (_ & ? & ? & _).
      by apply reg_unchanged.
    + destruct (register_ok u wsck w c Hc Hin) as (_ & ? & ? & _); [lia|].
      eapply reg_registered; eauto. lia.
  - destruct (unregister_absent u wsck w c Hc Hin) as (_ & ? & ? & _).
    by eapply reg_touched.
Qed.

Section Counting.
Context (k : string).

Lemma counter_app l1 l2 :
    counter (l1 ++ l2) k = (counter l1 k + counter l2 k)%nat.
  Proof. unfold counter. by rewrite filter_app, length_app. Qed.

Lemma counter_cons x l :
    counter (x :: l) k =
      ((if decide (x = k) then 1 else 0) + counter l k)%nat.
  Proof.
    unfold counter. rewrite filter_cons. by destruct (decide (x = k)).
  Qed.

Lemma counter_not_elem l : k ∉ l -> counter l k = 0%nat.
  Proof.
    induction l as [|x l IH]; [done|]. intros [Hne Hn]%not_elem_of_cons.
    rewrite counter_cons, IH by done.
    destruct (decide (x = k)); [congruence|done].
  Qed.

Lemma counter_elem l : k ∈ l -> (0 < counter l k)%nat.
  Proof.
    induction l as [|x l IH]; [by inversion 1|].
    intros Hin. rewrite counter_cons.
    destruct (decide (x = k)); [lia|]. apply IH.
    apply elem_of_cons in Hin as [Hin|Hin]; [congruence|done].
  Qed.

Lemma counter_remove_same l :
    k ∈ l -> S (counter (list_remove k l) k) = counter l k.
  Proof.
    induction l as [|x l IH]; [by inversion 1|].
    intros Hin. cbn [list_remove]. destruct (decide (k = x)) as [<-|Hne].
    - rewrite counter_cons. by rewrite decide_True.
    - rewrite !counter_cons. rewrite decide_False by done.
      cbn. apply IH.
      apply elem_of_cons in Hin as [Hin|Hin]; [congruence|done].
  Qed.

Lemma counter_remove_other x l :
    x ≠ k -> counter (list_remove x l) k = counter l k.
  Proof.
    intros Hne. induction l as [|y l IH]; [done|].
    cbn [list_remove]. destruct (decide (x = y)) as [->|Hxy].
    - rewrite counter_cons. by rewrite decide_False.
    - by rewrite !counter_cons, IH.
  Qed.

Lemma attending_empty : attending k ∅ = 0%nat.
  Proof. unfold attending. by rewrite map_fold_empty. Qed.

Lemma attending_insert_fresh ps uid p :
    ps !! uid = None ->
    attending k (<[uid := p]> ps) =
      (attending k ps + counter (conferenceKeysToAttend p) k)%nat.
  Proof.
    intros Hn. unfold attending. rewrite map_fold_insert_L; [done| |done].
    intros. lia.
  Qed.

  (** Storing a profile moves the total by the difference of its counts. *)
Lemma attending_insert ps uid p :
    (attending k (<[uid := p]> ps)
       + from_option (fun q => counter (conferenceKeysToAttend q) k) 0 (ps !! uid)
     = attending k ps + counter (conferenceKeysToAttend p) k)%nat.
  Proof.
    destruct (ps !! uid) as [q|] eqn:Hq; cbn.
    - rewrite <- (insert_delete_eq ps uid p).
      rewrite <- (insert_delete_id ps uid q) at 2 by done.
      rewrite !attending_insert_fresh by apply lookup_delete_eq. lia.
    - rewrite attending_insert_fresh by done. lia.
  Qed.

Lemma attending_nobody ps :
    (∀ uid p, ps !! uid = Some p -> k ∉ conferenceKeysToAttend p) ->
    attending k ps = 0%nat.
  Proof.
    induction ps as [|uid p ps Hn IH] using map_ind; intros Hall.
    - apply attending_empty.
    - rewrite attending_insert_fresh by done.
      rewrite IH, counter_not_elem; [done| |].
      + apply (Hall uid). apply lookup_insert_eq.
      + intros v q Hv. apply (Hall v).
        rewrite lookup_insert_ne; [done|]. congruence.
  Qed.
End Counting.

Lemma counter_profile_of k u w :
  from_option (fun q => counter (conferenceKeysToAttend q) k) 0%nat
              (profiles w !! user_id u)
  = counter (conferenceKeysToAttend (profile_of u w)) k.
Proof. unfold profile_of. by destruct (profiles w !! user_id u). Qed.

(** Storing the caller's profile with a new list of keys. *)
Lemma attending_store k u w l :
  (attending k
     (<[user_id u := set_conferenceKeysToAttend l (profile_of u w)]>
        (profiles w))
   + counter (conferenceKeysToAttend (profile_of u w)) k
   = attending k (profiles w) + counter l k)%nat.
Proof.
  rewrite <- counter_profile_of.
  apply (attending_insert k (profiles w) (user_id u)
           (set_conferenceKeysToAttend l (profile_of u w))).
Qed.

Lemma attending_touch k u w :
  attending k (<[user_id u := profile_of u w]> (profiles w))
  = attending k (profiles w).
Proof.
  pose proof (attending_insert k (profiles w) (user_id u) (profile_of u w)) as H.
  rewrite counter_profile_of in H. lia.
Qed.

(** A registration call keeps the seats of every conference accounted. *)
Lemma reg_effect_accounted k w w' :
  reg_effect w w' -> seats_accounted k w -> seats_accounted k w'.
Proof.
  intros Heff (c & Hc & Hpos & Hsum). unfold seats_accounted.
  destruct Heff as [Hp Hcs|u Hp Hcs|u wsck c1 Hc1 Hin Hs Hp Hcs
                    |u wsck c1 Hc1 Hin Hp Hcs]; rewrite Hp, Hcs.
  - by exists c.
  - rewrite attending_touch. by exists c.
  - pose proof (attending_store k u w
                  (conferenceKeysToAttend (profile_of u w) ++ [wsck])) as Ha.
    rewrite counter_app in Ha.
    destruct (decide (wsck = k)) as [->|Hne].
    + rewrite lookup_insert_eq. assert (c1 = c) as -> by congruence.
      eexists; split; [done|]. cbn.
      rewrite (counter_not_elem k _ Hin) in Ha.
      rewrite counter_cons, decide_True in Ha by done. cbn in Ha. lia.
    + rewrite lookup_insert_ne by done. exists c. split; [done|].
      rewrite counter_cons, decide_False in Ha by done. cbn in Ha.
      split; [done|]. lia.
  - pose proof (attending_store k u w
                  (list_remove wsck (conferenceKeysToAttend (profile_of u w))))
      as Ha.
    destruct (decide (wsck = k)) as [->|Hne].
    + rewrite lookup_insert_eq. assert (c1 = c) as -> by congruence.
      eexists; split; [done|]. cbn.
      pose proof (counter_remove_same k _ Hin). lia.
    + rewrite lookup_insert_ne by done. exists c. split; [done|].
      rewrite counter_remove_other in Ha by done. split; [done|]. lia.
Qed.

Lemma run_ops_accounted k ops w :
  seats_accounted k w -> seats_accounted k (run_ops ops w).
Proof.
  revert w. induction ops as [|op ops IH]; intros w Hw; [done|].
  apply IH. eapply reg_effect_accounted; [|done].
  destruct op; apply registration_effect.
Qed.

(** Registrations only ever store keys that resolve. *)
Lemma reg_effect_resolves w w' :
  reg_effect w w' -> attendance_resolves w -> attendance_resolves w'.
Proof.
  intros Heff Hres.
  assert (∀ u k, k ∈ conferenceKeysToAttend (profile_of u w) ->
                 is_Some (conferences w !! k)) as Hof.
  { intros u k. unfold profile_of.
    destruct (profiles w !! user_id u) as [q|] eqn:Hq; cbn.
    - by apply (Hres (user_id u)).
    - by inversion 1. }
  destruct Heff as [Hp Hcs|u Hp Hcs|u wsck c1 Hc1 Hin Hs Hp Hcs
                    |u wsck c1 Hc1 Hin Hp Hcs];
    intros uid p k; rewrite Hp, Hcs; try by apply Hres.
  - destruct (decide (user_id u = uid)) as [<-|Hne].
    + rewrite lookup_insert_eq. intros [= <-]. apply Hof.
    + rewrite lookup_insert_ne by done. apply Hres.
  - assert (∀ k', is_Some (conferences w !! k') ->
              is_Some (<[wsck:=set_seatsAvailable (seatsAvailable c1 - 1) c1]>
                         (conferences w) !! k')) as Hmono.
    { intros k' Hk'. destruct (decide (wsck = k')) as [<-|?].
      - rewrite lookup_insert_eq. eauto.
      - by rewrite lookup_insert_ne. }
    destruct (decide (user_id u = uid)) as [<-|Hne].
    + rewrite lookup_insert_eq. intros [= <-]. cbn.
      intros [Hk| ->%list_elem_of_singleton]%elem_of_app.
      * by apply Hmono, (Hof u).
      * rewrite lookup_insert_eq. eauto.
    + rewrite lookup_insert_ne by done. intros Hq Hk. eapply Hmono, Hres; eauto.
  - assert (∀ k', is_Some (conferences w !! k') ->
              is_Some (<[wsck:=set_seatsAvailable (seatsAvailable c1 + 1) c1]>
                         (conferences w) !! k')) as Hmono.
    { intros k' Hk'. destruct (decide (wsck = k')) as [<-|?].
      - rewrite lookup_insert_eq. eauto.
      - by rewrite lookup_insert_ne. }
    destruct (decide (user_id u = uid)) as [<-|Hne].
    + rewrite lookup_insert_eq. intros [= <-]. cbn. intros Hk.
      by apply Hmono, (Hof u), (list_remove_elem wsck).
    + rewrite lookup_insert_ne by done. intros Hq Hk. eapply Hmono, Hres; eauto.
Qed.

Lemma attendance_resolves_empty : attendance_resolves (mkWorld ∅ ∅ ∅ ∅ []).
Proof. intros uid p k Hp. cbn in Hp. by rewrite lookup_empty in Hp. Qed.

(** What a successful [_createConferenceObject] stores. *)
Lemma create_conference_stores strptime user request k w form w' :
  _createConferenceObject strptime user request k w = (Ok form, w') ->
  ∃ c, conferences w' = <[k := c]> (conferences w) ∧
       profiles w' = profiles w ∧
       maxAttendees c = default DEFAULT_maxAttendees (cf_maxAttendees request) ∧
       ((0 < maxAttendees c)%Z -> seatsAvailable c = maxAttendees c).
Proof.
  unfold _createConferenceObject. destruct user as [u|]; [|by unfold_m].
  destruct (negb (truthy (cf_name request))); [by unfold_m|].
  destruct (parse_if_given strptime (cf_startDate request)) as [d1|];
    [|by unfold_m].
  destruct (parse_if_given strptime (cf_endDate request)) as [d2|];
    [|by unfold_m].
  unfold_m.
  destruct (bool_decide (cf_startDate request = Some "")
            || bool_decide (cf_endDate request = Some "")); [done|].
  intros [= <- <-]. cbn. eexists. split_and!; [done..|].
  cbn. intros Hpos. apply Z.ltb_lt in Hpos. by rewrite Hpos.
Qed.

(** C1.  A conference created with [maxAttendees > 0] starts with
    [seatsAvailable = maxAttendees], and after every sequence of Register
    and Unregister calls, by any callers and for any keys, it satisfies
    [0 <= seatsAvailable <= maxAttendees].  The conference key is the
    freshly allocated one, and the store is one in which every key held by
    a profile resolves (as in every store that registrations build). *)
Theorem C1_seats_within_bounds (strptime : string -> option Date)
    (user : option User) (request form : ConferenceForm) (k : string)
    (w w' : World) :
  attendance_resolves w ->
  conferences w !! k = None ->
  (0 < default DEFAULT_maxAttendees (cf_maxAttendees request))%Z ->
  _createConferenceObject strptime user request k w = (Ok form, w') ->
  (∃ c, conferences w' !! k = Some c ∧
        seatsAvailable c = maxAttendees c ∧ (0 < maxAttendees c)%Z) ∧
  ∀ ops : list RegOp,
    ∃ c, conferences (run_ops ops w') !! k = Some c ∧
         (0 <= seatsAvailable c <= maxAttendees c)%Z.
Proof.
  intros Hres Hfresh Hmax Hcreate.
  destruct (create_conference_stores _ _ _ _ _ _ _ Hcreate)
    as (c & Hcs & Hps & Hm & Hseats).
  rewrite <- Hm in Hmax. specialize (Hseats Hmax).
  assert (conferences w' !! k = Some c) as Hk
    by (rewrite Hcs; apply lookup_insert_eq).
  split; [by exists c|].
  assert (seats_accounted k w') as Hacc.
  { exists c. split; [done|]. rewrite Hps, attending_nobody; [lia|].
    intros uid p Hp Hin. destruct (Hres uid p k Hp Hin) as [c' Hc'].
    congruence. }
  intros ops. destruct (run_ops_accounted k ops w' Hacc) as (c' & Hc' & ? & ?).
  exists c'. split; [done|]. lia.
Qed.

Lemma C1_seats_within_bounds_witness :
  ∃ c, conferences
         (run_ops [Register (Some alice) "pycon"; Register (Some alice) "pycon";
                   Register (Some bob) "pycon"; Register (Some carol) "pycon";
                   Unregister (Some alice) "pycon"] pycon_world) !! "pycon"
       = Some c ∧ (0 <= seatsAvailable c <= maxAttendees c)%Z.
Proof.
  eapply (C1_seats_within_bounds no_date (Some alice)
            (conference_request "PyCon" (Some 2%Z) None) _ "pycon"
            empty_world pycon_world).
  - apply attendance_resolves_empty.
  - reflexivity.
  - cbn. lia.
  - vm_compute. reflexivity.
Defined.

(** ** The wishlist manager *)

Section Wishlist.
Context (entity_group : string -> string).
Context (u : User) (key : string) (w : World).

Lemma add_wishlist_not_found :
  sessions w !! key = None ->
  let r := addSessionToWishlist entity_group (Some u) key w in
  r.1 = Raise (no_session key) ∧ same_store w r.2.
Proof. intros Hs. unfold_m. rewrite Hs. by cbn. Qed.

(** The transaction reaches the caller's profile after it has read the
    session: for a caller who is not the root of the session's entity
    group the datastore refuses that call. *)
Lemma add_wishlist_refused s :
  sessions w !! key = Some s ->
  user_id u ≠ entity_group key ->
  let r := addSessionToWishlist entity_group (Some u) key w in
  r.1 = Raise BadRequestError ∧ same_store w r.2 ∧
  trace r.2 = trace w ++ [DsGet KSession key; DsGet KProfile (user_id u)].
Proof.
  intros Hs Hne. unfold_m. rewrite Hs. cbn.
  destruct (decide (user_id u = entity_group key)); [done|]. cbn.
  by rewrite <- app_assoc.
Qed.

Lemma add_wishlist_present s :
  sessions w !! key = Some s ->
  user_id u = entity_group key ->
  key ∈ sessWishlist (profile_of u w) ->
  let r := addSessionToWishlist entity_group (Some u) key w in
  r.1 = Raise already_on_wishlist ∧ same_store w r.2.
Proof.
  intros Hs Hg Hin. unfold_m. unfold profile_of in Hin. rewrite Hs. cbn.
  destruct (decide (user_id u = entity_group key)) as [_|]; [|done]. cbn.
  destruct (profiles w !! user_id u) as [p|]; cbn in *.
  - rewrite bool_decide_eq_true_2 by done. by cbn.
  - by inversion Hin.
Qed.

Lemma add_wishlist_ok s :
  sessions w !! key = Some s ->
  user_id u = entity_group key ->
  key ∉ sessWishlist (profile_of u w) ->
  let r := addSessionToWishlist entity_group (Some u) key w in
  let p := profile_of u w in
  r.1 = Ok true ∧
  profiles r.2 =
    <[user_id u := set_sessWishlist (sessWishlist p ++ [key]) p]> (profiles w) ∧
  conferences r.2 = conferences w ∧ sessions r.2 = sessions w ∧
  memcache r.2 = memcache w ∧
  ∃ evs, trace r.2 = trace w ++ evs ∧
         ∀ e, e ∈ evs -> is_put e -> e = DsPut KProfile (user_id u).
Proof.
  intros Hs Hg Hin. unfold_m. unfold profile_of in *. rewrite Hs. cbn.
  destruct (decide (user_id u = entity_group key)) as [_|]; [|done]. cbn.
  destruct (profiles w !! user_id u) as [p|]; cbn in *;
    rewrite bool_decide_eq_false_2 by done; cbn;
    rewrite ?insert_insert_eq; split_and!; try done;
    rewrite <- !app_assoc; eexists; (split; [done|]);
    intros e He Hput; cbn in He;
    repeat (apply elem_of_cons in He as [->|He]; [by cbn in Hput|]);
    by inversion He.
Qed.
End Wishlist.

(** What [AddToWishlist] does for the user under whose profile the
    conference of the session was created, and the answer to a key that
    does not resolve, which is the same for every caller: NotFound;
    Conflict when the key is already on the wishlist, with the wishlist as
    it was; otherwise the key is appended, the rest of the profile stays,
    and the only entity written is the caller's profile.  Adding the same
    key a second time yields Conflict. *)
Lemma add_to_wishlist_in_group (entity_group : string -> string) (u : User)
    (key : string) (w : World) :
  let r := addSessionToWishlist entity_group (Some u) key w in
  let p := profile_of u w in
  (sessions w !! key = None ->
     r.1 = Raise (no_session key) ∧ same_store w r.2) ∧
  (∀ s, sessions w !! key = Some s -> user_id u = entity_group key ->
     key ∈ sessWishlist p ->
     r.1 = Raise already_on_wishlist ∧ same_store w r.2 ∧
     length (sessWishlist (profile_of u r.2)) = length (sessWishlist p)) ∧
  (∀ s, sessions w !! key = Some s -> user_id u = entity_group key ->
     key ∉ sessWishlist p ->
     r.1 = Ok true ∧
     (∃ p', profiles r.2 !! user_id u = Some p' ∧
            sessWishlist p' = sessWishlist p ++ [key] ∧
            same_but_wishlist p p') ∧
     (∀ v, v ≠ user_id u -> profiles r.2 !! v = profiles w !! v) ∧
     conferences r.2 = conferences w ∧ sessions r.2 = sessions w ∧
     memcache r.2 = memcache w ∧
     (∃ evs, trace r.2 = trace w ++ evs ∧
             ∀ e, e ∈ evs -> is_put e -> e = DsPut KProfile (user_id u)) ∧
     let r2 := addSessionToWishlist entity_group (Some u) key r.2 in
     r2.1 = Raise already_on_wishlist ∧ same_store r.2 r2.2 ∧
     length (sessWishlist (profile_of u r2.2)) =
       length (sessWishlist (profile_of u r.2))).
Proof.
  assert (∀ w0 s, sessions w0 !! key = Some s ->
            user_id u = entity_group key ->
            key ∈ sessWishlist (profile_of u w0) ->
            let r := addSessionToWishlist entity_group (Some u) key w0 in
            r.1 = Raise already_on_wishlist ∧ same_store w0 r.2 ∧
            length (sessWishlist (profile_of u r.2)) =
              length (sessWishlist (profile_of u w0))) as Hconflict.
  { intros w0 s Hs Hg Hin.
    destruct (add_wishlist_present entity_group u key w0 s Hs Hg Hin)
      as [Hr Hsame].
    split_and!; [done..|]. destruct Hsame as (Hp & _).
    unfold profile_of. by rewrite Hp. }
  cbv zeta. split; [|split].
  - apply add_wishlist_not_found.
  - intros s. apply Hconflict.
  - intros s Hs Hg Hin.
    destruct (add_wishlist_ok entity_group u key w s Hs Hg Hin)
      as (Hr & Hp & Hc & Hss & Hm & Ht).
    assert (let r2 := addSessionToWishlist entity_group (Some u) key
                        (addSessionToWishlist entity_group (Some u) key w).2 in
            r2.1 = Raise already_on_wishlist ∧
            same_store (addSessionToWishlist entity_group (Some u) key w).2
                       r2.2 ∧
            length (sessWishlist (profile_of u r2.2)) =
              length (sessWishlist
                        (profile_of u
                           (addSessionToWishlist entity_group (Some u) key
                              w).2))) as H2.
    { apply (Hconflict _ s); [by rewrite Hss|done|].
      erewrite profile_of_Some by (rewrite Hp; apply lookup_insert_eq).
      cbn. apply elem_of_snoc. }
    cbv zeta in H2. destruct H2 as (H2a & H2b & H2c).
    split_and!; try done.
    + eexists. split; [rewrite Hp; apply lookup_insert_eq|]. by split.
    + intros v Hv. rewrite Hp. by apply lookup_insert_ne.
Qed.

(** C9.  [AddToWishlist] does not append for every caller.  Its
    transaction has no [xg] and reads the session before the caller's
    profile, so it works on the entity group of the session.  Bob adds the
    session ["talk"] of Alice's conference: the key resolves and is not on
    his wishlist, yet the call is refused with [BadRequestError] when it
    reaches his profile, and nothing is stored, not even the profile of his
    first access.  The same add by Alice, under whose profile the
    conference lies, goes through on a store where the key is not yet on
    her list. *)
Theorem C9_add_refused_across_groups :
  let r := addSessionToWishlist alices_group (Some bob) "talk" stale_world in
  let own := addSessionToWishlist alices_group (Some alice) "t1"
               featured_world in
  is_Some (sessions stale_world !! "talk") ∧
  ("talk" ∉ sessWishlist (profile_of bob stale_world)) ∧
  r.1 = Raise BadRequestError ∧
  same_store stale_world r.2 ∧
  own.1 = Ok true ∧
  sessWishlist <$> profiles own.2 !! "alice" = Some ["t1"].
Proof.
  cbv zeta.
  destruct (add_wishlist_refused alices_group bob "talk" stale_world
              (talk (Some "Ada"))) as (Hr & Hsame & _);
    [reflexivity|discriminate|].
  split_and!; [by eexists| |exact Hr|exact Hsame| |].
  - vm_compute. by inversion 1.
  - vm_compute. reflexivity.
  - vm_compute. reflexivity.
Qed.

(** [deleteSessionInWishlist] when the session key resolves. *)
Lemma delete_wishlist_resolved (u : User) (key : string) (w : World) s :
  sessions w !! key = Some s ->
  let r := deleteSessionInWishlist (Some u) key w in
  let p := profile_of u w in
  (conferences w !! sess_parent s = None ->
     r.1 = Raise (NotFoundException
                    ("No conference found with session key: " +:+ key))) ∧
  (is_Some (conferences w !! sess_parent s) -> key ∉ sessWishlist p ->
     r.1 = Raise (ConflictException "The session doesn't exist")) ∧
  (is_Some (conferences w !! sess_parent s) -> key ∈ sessWishlist p ->
     r.1 = Ok true ∧
     profiles r.2 =
       <[user_id u := set_sessWishlist (list_remove key (sessWishlist p)) p]>
         (profiles w)).
Proof.
  intros Hs. unfold_m. unfold profile_of.
  destruct (profiles w !! user_id u) as [p|]; cbn; rewrite Hs; cbn;
    (split_and!; [intros ->; by cbn|intros [c ->] Hin|intros [c ->] Hin]); cbn.
  - by rewrite bool_decide_eq_false_2.
  - by rewrite bool_decide_eq_true_2.
  - by rewrite bool_decide_eq_false_2.
  - by inversion Hin.
Qed.

(** [deleteSessionInWishlist] with a session key that does not resolve:
    the attribute access on [None] comes before every check. *)
Lemma delete_wishlist_unresolved (u : User) (key : string) (w : World) :
  sessions w !! key = None ->
  (deleteSessionInWishlist (Some u) key w).1 = Raise none_has_no_key.
Proof.
  intros Hs. unfold_m.
  destruct (profiles w !! user_id u) as [p|]; cbn; by rewrite Hs.
Qed.

(** C7.  [RemoveFromWishlist] with a session key that resolves to nothing
    does not fail with NotFound: Alice removes the stale key ["ghost"] and
    the call dies with an [AttributeError], while [AddToWishlist] answers
    the same key with NotFound. *)
Theorem C7_remove_unresolved_key :
  sessions stale_world !! "ghost" = None ∧
  (deleteSessionInWishlist (Some alice) "ghost" stale_world).1
    = Raise none_has_no_key ∧
  (∀ entity_group,
     (addSessionToWishlist entity_group (Some alice) "ghost" stale_world).1
       = Raise (no_session "ghost")).
Proof. split_and!; [done|by vm_compute|]. intros g. by vm_compute. Qed.

Section ListWishlist.
Context {SessionType : Type}.
Context (getattr_SessionType : option string -> Outcome SessionType).

(** [get_multi] answers each key with the stored session or [None] and
    writes nothing. *)
Lemma get_multi_sessions_spec keys w :
  let r := get_multi_sessions keys w in
  r.1 = Ok ((fun k => (fun x => (k, x)) <$> sessions w !! k) <$> keys) ∧
  same_store w r.2.
Proof.
  revert w. induction keys as [|k keys IH]; intros w; [done|].
  cbn. unfold bind, get_session. cbn.
  destruct (IH (log (DsGet KSession k) w)) as [Hr Hsame].
  destruct (get_multi_sessions keys (log (DsGet KSession k) w)) as [[l|e] w'];
    cbn in *; [|done].
  injection Hr as ->. done.
Qed.

(** Copying a batch: every form comes from one entry, in order, and one
    entry that cannot be copied fails the batch. *)
Lemma copy_all_spec (l : list (option (string * Session))) w :
  (copy_all SessionType getattr_SessionType l w).2 = w ∧
  match (copy_all SessionType getattr_SessionType l w).1 with
  | Ok forms =>
      Forall2 (fun o f => ∃ key s ty,
                 o = Some (key, s) ∧
                 getattr_SessionType (sess_typeOfSession s) = Ok ty ∧
                 f = form_of key s ty) l forms
  | Raise e =>
      ∃ o, o ∈ l ∧
           match o with
           | None => e = none_has_no_key
           | Some (_, s) => getattr_SessionType (sess_typeOfSession s) = Raise e
           end
  end.
Proof.
  induction l as [|o l [IHw IH]]; [by split; [|constructor]|].
  cbn. unfold bind, _copySessionToForm.
  destruct o as [[key s]|]; cbn.
  - destruct (getattr_SessionType (sess_typeOfSession s)) as [ty|e] eqn:Hty; cbn.
    + destruct (copy_all SessionType getattr_SessionType l w) as [[fs|e] w'];
        cbn in *; subst w'; (split; [done|]).
      * constructor; [|done]. by exists key, s, ty.
      * destruct IH as (o & Ho & Hcase). exists o. split; [|done].
        by apply list_elem_of_further.
    + split; [done|]. exists (Some (key, s)). split; [|done].
      apply list_elem_of_here.
  - split; [done|]. exists None. split; [|done]. apply list_elem_of_here.
Qed.

Lemma list_wishlist_run (u : User) (w : World) :
  (getSessionsInWishlist SessionType getattr_SessionType (Some u) w).1 =
  (copy_all SessionType getattr_SessionType
     ((fun k => (fun x => (k, x)) <$> sessions w !! k)
        <$> sessWishlist (profile_of u w)) w).1.
Proof.
  assert (∀ l w1 w2,
            (copy_all SessionType getattr_SessionType l w1).1 =
            (copy_all SessionType getattr_SessionType l w2).1) as Hindep.
  { induction l as [|o l IH]; intros w1 w2; [done|].
    cbn. unfold bind, _copySessionToForm.
    destruct o as [[key s]|]; cbn; [|done].
    destruct (getattr_SessionType (sess_typeOfSession s)); cbn; [|done].
    specialize (IH w1 w2).
    destruct (copy_all SessionType getattr_SessionType l w1) as [[?|?] ?],
             (copy_all SessionType getattr_SessionType l w2) as [[?|?] ?];
      cbn in *; congruence. }
  unfold getSessionsInWishlist, _getProfileFromUser, bind, ret, get_profile,
    put_profile, profile_of.
  destruct (profiles w !! user_id u) as [p|]; cbn.
  - match goal with
    | |- context [get_multi_sessions ?ks ?w1] =>
        destruct (get_multi_sessions_spec ks w1) as [Hr _];
        destruct (get_multi_sessions ks w1) as [[l|e] w2]
    end; cbn in *; [|done].
    injection Hr as ->. apply Hindep.
  - done.
Qed.
End ListWishlist.

(** C8 (as the code has it).  [ListWishlist] answers with one form per
    wishlist key, in wishlist order, each built from the session the key
    resolves to; it succeeds when every key resolves to a session whose
    type is a member of the enum.  No entry is dropped: a key that does
    not resolve makes the whole request fail, with the [AttributeError]
    of the attribute access on the [None] that [get_multi] returned for
    it when the type of every session that the list does resolve to is a
    member of the enum; the only other exception the request can end in
    is the one that the enum raises for the type of such a session. *)
Theorem C8_list_wishlist {SessionType : Type}
    (getattr_SessionType : option string -> Outcome SessionType)
    (u : User) (w : World) :
  let r := (getSessionsInWishlist SessionType getattr_SessionType (Some u) w).1 in
  let keys := sessWishlist (profile_of u w) in
  (∀ forms, r = Ok forms ->
     Forall2 (fun key f => ∃ s ty,
                sessions w !! key = Some s ∧
                getattr_SessionType (sess_typeOfSession s) = Ok ty ∧
                f = form_of key s ty) keys forms) ∧
  ((∀ key, key ∈ keys ->
      ∃ s ty, sessions w !! key = Some s ∧
              getattr_SessionType (sess_typeOfSession s) = Ok ty) ->
   ∃ forms, r = Ok forms) ∧
  (∀ key, key ∈ keys -> sessions w !! key = None ->
     ∃ e, r = Raise e ∧
          (e = none_has_no_key ∨
           ∃ key' s, key' ∈ keys ∧ sessions w !! key' = Some s ∧
                     getattr_SessionType (sess_typeOfSession s) = Raise e)) ∧
  (∀ key, key ∈ keys -> sessions w !! key = None ->
     (∀ key' s, key' ∈ keys -> sessions w !! key' = Some s ->
                ∃ ty, getattr_SessionType (sess_typeOfSession s) = Ok ty) ->
     r = Raise none_has_no_key).
Proof.
  cbv zeta. rewrite list_wishlist_run.
  set (keys := sessWishlist (profile_of u w)).
  set (l := (fun k => (fun x => (k, x)) <$> sessions w !! k) <$> keys).
  destruct (copy_all_spec getattr_SessionType l w) as [_ Hspec].
  assert (∀ forms,
            (copy_all SessionType getattr_SessionType l w).1 = Ok forms ->
            Forall2 (fun key f => ∃ s ty,
                       sessions w !! key = Some s ∧
                       getattr_SessionType (sess_typeOfSession s) = Ok ty ∧
                       f = form_of key s ty) keys forms) as Hok.
  { intros forms Hr. rewrite Hr in Hspec. unfold l in Hspec.
    apply Forall2_fmap_l in Hspec.
    eapply Forall2_impl; [exact Hspec|].
    intros key f (key' & s & ty & Hlook & Hty & ->). cbn in Hlook.
    destruct (sessions w !! key) as [s'|]; [|done].
    injection Hlook as <- <-. by exists s', ty. }
  assert (∀ key, key ∈ keys -> sessions w !! key = None ->
            ∃ e, (copy_all SessionType getattr_SessionType l w).1 = Raise e ∧
                 (e = none_has_no_key ∨
                  ∃ key' s, key' ∈ keys ∧ sessions w !! key' = Some s ∧
                            getattr_SessionType (sess_typeOfSession s)
                              = Raise e)) as Hfail.
  { intros key Hkey Hnone.
    destruct (copy_all SessionType getattr_SessionType l w).1 as [forms|e].
    - specialize (Hok forms eq_refl).
      apply list_elem_of_lookup in Hkey as [i Hi].
      destruct (Forall2_lookup_l _ _ _ _ _ Hok Hi)
        as (f & _ & s & ty & Hs & _).
      congruence.
    - exists e. split; [done|].
      destruct Hspec as (o & Ho & Hcase). unfold l in Ho.
      apply list_elem_of_fmap in Ho as (key' & -> & Hkey').
      destruct (sessions w !! key') as [s|] eqn:Hs; cbn in Hcase.
      + right. by exists key', s.
      + by left. }
  split_and!.
  - exact Hok.
  - intros Hall.
    destruct (copy_all SessionType getattr_SessionType l w).1 as [forms|e];
      [by exists forms|].
    destruct Hspec as (o & Ho & Hcase). unfold l in Ho.
    apply list_elem_of_fmap in Ho as (key & -> & Hkey).
    destruct (Hall key Hkey) as (s & ty & Hs & Hty).
    rewrite Hs in Hcase. cbn in Hcase. congruence.
  - exact Hfail.
  - intros key Hkey Hnone Htyped.
    destruct (Hfail key Hkey Hnone) as (e & -> & [->|(key' & s & Hk' & Hs & He)]);
      [done|].
    destruct (Htyped key' s Hk' Hs) as [ty Hty]. congruence.
Qed.

Lemma C8_list_wishlist_witness :
  (getSessionsInWishlist string any_SessionType (Some alice) stale_world).1
    = Raise none_has_no_key.
Proof.
  destruct (C8_list_wishlist any_SessionType alice stale_world)
    as (_ & _ & _ & H).
  apply (H "ghost").
  - vm_compute. apply list_elem_of_further, list_elem_of_here.
  - reflexivity.
  - intros key' s _ _. by eexists.
Defined.

(** C8 as stated fails: Alice's wishlist holds the stored session
    ["talk"] and the stale key ["ghost"]; the stale entry is not dropped,
    the request raises instead of answering with the form of ["talk"]. *)
Lemma C8_stale_key_fails_request :
  sessWishlist (profile_of alice stale_world) = ["talk"; "ghost"] ∧
  is_Some (sessions stale_world !! "talk") ∧
  sessions stale_world !! "ghost" = None ∧
  (getSessionsInWishlist string any_SessionType (Some alice) stale_world).1
    = Raise none_has_no_key ∧
  ¬ ∃ forms,
      (getSessionsInWishlist string any_SessionType (Some alice)
         stale_world).1 = Ok forms.
Proof.
  split_and!; [done|by eexists|done|by vm_compute|].
  intros [forms H]. vm_compute in H. discriminate.
Qed.

(** ** The featured speaker *)

(** C10.  For a conference key that does not resolve,
    [RecomputeFeatured] raises NotFound; the only call it has issued by
    then is the lookup of the conference, so no session was read and
    memcache was not written. *)
Theorem C10_featured_unknown_conference
    (dict_keys : list string -> list string) (k : string) (w : World) :
  conferences w !! k = None ->
  let r := _cacheFeaturedSpeaker dict_keys k w in
  r.1 = Raise (no_conference k) ∧
  same_store w r.2 ∧
  trace r.2 = trace w ++ [DsGet KConference k].
Proof. intros Hc. unfold_m. cbn. rewrite Hc. by cbn. Qed.

Lemma C10_featured_unknown_conference_witness :
  let r := _cacheFeaturedSpeaker remove_dups "ghost" stale_world in
  r.1 = Raise (no_conference "ghost") ∧
  same_store stale_world r.2 ∧
  trace r.2 = trace stale_world ++ [DsGet KConference "ghost"].
Proof. apply (C10_featured_unknown_conference remove_dups). reflexivity. Defined.

Lemma key_step_lt st k :
  (appearances st < counter (speaker_list st) k)%nat ->
  key_step st k =
    mkLocals (speaker_list st) (Some k) (counter (speaker_list st) k)
             (Some (Some (Some k, counter (speaker_list st) k))).
Proof. intros H%Nat.ltb_lt. unfold key_step. by rewrite H. Qed.

Lemma key_step_ge st k :
  (counter (speaker_list st) k <= appearances st)%nat ->
  key_step st k =
    mkLocals (speaker_list st) (speaker st) (appearances st)
             (Some (Some (speaker st, appearances st))).
Proof. intros H%Nat.ltb_ge. unfold key_step. by rewrite H. Qed.

(** The loop over the keys of the counter keeps the first key with the
    largest count seen so far. *)
Lemma key_loop_spec keys : ∀ st,
  let st' := foldl key_step st keys in
  let L := speaker_list st in
  speaker_list st' = L ∧
  (keys ≠ [] ->
     speakerArray st' = Some (Some (speaker st', appearances st'))) ∧
  ((appearances st' = appearances st ∧ speaker st' = speaker st ∧
    ∀ x, x ∈ keys -> (counter L x <= appearances st)%nat)
   ∨ (∃ p1 s p2, keys = p1 ++ s :: p2 ∧
        speaker st' = Some s ∧ appearances st' = counter L s ∧
        (appearances st < counter L s)%nat ∧
        (∀ x, x ∈ p1 -> (counter L x < counter L s)%nat) ∧
        (∀ x, x ∈ p2 -> (counter L x <= counter L s)%nat))).
Proof.
  induction keys as [|k keys IH]; intros st; cbv zeta.
  - cbn. split_and!; [done..|]. left. split_and!; [done..|]. by inversion 1.
  - cbn [foldl]. specialize (IH (key_step st k)). cbv zeta in IH.
    destruct IH as (HL & Harr & Hcase).
    assert (speaker_list (key_step st k) = speaker_list st) as HLk.
    { unfold key_step. by destruct (Nat.ltb _ _). }
    rewrite HLk in *. split_and!; [done| |].
    + intros _. destruct keys as [|k' keys']; [|by apply Harr].
      reflexivity.
    + destruct (decide (appearances st < counter (speaker_list st) k)%nat)
        as [Hlt|Hlt].
      * rewrite (key_step_lt st k Hlt) in Hcase |- *. cbn in Hcase. right.
        destruct Hcase as [(Ha & Hs & Hle)|(p1 & s & p2 & -> & Hs & Ha & Hgt & H1 & H2)].
        -- exists [], k, keys. split_and!; try done. intros x Hx. by inversion Hx.
        -- exists (k :: p1), s, p2. split_and!; try done; [lia|].
           intros x [->|Hx]%elem_of_cons; [done|by apply H1].
      * apply Nat.nlt_ge in Hlt. rewrite (key_step_ge st k Hlt) in Hcase |- *.
        cbn in Hcase.
        destruct Hcase as [(Ha & Hs & Hle)|(p1 & s & p2 & -> & Hs & Ha & Hgt & H1 & H2)].
        -- left. split_and!; try done.
           intros x [->|Hx]%elem_of_cons; [done|by apply Hle].
        -- right. exists (k :: p1), s, p2. split_and!; try done.
           intros x [->|Hx]%elem_of_cons; [lia|by apply H1].
Qed.

Lemma speakers_snoc sess x :
  speakers (sess ++ [x]) =
    speakers sess ++
      (if truthy (sess_speaker x.2) then [default "" (sess_speaker x.2)] else []).
Proof.
  unfold speakers. rewrite omap_app. f_equal. cbn.
  destruct (truthy (sess_speaker x.2)) eqn:Ht; [|done].
  by destruct (sess_speaker x.2).
Qed.

Lemma speakers_nonempty sess x : x ∈ speakers sess -> x ≠ "".
Proof.
  unfold speakers. intros ((k & s) & _ & Hx)%list_elem_of_omap. cbn in Hx.
  destruct (sess_speaker s) as [y|]; cbn in Hx; [|done].
  destruct (decide (y = "")) as [->|Hne]; [done|].
  rewrite bool_decide_eq_false_2 in Hx by done. cbn in Hx. congruence.
Qed.

Lemma speakers_cons x sess :
  speakers (x :: sess) =
    (if truthy (sess_speaker x.2) then [default "" (sess_speaker x.2)] else [])
      ++ speakers sess.
Proof.
  unfold speakers. cbn [omap list_omap].
  destruct (truthy (sess_speaker x.2)) eqn:Ht; [|done].
  by destruct (sess_speaker x.2).
Qed.

(** The counter counts sessions: exact match on the speaker's name. *)
Lemma counter_speakers sess x :
  x ≠ "" ->
  counter (speakers sess) x =
    length (filter (fun ks : string * Session => sess_speaker ks.2 = Some x) sess).
Proof.
  intros Hx. induction sess as [|[k s] sess IH]; [done|].
  rewrite filter_cons, speakers_cons, counter_app, IH. cbn [snd].
  destruct (sess_speaker s) as [y|] eqn:Hy; cbn [truthy default].
  - destruct (decide (y = "")) as [->|Hne].
    + rewrite bool_decide_eq_true_2 by done. cbn [negb].
      destruct (decide (Some "" = Some x)) as [[= <-]|]; done.
    + rewrite bool_decide_eq_false_2 by done. cbn [negb].
      unfold id. rewrite counter_cons.
      destruct (decide (y = x)) as [->|Hyx].
      * destruct (decide (Some x = Some x)); [reflexivity|done].
      * destruct (decide (Some y = Some x)) as [[= ->]|]; [done|reflexivity].
  - destruct (decide (None = Some x)); done.
Qed.

Section FeaturedLoop.
Context (dict_keys : list string -> list string).
Context (dict_keys_spec : ∀ l x, x ∈ dict_keys l ↔ x ∈ l).

(** After the loop over the sessions, [speakerArray] is unbound when no
    session had a speaker, and otherwise names the first key, in the
    iteration order of the counter of all speakers, with the largest
    count. *)
Lemma sess_loop_spec sess :
  let st := foldl (sess_step dict_keys) (mkLocals [] None 0 None) sess in
  let L := speakers sess in
  speaker_list st = L ∧
  (L = [] -> speakerArray st = None) ∧
  (L ≠ [] ->
     ∃ p1 s p2, dict_keys L = p1 ++ s :: p2 ∧
       speakerArray st = Some (Some (Some s, counter L s)) ∧
       (∀ x, x ∈ p1 -> (counter L x < counter L s)%nat) ∧
       (∀ x, x ∈ p2 -> (counter L x <= counter L s)%nat)).
Proof.
  induction sess as [|x sess IH] using rev_ind; cbv zeta.
  - cbn. by split_and!.
  - cbv zeta in IH. destruct IH as (HL & Hnil & Hcons).
    rewrite foldl_app, speakers_snoc. cbn [foldl].
    set (st := foldl (sess_step dict_keys) (mkLocals [] None 0 None) sess) in *.
    destruct (truthy (sess_speaker x.2)) eqn:Ht.
    + set (y := default "" (sess_speaker x.2)).
      set (l := speakers sess ++ [y]).
      assert (sess_step dict_keys st x =
              foldl key_step (mkLocals l (speaker st) 0 (Some None))
                    (dict_keys l)) as ->.
      { unfold sess_step. rewrite Ht. cbv zeta. by rewrite HL. }
      pose proof (key_loop_spec (dict_keys l)
                    (mkLocals l (speaker st) 0 (Some None))) as Hloop.
      cbv zeta in Hloop. cbn [speaker_list appearances speaker] in Hloop.
      destruct Hloop as (Hl & Harr & Hcase).
      assert (y ∈ dict_keys l) as Hy.
      { apply dict_keys_spec. unfold l. apply elem_of_app. right.
        apply list_elem_of_here. }
      split_and!; [done|by destruct (speakers sess)|]. intros _.
      destruct Hcase as [(_ & _ & Hle)|(p1 & s & p2 & Hk & Hs & Ha & _ & H1 & H2)].
      * specialize (Hle y Hy).
        assert (0 < counter l y)%nat; [|lia].
        apply counter_elem, dict_keys_spec, Hy.
      * exists p1, s, p2. split_and!; try done.
        rewrite Harr, Hs, Ha; [done|].
        intros Hempty. rewrite Hempty in Hy. by inversion Hy.
    + assert (sess_step dict_keys st x = st) as ->
        by (unfold sess_step; by rewrite Ht).
      rewrite app_nil_r. by split_and!.
Qed.

(** [RecomputeFeatured] on a conference that resolves and has a session
    with a speaker. *)
Lemma featured_run k w c :
  conferences w !! k = Some c ->
  speakers (sessions_under k w) ≠ [] ->
  let L := speakers (sessions_under k w) in
  let r := _cacheFeaturedSpeaker dict_keys k w in
  ∃ p1 s p2, dict_keys L = p1 ++ s :: p2 ∧
    (∀ x, x ∈ p1 -> (counter L x < counter L s)%nat) ∧
    (∀ x, x ∈ p2 -> (counter L x <= counter L s)%nat) ∧
    if (2 <=? counter L s)%nat
    then r.1 = Ok (Some s) ∧
         memcache r.2 = <[MEMCACHE_FEATURED_KEY := s]> (memcache w) ∧
         profiles r.2 = profiles w ∧ conferences r.2 = conferences w ∧
         sessions r.2 = sessions w
    else r.1 = Ok None ∧ same_store w r.2.
Proof.
  intros Hc HL. cbv zeta.
  destruct (sess_loop_spec (sessions_under k w)) as (_ & _ & Hspec).
  destruct (Hspec HL) as (p1 & s & p2 & Hk & Harr & H1 & H2).
  exists p1, s, p2. split_and!; [done..|].
  unfold _cacheFeaturedSpeaker, bind, get_conference, query_sessions.
  cbv beta iota. rewrite Hc. cbv beta iota.
  change (sessions_under k (log (DsGet KConference k) w))
    with (sessions_under k w).
  rewrite Harr.
  destruct (2 <=? counter (speakers (sessions_under k w)) s)%nat; by cbn.
Qed.
End FeaturedLoop.

Lemma sessions_by_counter k w x :
  x ≠ "" -> sessions_by k w x = counter (speakers (sessions_under k w)) x.
Proof. intros Hx. unfold sessions_by. by rewrite counter_speakers. Qed.

(** C4 (as the code has it).  For a conference that resolves and has at
    least one session with a non-empty speaker, [RecomputeFeatured] counts
    the sessions per speaker by exact match of the name, sessions without
    a speaker or with an empty one left out; it selects the speaker with
    the largest count, the first such in the iteration order of the
    counter; when that count is at least 2 it stores the speaker in
    memcache and returns it, and otherwise it returns none and leaves
    memcache as it was, an entry published earlier included. *)
Theorem C4_featured_speaker (dict_keys : list string -> list string)
    (k : string) (w : World) (c : Conference) :
  (∀ l x, x ∈ dict_keys l ↔ x ∈ l) ->
  conferences w !! k = Some c ->
  speakers (sessions_under k w) ≠ [] ->
  let r := _cacheFeaturedSpeaker dict_keys k w in
  ∃ p1 s p2,
    dict_keys (speakers (sessions_under k w)) = p1 ++ s :: p2 ∧
    s ≠ "" ∧
    (∀ x, x ≠ "" -> (sessions_by k w x <= sessions_by k w s)%nat) ∧
    (∀ x, x ∈ p1 -> (sessions_by k w x < sessions_by k w s)%nat) ∧
    if (2 <=? sessions_by k w s)%nat
    then r.1 = Ok (Some s) ∧
         memcache r.2 = <[MEMCACHE_FEATURED_KEY := s]> (memcache w) ∧
         profiles r.2 = profiles w ∧ conferences r.2 = conferences w ∧
         sessions r.2 = sessions w
    else r.1 = Ok None ∧ same_store w r.2.
Proof.
  intros Hkeys Hc HL. cbv zeta.
  destruct (featured_run dict_keys Hkeys k w c Hc HL)
    as (p1 & s & p2 & Hk & H1 & H2 & Hout).
  set (L := speakers (sessions_under k w)) in *.
  assert (∀ x, x ∈ dict_keys L -> x ≠ "") as Hne.
  { intros x Hx. apply (speakers_nonempty (sessions_under k w)).
    by apply Hkeys. }
  assert (s ≠ "") as Hs.
  { apply Hne. rewrite Hk. apply elem_of_app. right. apply list_elem_of_here. }
  exists p1, s, p2. split_and!; [done..| | |].
  - intros x Hx. rewrite !sessions_by_counter by done. fold L.
    destruct (decide (x ∈ L)) as [Hin|Hin].
    + apply Hkeys in Hin. rewrite Hk in Hin.
      apply elem_of_app in Hin as [Hin|Hin].
      * specialize (H1 x Hin). lia.
      * apply elem_of_cons in Hin as [->|Hin]; [done|by apply H2].
    + rewrite (counter_not_elem x L Hin). lia.
  - intros x Hx. rewrite !sessions_by_counter; [by apply H1|done|].
    apply Hne. rewrite Hk. apply elem_of_app. by left.
  - by rewrite sessions_by_counter.
Qed.

Lemma C4_featured_speaker_witness :
  let r := _cacheFeaturedSpeaker remove_dups "pycon" featured_world in
  ∃ p1 s p2,
    remove_dups (speakers (sessions_under "pycon" featured_world))
      = p1 ++ s :: p2 ∧
    s ≠ "" ∧
    (∀ x, x ≠ "" -> (sessions_by "pycon" featured_world x
                      <= sessions_by "pycon" featured_world s)%nat) ∧
    (∀ x, x ∈ p1 -> (sessions_by "pycon" featured_world x
                      < sessions_by "pycon" featured_world s)%nat) ∧
    if (2 <=? sessions_by "pycon" featured_world s)%nat
    then r.1 = Ok (Some s) ∧
         memcache r.2 =
           <[MEMCACHE_FEATURED_KEY := s]> (memcache featured_world) ∧
         profiles r.2 = profiles featured_world ∧
         conferences r.2 = conferences featured_world ∧
         sessions r.2 = sessions featured_world
    else r.1 = Ok None ∧ same_store featured_world r.2.
Proof.
  apply (C4_featured_speaker remove_dups "pycon" featured_world pycon).
  - intros l x. apply elem_of_remove_dups.
  - reflexivity.
  - vm_compute. discriminate.
Defined.

(** The scenarios of the spec: Ada with three sessions and Bob with one
    make Ada the featured speaker; one session each makes nobody. *)
Lemma featured_scenarios :
  (_cacheFeaturedSpeaker remove_dups "pycon" featured_world).1
    = Ok (Some "Ada") ∧
  memcache (_cacheFeaturedSpeaker remove_dups "pycon" featured_world).2
    !! MEMCACHE_FEATURED_KEY = Some "Ada" ∧
  (_cacheFeaturedSpeaker remove_dups "pycon" tie_world).1 = Ok None.
Proof. split_and!; by vm_compute. Qed.

(** C4 as stated fails: with one session each by Ada and Bob no speaker
    reaches two sessions and the call returns none, but the entry that an
    earlier run published is still in memcache afterwards; the function has
    no code that clears it. *)
Lemma C4_stale_entry_survives :
  let r := _cacheFeaturedSpeaker remove_dups "pycon" tie_world in
  sessions_by "pycon" tie_world "Ada" = 1%nat ∧
  sessions_by "pycon" tie_world "Bob" = 1%nat ∧
  r.1 = Ok None ∧
  memcache r.2 !! MEMCACHE_FEATURED_KEY = Some "Zed" ∧
  getFeaturedSpeaker r.2 = (Ok "Zed", log (McGet MEMCACHE_FEATURED_KEY) r.2).
Proof. cbv zeta. split_and!; by vm_compute. Qed.

(** When no session of the conference names a speaker, [speakerArray] is
    read before any assignment to it. *)
Lemma featured_without_speakers :
  (_cacheFeaturedSpeaker remove_dups "pycon" silent_world).1 =
    Raise (UnboundLocalError
             "local variable 'speakerArray' referenced before assignment").
Proof. by vm_compute. Qed.

(** ** Announcements *)

Lemma nearly_sold_out_spec c :
  nearly_sold_out c = true ↔ (0 < seatsAvailable c <= 5)%Z.
Proof.
  unfold nearly_sold_out. rewrite andb_true_iff, Z.leb_le, Z.ltb_lt. lia.
Qed.

Lemma get_announcement_spec w :
  (getAnnouncement w).1 =
    Ok (default "" (memcache w !! MEMCACHE_ANNOUNCEMENTS_KEY)) ∧
  same_store w (getAnnouncement w).2.
Proof.
  unfold_m. cbn. split; [|done].
  destruct (memcache w !! MEMCACHE_ANNOUNCEMENTS_KEY) as [v|]; [|done].
  cbn. by destruct (decide (v = "")) as [->|?];
    [rewrite bool_decide_eq_true_2|rewrite bool_decide_eq_false_2].
Qed.

Section QueryOrder.
Context (index_before : string * Conference -> string * Conference -> bool).

(** Ordering the answers neither adds nor loses one. *)
Lemma insert_result_perm x l : insert_result index_before x l ≡ₚ x :: l.
Proof.
  induction l as [|y l IH]; [done|]. cbn.
  destruct (result_before index_before x y); [done|].
  rewrite IH. apply Permutation_swap.
Qed.

Lemma sort_results_perm l : sort_results index_before l ≡ₚ l.
Proof.
  induction l as [|x l IH]; [done|]. cbn.
  rewrite insert_result_perm. by rewrite IH.
Qed.

Lemma result_before_seats a b :
  if result_before index_before a b
  then (seatsAvailable a.2 <= seatsAvailable b.2)%Z
  else (seatsAvailable b.2 <= seatsAvailable a.2)%Z.
Proof.
  unfold result_before.
  destruct (seatsAvailable a.2 <? seatsAvailable b.2)%Z eqn:Hlt; cbn.
  - apply Z.ltb_lt in Hlt. lia.
  - apply Z.ltb_ge in Hlt.
    destruct (seatsAvailable a.2 =? seatsAvailable b.2)%Z eqn:Heq; cbn.
    + apply Z.eqb_eq in Heq. destruct (index_before a b); lia.
    + done.
Qed.

(** The answers come in ascending order of [seatsAvailable], whatever the
    index does with equal numbers of seats. *)
Lemma insert_result_sorted x l :
  StronglySorted (fun a b => (seatsAvailable a.2 <= seatsAvailable b.2)%Z) l ->
  StronglySorted (fun a b => (seatsAvailable a.2 <= seatsAvailable b.2)%Z)
                 (insert_result index_before x l).
Proof.
  induction l as [|y l IH]; intros Hs.
  - repeat constructor.
  - apply StronglySorted_inv in Hs as [Hs Hall]. cbn.
    pose proof (result_before_seats x y) as Hxy.
    destruct (result_before index_before x y).
    + constructor; [by constructor|].
      constructor; [done|].
      eapply Forall_impl; [exact Hall|]. intros z Hz. cbn in *. lia.
    + constructor; [by apply IH|].
      rewrite insert_result_perm. by constructor.
Qed.

Lemma sort_results_sorted l :
  StronglySorted (fun a b => (seatsAvailable a.2 <= seatsAvailable b.2)%Z)
                 (sort_results index_before l).
Proof.
  induction l as [|x l IH]; [constructor|]. cbn.
  by apply insert_result_sorted.
Qed.

Lemma nearly_sold_out_conferences_stores w w' :
  conferences w' = conferences w ->
  nearly_sold_out_conferences index_before w'
  = nearly_sold_out_conferences index_before w.
Proof. unfold nearly_sold_out_conferences. by intros ->. Qed.
End QueryOrder.

Lemma string_append_assoc (a b c : string) :
  (a +:+ b) +:+ c = a +:+ (b +:+ c).
Proof.
  induction a as [|x a IH]; [done|].
  change (String x ((a +:+ b) +:+ c) = String x (a +:+ (b +:+ c))).
  by f_equal.
Qed.

(** [", ".join(names)] is the text of the names, comma-separated. *)
Lemma join_comma_separated (names : list string) :
  join ", " names = comma_separated names.
Proof.
  destruct names as [|x l]; [done|].
  assert (∀ l x a,
            a +:+ join ", " (x :: l)
            = foldl (fun text y => text +:+ ", " +:+ y) (a +:+ x) l) as H.
  { clear. induction l as [|y l IH]; intros x a; [done|].
    change (join ", " (x :: y :: l)) with (x +:+ ", " +:+ join ", " (y :: l)).
    cbn [foldl]. rewrite <- (string_append_assoc (a +:+ x) ", " y).
    rewrite <- IH. by rewrite !string_append_assoc. }
  apply (H l x "").
Qed.

(** C5.  The announcement [Recompute] selects exactly the stored
    conferences with [0 < seatsAvailable <= 5], each once, and takes them
    in ascending order of [seatsAvailable], the order in which the
    datastore answers the query; when there are any it stores in memcache,
    and returns, one message: the fixed opening followed by their names
    separated by [", "]; when there are none it deletes the memcache entry
    and returns the empty text.  [GetAnnouncement] returns the cached
    text, or the empty text when the entry is absent. *)
Theorem C5_announcement
    (index_before : string * Conference -> string * Conference -> bool)
    (w : World) :
  let r := _cacheAnnouncement index_before w in
  let selected := nearly_sold_out_conferences index_before w in
  let message :=
    "Last chance to attend! The following conferences are nearly sold out: "
      +:+ comma_separated ((fun kc => name kc.2) <$> selected) in
  (∀ k c, (k, c) ∈ selected ↔
          conferences w !! k = Some c ∧ (0 < seatsAvailable c <= 5)%Z) ∧
  NoDup selected.*1 ∧
  StronglySorted (fun a b => (seatsAvailable a.2 <= seatsAvailable b.2)%Z)
                 selected ∧
  (selected ≠ [] ->
     r.1 = Ok message ∧
     memcache r.2 = <[MEMCACHE_ANNOUNCEMENTS_KEY := message]> (memcache w) ∧
     (getAnnouncement r.2).1 = Ok message) ∧
  (selected = [] ->
     r.1 = Ok "" ∧
     memcache r.2 = delete MEMCACHE_ANNOUNCEMENTS_KEY (memcache w) ∧
     (getAnnouncement r.2).1 = Ok "") ∧
  profiles r.2 = profiles w ∧ conferences r.2 = conferences w ∧
  sessions r.2 = sessions w ∧
  (∀ w0, (getAnnouncement w0).1 =
           Ok (default "" (memcache w0 !! MEMCACHE_ANNOUNCEMENTS_KEY))).
Proof.
  cbv zeta. split_and!.
  - intros k c. unfold nearly_sold_out_conferences.
    rewrite sort_results_perm.
    rewrite list_elem_of_filter, elem_of_map_to_list. cbn.
    rewrite nearly_sold_out_spec. tauto.
  - unfold nearly_sold_out_conferences. rewrite sort_results_perm.
    eapply NoDup_fmap_fst.
    + intros k c1 c2 [_ H1]%list_elem_of_filter [_ H2]%list_elem_of_filter.
      apply elem_of_map_to_list in H1, H2. congruence.
    + apply NoDup_filter, NoDup_map_to_list.
  - apply sort_results_sorted.
  - intros Hne.
    unfold _cacheAnnouncement, bind, query_conferences. cbv beta iota.
    fold (nearly_sold_out_conferences index_before w).
    destruct (nearly_sold_out_conferences index_before w) as [|kc l] eqn:Hsel;
      [done|].
    unfold memcache_set, ret, ANNOUNCEMENT_TPL. cbn [fst snd].
    rewrite join_comma_separated.
    split_and!; [done..|].
    match goal with
    | |- (getAnnouncement ?w1).1 = _ =>
        destruct (get_announcement_spec w1) as [-> _]
    end.
    cbn [memcache log]. by rewrite lookup_insert_eq.
  - intros Hnil.
    unfold _cacheAnnouncement, bind, query_conferences. cbv beta iota.
    fold (nearly_sold_out_conferences index_before w). rewrite Hnil.
    unfold memcache_delete, ret. cbn [fst snd]. split_and!; [done..|].
    match goal with
    | |- (getAnnouncement ?w1).1 = _ =>
        destruct (get_announcement_spec w1) as [-> _]
    end.
    cbn [memcache log]. by rewrite lookup_delete_eq.
  - unfold _cacheAnnouncement, bind, query_conferences. cbv beta iota.
    by destruct (sort_results _ _).
  - unfold _cacheAnnouncement, bind, query_conferences. cbv beta iota.
    by destruct (sort_results _ _).
  - unfold _cacheAnnouncement, bind, query_conferences. cbv beta iota.
    by destruct (sort_results _ _).
  - intros w0. apply get_announcement_spec.
Qed.

Lemma C5_announcement_witness :
  let r := _cacheAnnouncement any_index last_seats_world in
  (nearly_sold_out_conferences any_index last_seats_world).*1 = ["c2"; "c1"] ∧
  r.1 = Ok "Last chance to attend! The following conferences are nearly sold out: OneLeft, FiveLeft" ∧
  (getAnnouncement r.2).1 = Ok "Last chance to attend! The following conferences are nearly sold out: OneLeft, FiveLeft".
Proof.
  destruct (C5_announcement any_index last_seats_world) as (_ & _ & _ & H & _).
  destruct H as (Hr & _ & Hget); [vm_compute; discriminate|].
  split_and!; [vm_compute; reflexivity|exact Hr|exact Hget].
Defined.

(** The scenario of the spec: of conferences with 3, 0 and 6 seats left
    only the first is announced. *)
Lemma announcement_scenario :
  (_cacheAnnouncement any_index announcement_world).1 =
    Ok "Last chance to attend! The following conferences are nearly sold out: PyCon" ∧
  (_cacheAnnouncement any_index empty_world).1 = Ok "" ∧
  (getAnnouncement empty_world).1 = Ok "".
Proof. split_and!; by vm_compute. Qed.

(** ** Who writes [seatsAvailable] *)

Section Update.
Context (strptime : string -> option Date) (str_date : Date -> string).
Context (request : ConferenceForm) (k : string).

Lemma copy_field_keeps_seats o o' f :
  f ≠ F_seatsAvailable ->
  copy_field strptime request k o f = Ok o' ->
  seatsAvailable (co_entity o') = seatsAvailable (co_entity o).
Proof.
  intros Hf. destruct f; try done; cbn;
    repeat case_match; intros [= <-]; done.
Qed.

Lemma copy_field_seats o :
  ∃ o', copy_field strptime request k o F_seatsAvailable = Ok o' ∧
        seatsAvailable (co_entity o') =
          default (seatsAvailable (co_entity o)) (cf_seatsAvailable request).
Proof. cbn. destruct (cf_seatsAvailable request); by eexists. Qed.

Lemma copy_fields_keep_seats fs : ∀ o o',
  F_seatsAvailable ∉ fs ->
  copy_fields strptime request k fs o = Ok o' ->
  seatsAvailable (co_entity o') = seatsAvailable (co_entity o).
Proof.
  induction fs as [|f fs IH]; intros o o' Hn; cbn; [by intros [= <-]|].
  apply not_elem_of_cons in Hn as [Hf Hn].
  destruct (copy_field strptime request k o f) as [o1|e] eqn:H1; [|done].
  intros H2. rewrite (IH o1 o') by done.
  eapply copy_field_keeps_seats; [|done]. congruence.
Qed.

Lemma copy_fields_app fs1 fs2 o :
  copy_fields strptime request k (fs1 ++ fs2) o =
    match copy_fields strptime request k fs1 o with
    | Ok o1 => copy_fields strptime request k fs2 o1
    | Raise e => Raise e
    end.
Proof.
  revert o. induction fs1 as [|f fs1 IH]; intros o; cbn; [done|].
  by destruct (copy_field strptime request k o f).
Qed.

Lemma copy_fields_cons f fs o :
  copy_fields strptime request k (f :: fs) o =
    match copy_field strptime request k o f with
    | Ok o1 => copy_fields strptime request k fs o1
    | Raise e => Raise e
    end.
Proof. reflexivity. Qed.

(** The loop of the update copies [seatsAvailable] from the request when
    the request has it, and no other field touches it. *)
Lemma copy_all_fields_seats o o' :
  copy_fields strptime request k all_fields o = Ok o' ->
  seatsAvailable (co_entity o') =
    default (seatsAvailable (co_entity o)) (cf_seatsAvailable request).
Proof.
  change all_fields with
    ([F_name; F_organizerUserId; F_topics; F_city; F_startDate; F_month;
      F_maxAttendees] ++ F_seatsAvailable ::
     [F_endDate; F_websafeKey; F_organizerDisplayName; F_websafeConferenceKey]).
  rewrite copy_fields_app.
  destruct (copy_fields _ _ _ [F_name; F_organizerUserId; F_topics; F_city;
                               F_startDate; F_month; F_maxAttendees] o)
    as [o1|e] eqn:H1; [|done].
  apply copy_fields_keep_seats in H1;
    [|intros H; repeat (apply elem_of_cons in H as [H|H]; [done|]);
      by inversion H].
  destruct (copy_field_seats o1) as (o2 & H2 & Hs).
  rewrite copy_fields_cons, H2. intros H3.
  apply copy_fields_keep_seats in H3;
    [|intros H; repeat (apply elem_of_cons in H as [H|H]; [done|]);
      by inversion H].
  congruence.
Qed.

Lemma update_conference_seats (user : option User) (w : World) :
  let r := _updateConferenceObject strptime str_date user request k w in
  (∀ form, r.1 = Ok form ->
     ∃ c c', conferences w !! k = Some c ∧
             conferences r.2 = <[k := c']> (conferences w) ∧
             seatsAvailable c' =
               default (seatsAvailable c) (cf_seatsAvailable request)) ∧
  (∀ e, r.1 = Raise e -> conferences r.2 = conferences w).
Proof.
  cbv zeta. unfold _updateConferenceObject, transactional.
  destruct user as [u|]; [|by split].
  unfold bind, get_conference. cbv beta iota.
  destruct (conferences w !! k) as [c|] eqn:Hc; [|by split].
  destruct (negb (bool_decide (user_id u = organizerUserId c))); [by split|].
  destruct (copy_fields strptime request k all_fields
              (mkConfObj k c None None None)) as [o|e] eqn:Ho; [|by split].
  apply copy_all_fields_seats in Ho. cbn in Ho.
  unfold put_conference, get_profile, raise, ret. cbn.
  destruct (profiles w !! user_id u); cbn; (split; [|done]).
  - intros form _. by exists c, (co_entity o).
  - done.
Qed.
End Update.

Lemma get_profile_conferences user w :
  conferences (_getProfileFromUser user w).2 = conferences w.
Proof.
  destruct user as [u|]; [|done]. unfold_m. cbn.
  by destruct (profiles w !! user_id u).
Qed.

Lemma add_wishlist_conferences entity_group user key w :
  conferences (addSessionToWishlist entity_group user key w).2 = conferences w.
Proof.
  unfold_m. cbn. destruct (sessions w !! key); [|done].
  destruct user as [u|]; cbn; [|done].
  destruct (decide (user_id u = entity_group key)); cbn; [|done].
  destruct (profiles w !! user_id u); cbn; by destruct (bool_decide _).
Qed.

Lemma delete_wishlist_conferences user key w :
  conferences (deleteSessionInWishlist user key w).2 = conferences w.
Proof.
  unfold_m. destruct user as [u|]; cbn; [|done].
  destruct (profiles w !! user_id u); cbn;
    (destruct (sessions w !! key) as [s|]; [|done]); cbn;
    (destruct (conferences w !! sess_parent s); [|done]); cbn;
    by destruct (negb _).
Qed.

Lemma list_wishlist_conferences {SessionType}
    (getattr_SessionType : option string -> Outcome SessionType) user w :
  conferences
    (getSessionsInWishlist SessionType getattr_SessionType user w).2
  = conferences w.
Proof.
  unfold getSessionsInWishlist, bind.
  destruct (_getProfileFromUser user w) as [[prof|e] w1] eqn:Hp.
  - assert (conferences w1 = conferences w) as <-.
    { pose proof (get_profile_conferences user w) as H. by rewrite Hp in H. }
    destruct (get_multi_sessions_spec (sessWishlist prof.2) w1)
      as (_ & _ & Hc & _).
    destruct (get_multi_sessions (sessWishlist prof.2) w1) as [[l|e] w2];
      cbn in *; [|done].
    by destruct (copy_all_spec getattr_SessionType l w2) as [-> _].
  - pose proof (get_profile_conferences user w) as H. by rewrite Hp in H.
Qed.

Lemma featured_conferences dict_keys key w :
  conferences (_cacheFeaturedSpeaker dict_keys key w).2 = conferences w.
Proof.
  unfold _cacheFeaturedSpeaker, bind, get_conference, query_sessions.
  cbv beta iota. destruct (conferences w !! key); [|done].
  cbv beta iota. destruct (speakerArray _) as [[[[s|] n]|]|]; try done;
    by destruct (2 <=? n)%nat.
Qed.

Lemma announcement_conferences index_before w :
  conferences (_cacheAnnouncement index_before w).2 = conferences w.
Proof.
  unfold _cacheAnnouncement, bind, query_conferences. cbv beta iota.
  by destruct (sort_results _ _).
Qed.

Lemma create_conference_others strptime user request key w k' :
  k' ≠ key ->
  conferences (_createConferenceObject strptime user request key w).2 !! k'
  = conferences w !! k'.
Proof.
  intros Hne. unfold _createConferenceObject.
  destruct user as [u|]; [|done].
  destruct (negb (truthy (cf_name request))); [done|].
  destruct (parse_if_given strptime (cf_startDate request)); [|done].
  destruct (parse_if_given strptime (cf_endDate request)); [|done].
  unfold_m. cbn.
  destruct (bool_decide (cf_startDate request = Some "")
            || bool_decide (cf_endDate request = Some "")); [done|].
  cbn. by rewrite lookup_insert_ne.
Qed.

(** C6 (as the code has it).  The organizer's update writes
    [seatsAvailable] when the request carries a value for it, and leaves it
    as it was when the request carries none; an update that fails writes
    nothing, and no update touches another conference.  Adding to,
    removing from and listing the wishlist, the featured-speaker and
    announcement recomputations and their read paths leave every
    conference as it was, and creating a conference leaves every other
    conference as it was. *)
Theorem C6_seats_frame (strptime : string -> option Date)
    (str_date : Date -> string) (user : option User)
    (request : ConferenceForm) (k : string) (w : World) :
  let r := _updateConferenceObject strptime str_date user request k w in
  (∀ form, r.1 = Ok form ->
     ∃ c c', conferences w !! k = Some c ∧
             conferences r.2 !! k = Some c' ∧
             seatsAvailable c' =
               default (seatsAvailable c) (cf_seatsAvailable request)) ∧
  (∀ e, r.1 = Raise e -> conferences r.2 = conferences w) ∧
  (∀ k', k' ≠ k -> conferences r.2 !! k' = conferences w !! k') ∧
  (∀ entity_group key,
     conferences (addSessionToWishlist entity_group user key w).2
     = conferences w) ∧
  (∀ key, conferences (deleteSessionInWishlist user key w).2 = conferences w) ∧
  (∀ SessionType (getattr_SessionType : option string -> Outcome SessionType),
     conferences
       (getSessionsInWishlist SessionType getattr_SessionType user w).2
     = conferences w) ∧
  (∀ dict_keys key,
     conferences (_cacheFeaturedSpeaker dict_keys key w).2 = conferences w) ∧
  conferences (getFeaturedSpeaker w).2 = conferences w ∧
  (∀ index_before,
     conferences (_cacheAnnouncement index_before w).2 = conferences w) ∧
  conferences (getAnnouncement w).2 = conferences w ∧
  (∀ req key k', k' ≠ key ->
     conferences (_createConferenceObject strptime user req key w).2 !! k'
     = conferences w !! k').
Proof.
  cbv zeta.
  destruct (update_conference_seats strptime str_date request k user w)
    as [Hok Hfail].
  split_and!.
  - intros form Hr. destruct (Hok form Hr) as (c & c' & Hc & Hcs & Hs).
    exists c, c'. split_and!; [done| |done].
    rewrite Hcs. apply lookup_insert_eq.
  - exact Hfail.
  - intros k' Hne.
    destruct (_updateConferenceObject strptime str_date user request k w).1
      as [form|e] eqn:Hr.
    + destruct (Hok form eq_refl) as (c & c' & _ & -> & _).
      by rewrite lookup_insert_ne.
    + by rewrite (Hfail e).
  - intros g key. apply add_wishlist_conferences.
  - intros key. apply delete_wishlist_conferences.
  - intros ST g. apply list_wishlist_conferences.
  - intros dk key. apply featured_conferences.
  - done.
  - intros ib. apply announcement_conferences.
  - done.
  - intros req key k'. apply create_conference_others.
Qed.

Lemma C6_seats_frame_witness :
  let r := _updateConferenceObject no_date show_date (Some alice)
             (seats_request 100) "pycon" organizer_world in
  ∃ c c', conferences organizer_world !! "pycon" = Some c ∧
          conferences r.2 !! "pycon" = Some c' ∧
          seatsAvailable c' =
            default (seatsAvailable c) (cf_seatsAvailable (seats_request 100)).
Proof.
  destruct (C6_seats_frame no_date show_date (Some alice) (seats_request 100)
              "pycon" organizer_world) as (H & _).
  eapply H. vm_compute. reflexivity.
Defined.

(** C6 as stated fails: the organizer's update with [seatsAvailable = 100]
    in the request succeeds and sets the seats of a conference for two
    from 2 to 100; no registration is involved. *)
Lemma C6_update_writes_seats :
  let r := _updateConferenceObject no_date show_date (Some alice)
             (seats_request 100) "pycon" organizer_world in
  seatsAvailable <$> conferences organizer_world !! "pycon" = Some 2%Z ∧
  maxAttendees <$> conferences organizer_world !! "pycon" = Some 2%Z ∧
  (∃ form, r.1 = Ok form) ∧
  seatsAvailable <$> conferences r.2 !! "pycon" = Some 100%Z.
Proof.
  cbv zeta. split_and!; [by vm_compute..| |by vm_compute].
  eexists. vm_compute. reflexivity.
Qed.

(** * Further properties *)

(** ** Registration: conservation, round trips, duplicates *)

Lemma list_remove_snoc (k : string) (l : list string) :
  k ∉ l -> list_remove k (l ++ [k]) = l.
Proof.
  induction l as [|y l IH]; cbn.
  - intros _. by rewrite decide_True.
  - intros [Hne Hn]%not_elem_of_cons. rewrite decide_False by done.
    by rewrite IH.
Qed.

Lemma list_remove_NoDup (k : string) (l : list string) :
  NoDup l -> NoDup (list_remove k l) ∧ k ∉ list_remove k l.
Proof.
  induction l as [|y l IH]; cbn; [by split; [constructor|inversion 1]|].
  intros [Hy Hl]%NoDup_cons. destruct (decide (k = y)) as [->|Hne].
  - done.
  - destruct (IH Hl) as [Hnd Hk]. split.
    + apply NoDup_cons. split; [|done].
      intros Hin. by apply Hy, (list_remove_elem k).
    + by apply not_elem_of_cons.
Qed.

Lemma set_seatsAvailable_same c : set_seatsAvailable (seatsAvailable c) c = c.
Proof. by destruct c. Qed.

Lemma set_keys_same p :
  set_conferenceKeysToAttend (conferenceKeysToAttend p) p = p.
Proof. by destruct p. Qed.

Lemma set_wishlist_same p : set_sessWishlist (sessWishlist p) p = p.
Proof. by destruct p. Qed.

(** A registration call never changes the capacity of a conference. *)
Lemma reg_effect_capacity k w w' c :
  reg_effect w w' -> conferences w !! k = Some c ->
  ∃ c', conferences w' !! k = Some c' ∧ maxAttendees c' = maxAttendees c.
Proof.
  intros Heff Hc.
  destruct Heff as [Hp Hcs|u Hp Hcs|u wsck c1 Hc1 Hin Hs Hp Hcs
                    |u wsck c1 Hc1 Hin Hp Hcs]; rewrite Hcs;
    try by exists c.
  - destruct (decide (wsck = k)) as [->|Hne].
    + rewrite lookup_insert_eq. assert (c1 = c) as -> by congruence.
      by eexists.
    + rewrite lookup_insert_ne by done. by exists c.
  - destruct (decide (wsck = k)) as [->|Hne].
    + rewrite lookup_insert_eq. assert (c1 = c) as -> by congruence.
      by eexists.
    + rewrite lookup_insert_ne by done. by exists c.
Qed.

Lemma run_ops_capacity k ops : ∀ w c,
  conferences w !! k = Some c ->
  ∃ c', conferences (run_ops ops w) !! k = Some c' ∧
        maxAttendees c' = maxAttendees c.
Proof.
  induction ops as [|op ops IH]; intros w c Hc; [by exists c|].
  cbn. destruct (reg_effect_capacity k w (run_op w op) c) as (c1 & Hc1 & Hm1);
    [destruct op; apply registration_effect|done|].
  destruct (IH _ _ Hc1) as (c2 & Hc2 & Hm2). exists c2. split; [done|].
  congruence.
Qed.

(** X1.  Seats are conserved: for a conference created with
    [maxAttendees > 0], after every sequence of Register and Unregister
    calls the seats still available plus the registrations that profiles
    hold for it add up to the capacity it was created with. *)
Theorem seats_conserved (strptime : string -> option Date)
    (user : option User) (request form : ConferenceForm) (k : string)
    (w w' : World) (ops : list RegOp) :
  attendance_resolves w ->
  conferences w !! k = None ->
  (0 < default DEFAULT_maxAttendees (cf_maxAttendees request))%Z ->
  _createConferenceObject strptime user request k w = (Ok form, w') ->
  ∃ c, conferences (run_ops ops w') !! k = Some c ∧
       maxAttendees c = default DEFAULT_maxAttendees (cf_maxAttendees request) ∧
       (seatsAvailable c
        + Z.of_nat (attending k (profiles (run_ops ops w'))))%Z
       = maxAttendees c.
Proof.
  intros Hres Hfresh Hmax Hcreate.
  destruct (create_conference_stores _ _ _ _ _ _ _ Hcreate)
    as (c & Hcs & Hps & Hm & Hseats).
  rewrite <- Hm in Hmax. specialize (Hseats Hmax).
  assert (conferences w' !! k = Some c) as Hk
    by (rewrite Hcs; apply lookup_insert_eq).
  assert (seats_accounted k w') as Hacc.
  { exists c. split; [done|]. rewrite Hps, attending_nobody; [lia|].
    intros uid p Hp Hin. destruct (Hres uid p k Hp Hin) as [c' Hc'].
    congruence. }
  destruct (run_ops_accounted k ops w' Hacc) as (c1 & Hc1 & _ & Hsum).
  destruct (run_ops_capacity k ops w' c Hk) as (c2 & Hc2 & Hm2).
  assert (c2 = c1) as -> by congruence.
  exists c1. split_and!; [done|congruence|done].
Qed.

Lemma seats_conserved_witness :
  ∃ c, conferences
         (run_ops [Register (Some alice) "pycon"; Register (Some bob) "pycon";
                   Unregister (Some alice) "pycon"] pycon_world) !! "pycon"
       = Some c ∧
       maxAttendees c = 2%Z ∧
       (seatsAvailable c
        + Z.of_nat (attending "pycon"
             (profiles
                (run_ops [Register (Some alice) "pycon";
                          Register (Some bob) "pycon";
                          Unregister (Some alice) "pycon"] pycon_world))))%Z
       = maxAttendees c.
Proof.
  eapply (seats_conserved no_date (Some alice)
            (conference_request "PyCon" (Some 2%Z) None) _ "pycon"
            empty_world pycon_world).
  - apply attendance_resolves_empty.
  - reflexivity.
  - cbn. lia.
  - vm_compute. reflexivity.
Defined.

(** X2.  Register followed by Unregister is a round trip: for a caller
    who is not registered and a conference with a free seat, both calls
    succeed and leave the conference and the caller's profile exactly as
    they were before the first call (a profile created on the way stays,
    with no keys). *)
Theorem register_unregister_round_trip (u : User) (wsck : string)
    (w : World) (c : Conference) :
  conferences w !! wsck = Some c ->
  wsck ∉ conferenceKeysToAttend (profile_of u w) ->
  (0 < seatsAvailable c)%Z ->
  let r1 := registerForConference (Some u) wsck w in
  let r2 := unregisterFromConference (Some u) wsck r1.2 in
  r1.1 = Ok true ∧ r2.1 = Ok true ∧
  conferences r2.2 = conferences w ∧
  profiles r2.2 = <[user_id u := profile_of u w]> (profiles w) ∧
  sessions r2.2 = sessions w ∧ memcache r2.2 = memcache w.
Proof.
  intros Hc Hin Hs. cbv zeta.
  destruct (register_ok u wsck w c Hc Hin Hs) as (Hr1 & Hp1 & Hc1 & Hs1 & Hm1).
  set (w1 := (registerForConference (Some u) wsck w).2) in *.
  assert (profile_of u w1 =
            set_conferenceKeysToAttend
              (conferenceKeysToAttend (profile_of u w) ++ [wsck])
              (profile_of u w)) as Hof.
  { apply profile_of_Some. rewrite Hp1. apply lookup_insert_eq. }
  destruct (unregister_ok u wsck w1
              (set_seatsAvailable (seatsAvailable c - 1) c))
    as (Hr2 & Hp2 & Hc2 & Hs2 & Hm2).
  { rewrite Hc1. apply lookup_insert_eq. }
  { rewrite Hof. cbn. apply elem_of_snoc. }
  split_and!; [done|done| | |congruence|congruence].
  - rewrite Hc2, Hc1, insert_insert_eq. cbn.
    replace (seatsAvailable c - 1 + 1)%Z with (seatsAvailable c) by lia.
    apply insert_id. rewrite Hc. f_equal. by destruct c.
  - rewrite Hp2, Hp1, insert_insert_eq, Hof. cbn.
    rewrite list_remove_snoc by done. f_equal. by destruct (profile_of u w).
Qed.

Lemma register_unregister_round_trip_witness :
  let r1 := registerForConference (Some bob) "pycon" pycon_world in
  let r2 := unregisterFromConference (Some bob) "pycon" r1.2 in
  r1.1 = Ok true ∧ r2.1 = Ok true ∧
  conferences r2.2 = conferences pycon_world ∧
  profiles r2.2 = <["bob" := profile_of bob pycon_world]> (profiles pycon_world) ∧
  sessions r2.2 = sessions pycon_world ∧ memcache r2.2 = memcache pycon_world.
Proof.
  apply (register_unregister_round_trip bob "pycon" pycon_world pycon).
  - reflexivity.
  - vm_compute. by inversion 1.
  - cbn. lia.
Defined.

Lemma no_duplicates_profile_of u w :
  no_duplicates w ->
  NoDup (conferenceKeysToAttend (profile_of u w)) ∧
  NoDup (sessWishlist (profile_of u w)).
Proof.
  intros Hnd. unfold profile_of.
  destruct (profiles w !! user_id u) as [p|] eqn:Hp; cbn.
  - by apply (Hnd (user_id u)).
  - split; constructor.
Qed.

Lemma no_duplicates_same w w' :
  profiles w' = profiles w -> no_duplicates w -> no_duplicates w'.
Proof. intros Hp Hnd uid p. rewrite Hp. apply Hnd. Qed.

Lemma no_duplicates_store w w' uid p :
  profiles w' = <[uid := p]> (profiles w) ->
  NoDup (conferenceKeysToAttend p) -> NoDup (sessWishlist p) ->
  no_duplicates w -> no_duplicates w'.
Proof.
  intros Hp Hk Hw Hnd v q. rewrite Hp.
  destruct (decide (uid = v)) as [<-|Hne].
  - rewrite lookup_insert_eq. by intros [= <-].
  - rewrite lookup_insert_ne by done. apply Hnd.
Qed.

(** What the two wishlist endpoints do to the stored profiles. *)
Lemma add_wishlist_profiles entity_group user key w :
  let r := addSessionToWishlist entity_group user key w in
  profiles r.2 = profiles w ∨
  (∃ u, user = Some u ∧ (key ∉ sessWishlist (profile_of u w)) ∧
        profiles r.2 =
          <[user_id u :=
              (set_sessWishlist (sessWishlist (profile_of u w) ++ [key])
                                (profile_of u w))]> (profiles w)).
Proof.
  cbv zeta. destruct user as [u|].
  2:{ left. unfold_m. cbn. by destruct (sessions w !! key). }
  destruct (sessions w !! key) as [s|] eqn:Hs.
  2:{ left.
      by destruct (add_wishlist_not_found entity_group u key w Hs)
        as (_ & ? & _). }
  destruct (decide (user_id u = entity_group key)) as [Hg|Hg].
  2:{ left.
      by destruct (add_wishlist_refused entity_group u key w s Hs Hg)
        as (_ & (? & _) & _). }
  destruct (decide (key ∈ sessWishlist (profile_of u w))) as [Hin|Hin].
  - left.
    by destruct (add_wishlist_present entity_group u key w s Hs Hg Hin)
      as (_ & ? & _).
  - right. exists u.
    by destruct (add_wishlist_ok entity_group u key w s Hs Hg Hin)
      as (_ & ? & _).
Qed.

Lemma delete_wishlist_profiles_user u key w :
  let r := deleteSessionInWishlist (Some u) key w in
  profiles r.2 = profiles w ∨
  profiles r.2 = <[user_id u := profile_of u w]> (profiles w) ∨
  profiles r.2 =
    <[user_id u :=
        (set_sessWishlist (list_remove key (sessWishlist (profile_of u w)))
                          (profile_of u w))]> (profiles w).
Proof.
  cbv zeta.
  destruct (profiles w !! user_id u) as [p|] eqn:Hp;
    [rewrite (profile_of_Some u w p Hp)|rewrite (profile_of_None u w Hp)];
    unfold_m; cbn; rewrite Hp; cbn.
  - destruct (sessions w !! key) as [s|]; cbn; [|by left].
    destruct (conferences w !! sess_parent s); cbn; [|by left].
    destruct (negb (bool_decide (key ∈ sessWishlist p))); cbn; [by left|].
    right. right. reflexivity.
  - right.
    destruct (sessions w !! key) as [s|]; cbn; [|by left].
    destruct (conferences w !! sess_parent s); cbn; [|by left].
    left. reflexivity.
Qed.

Lemma delete_wishlist_profiles user key w :
  let r := deleteSessionInWishlist user key w in
  profiles r.2 = profiles w ∨
  (∃ u, user = Some u ∧
        (profiles r.2 = <[user_id u := profile_of u w]> (profiles w) ∨
         profiles r.2 =
           <[user_id u :=
               (set_sessWishlist
                  (list_remove key (sessWishlist (profile_of u w)))
                  (profile_of u w))]> (profiles w))).
Proof.
  cbv zeta. destruct user as [u|]; [|by left].
  destruct (delete_wishlist_profiles_user u key w) as [H|H]; [by left|].
  right. by exists u.
Qed.

Lemma NoDup_snoc (k : string) (l : list string) :
  NoDup l -> k ∉ l -> NoDup (l ++ [k]).
Proof.
  intros Hl Hk. apply NoDup_app. split_and!; [done| |apply NoDup_singleton].
  intros x Hx Hx'. apply list_elem_of_singleton in Hx'. by subst.
Qed.

Lemma reg_effect_no_duplicates w w' :
  reg_effect w w' -> no_duplicates w -> no_duplicates w'.
Proof.
  intros Heff Hnd.
  destruct Heff as [Hp _|u Hp _|u wsck c _ Hin _ Hp _|u wsck c _ Hin Hp _].
  - by eapply no_duplicates_same.
  - destruct (no_duplicates_profile_of u w Hnd) as [Hk Hw].
    by eapply no_duplicates_store.
  - destruct (no_duplicates_profile_of u w Hnd) as [Hk Hw].
    eapply no_duplicates_store; [done| |done|done]. cbn.
    by apply NoDup_snoc.
  - destruct (no_duplicates_profile_of u w Hnd) as [Hk Hw].
    eapply no_duplicates_store; [done| |done|done]. cbn.
    by apply list_remove_NoDup.
Qed.

Lemma run_list_op_no_duplicates entity_group w op :
  no_duplicates w -> no_duplicates (run_list_op entity_group w op).
Proof.
  intros Hnd. destruct op as [user k|user k|user k|user k]; cbn.
  - eapply reg_effect_no_duplicates; [apply registration_effect|done].
  - eapply reg_effect_no_duplicates; [apply registration_effect|done].
  - destruct (add_wishlist_profiles entity_group user k w)
      as [Hp|(u & _ & Hin & Hp)].
    + by eapply no_duplicates_same.
    + destruct (no_duplicates_profile_of u w Hnd) as [Hk Hw].
      eapply no_duplicates_store; [done|done| |done]. cbn.
      by apply NoDup_snoc.
  - destruct (delete_wishlist_profiles user k w) as [Hp|(u & _ & [Hp|Hp])].
    + by eapply no_duplicates_same.
    + destruct (no_duplicates_profile_of u w Hnd) as [Hk Hw].
      by eapply no_duplicates_store.
    + destruct (no_duplicates_profile_of u w Hnd) as [Hk Hw].
      eapply no_duplicates_store; [done|done| |done]. cbn.
      by apply list_remove_NoDup.
Qed.

(** X3.  The reference lists stay free of duplicates: if no stored
    profile holds a conference key or a session key twice, the same is
    true after every sequence of Register, Unregister, AddToWishlist and
    RemoveFromWishlist calls, successful or not. *)
Theorem reference_lists_stay_duplicate_free
    (entity_group : string -> string) (ops : list ListOp) (w : World) :
  no_duplicates w -> no_duplicates (run_list_ops entity_group ops w).
Proof.
  revert w. induction ops as [|op ops IH]; intros w Hnd; [done|].
  cbn. by apply IH, run_list_op_no_duplicates.
Qed.

Lemma no_duplicates_empty : no_duplicates empty_world.
Proof. intros uid p Hp. cbn in Hp. by rewrite lookup_empty in Hp. Qed.

Lemma reference_lists_stay_duplicate_free_witness :
  no_duplicates
    (run_list_ops alices_group
                  [OpRegister (Some alice) "pycon";
                   OpRegister (Some alice) "pycon";
                   OpAddWish (Some alice) "talk";
                   OpUnregister (Some alice) "pycon"] stale_world).
Proof.
  apply reference_lists_stay_duplicate_free.
  intros uid p Hp. cbn in Hp.
  apply lookup_singleton_Some in Hp as [_ <-]. cbn.
  split; [constructor|]. apply (bool_decide_unpack _). by vm_compute.
Defined.

(** X4.  A registration is given back once: when the caller's list holds
    the conference key without duplicates, Unregister succeeds and the
    stored conference has one seat more than before and is otherwise the
    same; a second Unregister returns [false] and leaves the conference as
    the first call left it. *)
Theorem unregister_gives_back_once (u : User) (wsck : string) (w : World)
    (c : Conference) :
  conferences w !! wsck = Some c ->
  wsck ∈ conferenceKeysToAttend (profile_of u w) ->
  NoDup (conferenceKeysToAttend (profile_of u w)) ->
  let r1 := unregisterFromConference (Some u) wsck w in
  let r2 := unregisterFromConference (Some u) wsck r1.2 in
  r1.1 = Ok true ∧ r2.1 = Ok false ∧
  (∃ c', conferences r1.2 !! wsck = Some c' ∧
         seatsAvailable c' = (seatsAvailable c + 1)%Z ∧
         same_but_seats c c') ∧
  conferences r2.2 = conferences r1.2 ∧
  wsck ∉ conferenceKeysToAttend (profile_of u r2.2).
Proof.
  intros Hc Hin Hnd. cbv zeta.
  destruct (unregister_ok u wsck w c Hc Hin) as (Hr1 & Hp1 & Hc1 & _).
  set (w1 := (unregisterFromConference (Some u) wsck w).2) in *.
  assert (profile_of u w1 =
            set_conferenceKeysToAttend
              (list_remove wsck (conferenceKeysToAttend (profile_of u w)))
              (profile_of u w)) as Hof.
  { apply profile_of_Some. rewrite Hp1. apply lookup_insert_eq. }
  assert (wsck ∉ conferenceKeysToAttend (profile_of u w1)) as Hgone.
  { rewrite Hof. cbn. by apply list_remove_NoDup. }
  destruct (unregister_absent u wsck w1
              (set_seatsAvailable (seatsAvailable c + 1) c))
    as (Hr2 & Hp2 & Hc2 & _); [rewrite Hc1; apply lookup_insert_eq|done|].
  split_and!; [done|done| |done|].
  - eexists. split; [rewrite Hc1; apply lookup_insert_eq|].
    split; [done|]. by repeat split.
  - erewrite (profile_of_Some u _ (profile_of u w1)); [done|].
    rewrite Hp2. apply lookup_insert_eq.
Qed.

Lemma unregister_gives_back_once_witness :
  let w := (registerForConference (Some bob) "pycon" pycon_world).2 in
  let r1 := unregisterFromConference (Some bob) "pycon" w in
  let r2 := unregisterFromConference (Some bob) "pycon" r1.2 in
  seatsAvailable <$> conferences w !! "pycon" = Some 1%Z ∧
  r1.1 = Ok true ∧ r2.1 = Ok false ∧
  seatsAvailable <$> conferences r1.2 !! "pycon" = Some 2%Z ∧
  seatsAvailable <$> conferences r2.2 !! "pycon" = Some 2%Z ∧
  ("pycon" ∉ conferenceKeysToAttend (profile_of bob r2.2)).
Proof.
  destruct (unregister_gives_back_once bob "pycon"
              (registerForConference (Some bob) "pycon" pycon_world).2
              (set_seatsAvailable 1 pycon))
    as (Hr1 & Hr2 & (c' & Hc' & Hseats & _) & Hsame & Hout).
  - reflexivity.
  - vm_compute. apply list_elem_of_here.
  - vm_compute. apply NoDup_singleton.
  - cbv zeta. rewrite Hsame, Hc'. cbn [fmap option_fmap option_map].
    rewrite Hseats. split_and!; [reflexivity|exact Hr1|exact Hr2| | |exact Hout];
      reflexivity.
Defined.

(** ** Wishlist round trip *)

(** X5.  AddToWishlist followed by RemoveFromWishlist is a round trip
    for the user under whose profile the conference of the session lies
    (the add of anyone else is refused): for a session that resolves
    together with its parent conference and is not on the caller's
    wishlist, both calls succeed and the stored profile is the one the
    caller had before; conferences and sessions are not written. *)
Theorem wishlist_add_remove_round_trip (entity_group : string -> string)
    (u : User) (key : string) (w : World) (s : Session) :
  sessions w !! key = Some s ->
  user_id u = entity_group key ->
  is_Some (conferences w !! sess_parent s) ->
  key ∉ sessWishlist (profile_of u w) ->
  let r1 := addSessionToWishlist entity_group (Some u) key w in
  let r2 := deleteSessionInWishlist (Some u) key r1.2 in
  r1.1 = Ok true ∧ r2.1 = Ok true ∧
  profiles r2.2 = <[user_id u := profile_of u w]> (profiles w) ∧
  conferences r2.2 = conferences w ∧ sessions r2.2 = sessions w.
Proof.
  intros Hs Hg Hconf Hin. cbv zeta.
  destruct (add_wishlist_ok entity_group u key w s Hs Hg Hin)
    as (Hr1 & Hp1 & Hc1 & Hs1 & _).
  set (w1 := (addSessionToWishlist entity_group (Some u) key w).2) in *.
  assert (profile_of u w1 =
            set_sessWishlist (sessWishlist (profile_of u w) ++ [key])
                             (profile_of u w)) as Hof.
  { apply profile_of_Some. rewrite Hp1. apply lookup_insert_eq. }
  destruct (delete_wishlist_resolved u key w1 s) as (_ & _ & Hdel);
    [by rewrite Hs1|].
  destruct Hdel as [Hr2 Hp2].
  { by rewrite Hc1. }
  { rewrite Hof. cbn. apply elem_of_snoc. }
  split_and!; [done|done| | |].
  - rewrite Hp2, Hp1, insert_insert_eq, Hof. cbn.
    rewrite list_remove_snoc by done. f_equal. by destruct (profile_of u w).
  - by rewrite delete_wishlist_conferences.
  - rewrite <- Hs1. clear. unfold_m. cbn.
    destruct (profiles w1 !! user_id u); cbn;
      (destruct (sessions w1 !! key) as [s'|]; [|done]); cbn;
      (destruct (conferences w1 !! sess_parent s'); [|done]); cbn;
      by destruct (negb _).
Qed.

Lemma wishlist_add_remove_round_trip_witness :
  let r1 := addSessionToWishlist alices_group (Some alice) "t1"
              featured_world in
  let r2 := deleteSessionInWishlist (Some alice) "t1" r1.2 in
  r1.1 = Ok true ∧ r2.1 = Ok true ∧
  profiles r2.2 =
    <["alice" := profile_of alice featured_world]> (profiles featured_world) ∧
  conferences r2.2 = conferences featured_world ∧
  sessions r2.2 = sessions featured_world.
Proof.
  apply (wishlist_add_remove_round_trip alices_group alice "t1" featured_world
           (talk (Some "Ada"))).
  - reflexivity.
  - reflexivity.
  - by eexists.
  - vm_compute. by inversion 1.
Defined.

(** ** Featured speaker: edge cases, order independence, read path *)

Lemma sess_loop_silent dict_keys sess :
  speakers sess = [] ->
  foldl (sess_step dict_keys) (mkLocals [] None 0 None) sess
  = mkLocals [] None 0 None.
Proof.
  induction sess as [|x sess IH] using rev_ind; [done|].
  rewrite speakers_snoc, foldl_app. cbn [foldl].
  intros [Hs Hx]%app_eq_nil. rewrite (IH Hs). unfold sess_step.
  by destruct (truthy (sess_speaker x.2)).
Qed.

Lemma speakers_nil_iff k w :
  speakers (sessions_under k w) = [] ↔
  ∀ key s, sessions w !! key = Some s -> sess_parent s = k ->
           truthy (sess_speaker s) = false.
Proof.
  split.
  - intros Hnil key s Hs Hp.
    destruct (truthy (sess_speaker s)) eqn:Ht; [|done].
    assert (default "" (sess_speaker s) ∈ speakers (sessions_under k w)) as Hin.
    { unfold speakers. apply list_elem_of_omap. exists (key, s). split.
      - unfold sessions_under. apply list_elem_of_filter. split; [done|].
        by apply elem_of_map_to_list.
      - cbn. rewrite Ht. by destruct (sess_speaker s). }
    rewrite Hnil in Hin. by inversion Hin.
  - intros Hall. destruct (speakers (sessions_under k w)) as [|x l] eqn:HL;
      [done|].
    assert (x ∈ speakers (sessions_under k w)) as Hin
      by (rewrite HL; apply list_elem_of_here).
    unfold speakers in Hin.
    apply list_elem_of_omap in Hin as ((key & s) & Hks & Hx).
    unfold sessions_under in Hks.
    apply list_elem_of_filter in Hks as [Hp Hks].
    apply elem_of_map_to_list in Hks. cbn in *.
    by rewrite (Hall key s Hks Hp) in Hx.
Qed.

Lemma featured_silent_run dict_keys k w c :
  conferences w !! k = Some c ->
  speakers (sessions_under k w) = [] ->
  let r := _cacheFeaturedSpeaker dict_keys k w in
  r.1 = Raise (UnboundLocalError
                 "local variable 'speakerArray' referenced before assignment") ∧
  same_store w r.2.
Proof.
  intros Hc Hall. cbv zeta.
  unfold _cacheFeaturedSpeaker, bind, get_conference, query_sessions.
  cbv beta iota. rewrite Hc. cbv beta iota.
  change (sessions_under k (log (DsGet KConference k) w))
    with (sessions_under k w).
  by rewrite (sess_loop_silent dict_keys _ Hall).
Qed.

(** X6.  [_cacheFeaturedSpeaker] on a conference that has no session with
    a non-empty speaker (no session at all included) does not return: it
    reads [speakerArray] before any assignment and raises
    [UnboundLocalError]; nothing is written. *)
Theorem featured_needs_a_speaker (dict_keys : list string -> list string)
    (k : string) (w : World) (c : Conference) :
  conferences w !! k = Some c ->
  (∀ key s, sessions w !! key = Some s -> sess_parent s = k ->
            truthy (sess_speaker s) = false) ->
  let r := _cacheFeaturedSpeaker dict_keys k w in
  r.1 = Raise (UnboundLocalError
                 "local variable 'speakerArray' referenced before assignment") ∧
  same_store w r.2.
Proof.
  intros Hc Hall. apply speakers_nil_iff in Hall.
  by apply (featured_silent_run dict_keys k w c).
Qed.

Lemma featured_needs_a_speaker_witness :
  let r := _cacheFeaturedSpeaker remove_dups "pycon" organizer_world in
  r.1 = Raise (UnboundLocalError
                 "local variable 'speakerArray' referenced before assignment") ∧
  same_store organizer_world r.2.
Proof.
  apply (featured_needs_a_speaker remove_dups "pycon" organizer_world pycon).
  - reflexivity.
  - intros key s Hs. cbn in Hs. by rewrite lookup_empty in Hs.
Defined.

Lemma counter_pos_elem (l : list string) (x : string) :
  (0 < counter l x)%nat -> x ∈ l.
Proof.
  intros H. destruct (decide (x ∈ l)) as [|Hn]; [done|].
  rewrite (counter_not_elem x l Hn) in H. lia.
Qed.

Lemma featured_strict_maximum_run (dict_keys : list string -> list string)
    (k : string) (w : World) (c : Conference) (s : string) :
  (∀ l x, x ∈ dict_keys l ↔ x ∈ l) ->
  conferences w !! k = Some c ->
  s ≠ "" ->
  (2 <= sessions_by k w s)%nat ->
  (∀ x, x ≠ s -> x ≠ "" -> (sessions_by k w x < sessions_by k w s)%nat) ->
  let r := _cacheFeaturedSpeaker dict_keys k w in
  r.1 = Ok (Some s) ∧
  memcache r.2 = <[MEMCACHE_FEATURED_KEY := s]> (memcache w).
Proof.
  intros Hkeys Hc Hs H2 Hmax. cbv zeta.
  set (L := speakers (sessions_under k w)).
  assert (s ∈ L) as HsL.
  { apply counter_pos_elem. unfold L. rewrite <- sessions_by_counter by done.
    lia. }
  assert (L ≠ []) as HL by (intros HL; rewrite HL in HsL; by inversion HsL).
  destruct (featured_run dict_keys Hkeys k w c Hc HL)
    as (p1 & s' & p2 & Hk & H1 & H2' & Hout).
  fold L in Hk, H1, H2', Hout.
  assert (s' ∈ dict_keys L) as Hs'
    by (rewrite Hk; apply elem_of_app; right; apply list_elem_of_here).
  assert (s' ≠ "") as Hne'.
  { apply (speakers_nonempty (sessions_under k w)). by apply Hkeys. }
  assert (s' = s) as ->.
  { destruct (decide (s' = s)) as [|Hne]; [done|]. exfalso.
    specialize (Hmax s' Hne Hne'). rewrite !sessions_by_counter in Hmax by done.
    fold L in Hmax.
    apply Hkeys in HsL. rewrite Hk in HsL.
    apply elem_of_app in HsL as [Hin|Hin].
    - specialize (H1 s Hin). lia.
    - apply elem_of_cons in Hin as [->|Hin]; [done|].
      specialize (H2' s Hin). lia. }
  rewrite sessions_by_counter in H2 by done. fold L in H2.
  apply Nat.leb_le in H2. rewrite H2 in Hout.
  by destruct Hout as (? & ? & _).
Qed.

(** X7.  Without a tie the iteration order of the counter does not
    matter: when one speaker has at least two sessions in the conference
    and strictly more than every other named speaker, [_cacheFeaturedSpeaker]
    returns that speaker and stores it in memcache, whatever order the
    dictionary iterates in. *)
Theorem featured_strict_maximum (dict_keys : list string -> list string)
    (k : string) (w : World) (c : Conference) (s : string) :
  (∀ l x, x ∈ dict_keys l ↔ x ∈ l) ->
  conferences w !! k = Some c ->
  s ≠ "" ->
  (2 <= sessions_by k w s)%nat ->
  (∀ x, x ≠ s -> x ≠ "" -> (sessions_by k w x < sessions_by k w s)%nat) ->
  let r := _cacheFeaturedSpeaker dict_keys k w in
  r.1 = Ok (Some s) ∧
  memcache r.2 = <[MEMCACHE_FEATURED_KEY := s]> (memcache w).
Proof. apply featured_strict_maximum_run. Qed.

Lemma featured_strict_maximum_witness :
  let r := _cacheFeaturedSpeaker reverse "pycon" featured_world in
  r.1 = Ok (Some "Ada") ∧
  memcache r.2 = <[MEMCACHE_FEATURED_KEY := "Ada"]> (memcache featured_world).
Proof.
  apply (featured_strict_maximum reverse "pycon" featured_world pycon "Ada").
  - intros l x. apply elem_of_reverse.
  - reflexivity.
  - done.
  - vm_compute. lia.
  - intros x Hx _.
    replace (sessions_by "pycon" featured_world "Ada") with 3%nat
      by by vm_compute.
    unfold sessions_by.
    replace (sessions_under "pycon" featured_world)
      with [("t3", talk (Some "Ada")); ("t1", talk (Some "Ada"));
            ("t2", talk (Some "Bob")); ("t4", talk (Some "Ada"))]
      by by vm_compute.
    rewrite !filter_cons, filter_nil. cbn [snd talk sess_speaker].
    repeat (destruct (decide (Some _ = Some x)) as [[= ?]|?]);
      cbn; try lia; congruence.
Defined.

Lemma featured_outcomes dict_keys k w :
  (∀ l x, x ∈ dict_keys l ↔ x ∈ l) ->
  let r := _cacheFeaturedSpeaker dict_keys k w in
  ((∃ e, r.1 = Raise e) ∧ same_store w r.2) ∨
  (r.1 = Ok None ∧ same_store w r.2) ∨
  (∃ s, s ≠ "" ∧ r.1 = Ok (Some s) ∧ (2 <= sessions_by k w s)%nat ∧
        memcache r.2 = <[MEMCACHE_FEATURED_KEY := s]> (memcache w) ∧
        profiles r.2 = profiles w ∧ conferences r.2 = conferences w ∧
        sessions r.2 = sessions w).
Proof.
  intros Hkeys. cbv zeta.
  destruct (conferences w !! k) as [c|] eqn:Hc.
  2:{ left. unfold _cacheFeaturedSpeaker, bind, get_conference.
      cbv beta iota. rewrite Hc. split; [by eexists|done]. }
  destruct (decide (speakers (sessions_under k w) = [])) as [HL|HL].
  { left. destruct (featured_silent_run dict_keys k w c Hc HL) as [-> ?].
    split; [by eexists|done]. }
  destruct (featured_run dict_keys Hkeys k w c Hc HL)
    as (p1 & s & p2 & Hk & _ & _ & Hout).
  assert (s ≠ "") as Hs.
  { apply (speakers_nonempty (sessions_under k w)), Hkeys.
    rewrite Hk. apply elem_of_app. right. apply list_elem_of_here. }
  destruct (2 <=? counter (speakers (sessions_under k w)) s)%nat eqn:H2.
  - right. right. exists s. apply Nat.leb_le in H2.
    rewrite sessions_by_counter by done.
    destruct Hout as (? & ? & ? & ? & ?). by split_and!.
  - right. by left.
Qed.

Lemma get_featured_spec w :
  (getFeaturedSpeaker w).1 =
    Ok (match memcache w !! MEMCACHE_FEATURED_KEY with
        | Some s => if decide (s = "") then "There are 0 featured speakers"
                    else s
        | None => "There are 0 featured speakers"
        end) ∧
  same_store w (getFeaturedSpeaker w).2 ∧
  trace (getFeaturedSpeaker w).2 = trace w ++ [McGet MEMCACHE_FEATURED_KEY].
Proof.
  unfold getFeaturedSpeaker, bind, memcache_get, ret. cbn.
  split_and!; [|done..].
  destruct (memcache w !! MEMCACHE_FEATURED_KEY) as [s|]; [|done]. cbn.
  destruct (decide (s = "")) as [->|Hne].
  - by rewrite bool_decide_eq_true_2.
  - by rewrite bool_decide_eq_false_2.
Qed.

(** X8.  The featured speaker lives in one memcache slot for all
    conferences.  After [_cacheFeaturedSpeaker] on any conference,
    [getFeaturedSpeaker] answers the speaker the run returned when it
    returned one (a speaker with at least two sessions there), and
    otherwise exactly what it answered before the run, whichever
    conference that answer came from.  The read is a pure cache read: it
    issues one memcache get and writes nothing. *)
Theorem featured_read_path (dict_keys : list string -> list string)
    (k : string) (w : World) :
  (∀ l x, x ∈ dict_keys l ↔ x ∈ l) ->
  let r := _cacheFeaturedSpeaker dict_keys k w in
  (∀ s, r.1 = Ok (Some s) ->
     (getFeaturedSpeaker r.2).1 = Ok s ∧ (2 <= sessions_by k w s)%nat) ∧
  ((∀ s, r.1 ≠ Ok (Some s)) ->
     (getFeaturedSpeaker r.2).1 = (getFeaturedSpeaker w).1) ∧
  (∀ w0, same_store w0 (getFeaturedSpeaker w0).2 ∧
         trace (getFeaturedSpeaker w0).2 =
           trace w0 ++ [McGet MEMCACHE_FEATURED_KEY]).
Proof.
  intros Hkeys. cbv zeta.
  pose proof (featured_outcomes dict_keys k w Hkeys) as Hout. cbv zeta in Hout.
  split_and!.
  - intros s Hr.
    destruct Hout as [[[e He] _]|[[Hn _]|(s' & Hs' & Hr' & H2 & Hm & _)]];
      [congruence..|].
    assert (s' = s) as -> by congruence. split; [|done].
    destruct (get_featured_spec (_cacheFeaturedSpeaker dict_keys k w).2)
      as [-> _].
    rewrite Hm, lookup_insert_eq. by rewrite decide_False.
  - intros Hno.
    destruct Hout as [[_ Hsame]|[[_ Hsame]|(s' & _ & Hr' & _)]];
      [| |by destruct (Hno s')];
      destruct Hsame as (_ & _ & _ & Hm);
      destruct (get_featured_spec (_cacheFeaturedSpeaker dict_keys k w).2)
        as [-> _];
      destruct (get_featured_spec w) as [-> _]; by rewrite Hm.
  - intros w0. by destruct (get_featured_spec w0) as (_ & ? & ?).
Qed.

Lemma featured_read_path_witness :
  let r := _cacheFeaturedSpeaker remove_dups "pycon" tie_world in
  (getFeaturedSpeaker r.2).1 = (getFeaturedSpeaker tie_world).1.
Proof.
  destruct (featured_read_path remove_dups "pycon" tie_world) as (_ & H & _).
  - intros l x. apply elem_of_remove_dups.
  - apply H. intros s Hs. vm_compute in Hs. discriminate.
Defined.

(** ** Recomputations are idempotent *)

Lemma featured_sessions dict_keys key w :
  sessions (_cacheFeaturedSpeaker dict_keys key w).2 = sessions w ∧
  profiles (_cacheFeaturedSpeaker dict_keys key w).2 = profiles w.
Proof.
  unfold _cacheFeaturedSpeaker, bind, get_conference, query_sessions.
  cbv beta iota. destruct (conferences w !! key); [|done].
  cbv beta iota. destruct (speakerArray _) as [[[[s|] n]|]|]; try done;
    by destruct (2 <=? n)%nat.
Qed.

(** The outcome of [_cacheFeaturedSpeaker] and what it does to memcache
    are determined by the stored conferences and sessions. *)
Lemma featured_stable dict_keys k w w' :
  conferences w' = conferences w -> sessions w' = sessions w ->
  let r := _cacheFeaturedSpeaker dict_keys k w in
  let r' := _cacheFeaturedSpeaker dict_keys k w' in
  r'.1 = r.1 ∧
  ∃ f : gmap string string -> gmap string string,
    (∀ m, f (f m) = f m) ∧
    memcache r.2 = f (memcache w) ∧ memcache r'.2 = f (memcache w').
Proof.
  intros Hc Hs. cbv zeta.
  unfold _cacheFeaturedSpeaker, bind, get_conference, query_sessions.
  cbv beta iota. rewrite Hc.
  destruct (conferences w !! k); [|by split; [|exists id]].
  cbv beta iota.
  change (sessions_under k (log (DsGet KConference k) w'))
    with (sessions_under k w').
  change (sessions_under k (log (DsGet KConference k) w))
    with (sessions_under k w).
  assert (sessions_under k w' = sessions_under k w) as ->
    by (unfold sessions_under; by rewrite Hs).
  destruct (speakerArray _) as [[[[s|] n]|]|];
    try (by split; [|exists id]).
  - destruct (2 <=? n)%nat; [|by split; [|exists id]].
    split; [done|]. exists (insert MEMCACHE_FEATURED_KEY s).
    split; [|done]. intros m. apply insert_insert_eq.
  - destruct (2 <=? n)%nat; [|by split; [|exists id]].
    split; [done|]. exists (delete MEMCACHE_FEATURED_KEY).
    split; [|done]. intros m. apply delete_delete_eq.
Qed.

Lemma announcement_effect index_before w :
  let r := _cacheAnnouncement index_before w in
  let sel := nearly_sold_out_conferences index_before w in
  let msg := ANNOUNCEMENT_TPL (join ", " ((fun kc => name kc.2) <$> sel)) in
  profiles r.2 = profiles w ∧ conferences r.2 = conferences w ∧
  sessions r.2 = sessions w ∧
  ((sel = [] ∧ r.1 = Ok "" ∧
    memcache r.2 = delete MEMCACHE_ANNOUNCEMENTS_KEY (memcache w)) ∨
   (sel ≠ [] ∧ r.1 = Ok msg ∧
    memcache r.2 = <[MEMCACHE_ANNOUNCEMENTS_KEY := msg]> (memcache w))).
Proof.
  cbv zeta. unfold _cacheAnnouncement, bind, query_conferences.
  cbv beta iota. fold (nearly_sold_out_conferences index_before w).
  destruct (nearly_sold_out_conferences index_before w) as [|kc l] eqn:Hsel.
  - split_and!; [done..|]. by left.
  - split_and!; [done..|]. by right.
Qed.

(** X9.  Both recomputations are idempotent: running
    [_cacheFeaturedSpeaker] for the same conference, or
    [_cacheAnnouncement], a second time right after the first gives the
    same outcome and leaves memcache and the datastore as the first run
    left them. *)
Theorem recomputations_idempotent (dict_keys : list string -> list string)
    (index_before : string * Conference -> string * Conference -> bool)
    (k : string) (w : World) :
  let f1 := _cacheFeaturedSpeaker dict_keys k w in
  let f2 := _cacheFeaturedSpeaker dict_keys k f1.2 in
  let a1 := _cacheAnnouncement index_before w in
  let a2 := _cacheAnnouncement index_before a1.2 in
  (f2.1 = f1.1 ∧ same_store f1.2 f2.2) ∧
  (a2.1 = a1.1 ∧ same_store a1.2 a2.2).
Proof.
  cbv zeta. split.
  - set (w1 := (_cacheFeaturedSpeaker dict_keys k w).2).
    destruct (featured_stable dict_keys k w w1) as (Hr & f & Hf & Hm & Hm').
    { apply featured_conferences. }
    { apply featured_sessions. }
    split; [done|]. unfold same_store.
    rewrite featured_conferences.
    destruct (featured_sessions dict_keys k w1) as [-> ->].
    split_and!; [done..|]. fold w1 in Hm. by rewrite Hm', Hm, Hf.
  - set (w1 := (_cacheAnnouncement index_before w).2).
    pose proof (announcement_effect index_before w) as H1.
    pose proof (announcement_effect index_before w1) as H2.
    cbv zeta in H1, H2.
    fold w1 in H1.
    destruct H1 as (Hp1 & Hc1 & Hs1 & Hcase1).
    destruct H2 as (Hp2 & Hc2 & Hs2 & Hcase2).
    assert (nearly_sold_out_conferences index_before w1
            = nearly_sold_out_conferences index_before w)
      as Hsel by (by apply nearly_sold_out_conferences_stores).
    rewrite Hsel in Hcase2. unfold same_store.
    destruct Hcase1 as [(Hnil & Hr1 & Hm1)|(Hne & Hr1 & Hm1)],
             Hcase2 as [(Hnil' & Hr2 & Hm2)|(Hne' & Hr2 & Hm2)];
      try done; rewrite Hr1, Hr2, Hm2, Hm1.
    + split_and!; try done. apply delete_delete_eq.
    + split_and!; try done. apply insert_insert_eq.
Qed.

(** ** Creating conferences *)

(** Events that write an entity or enqueue a task. *)
Lemma create_conference_run strptime u request k w :
  truthy (cf_name request) = true ->
  ∀ d1 d2,
  parse_if_given strptime (cf_startDate request) = Ok d1 ->
  parse_if_given strptime (cf_endDate request) = Ok d2 ->
  cf_startDate request ≠ Some "" -> cf_endDate request ≠ Some "" ->
  let r := _createConferenceObject strptime (Some u) request k w in
  let maxA := default DEFAULT_maxAttendees (cf_maxAttendees request) in
  let c :=
    mkConference (default "" (cf_name request))
      (default DEFAULT_city (cf_city request))
      (match cf_topics request with [] => DEFAULT_topics | t => t end)
      maxA
      (if (0 <? maxA)%Z then maxA
       else default DEFAULT_seatsAvailable (cf_seatsAvailable request))
      d1 d2 (match d1 with Some d => date_month d | None => 0%Z end)
      (user_id u) in
  (∃ form, r.1 = Ok form) ∧
  conferences r.2 = <[k := c]> (conferences w) ∧
  profiles r.2 = profiles w ∧ sessions r.2 = sessions w ∧
  memcache r.2 = memcache w ∧
  trace r.2 = trace w ++ [DsAllocateIds KConference (user_id u);
                          DsPut KConference k;
                          TqAdd "/tasks/send_confirmation_email"].
Proof.
  intros Hname d1 d2 H1 H2 Hs He. cbv zeta.
  unfold _createConferenceObject. rewrite Hname, H1, H2. cbn [negb].
  unfold_m. cbn.
  rewrite !bool_decide_eq_false_2 by done. cbn.
  split_and!; try done; [by eexists|by rewrite <- !app_assoc].
Qed.

Lemma create_conference_cases strptime user request k w :
  let r := _createConferenceObject strptime user request k w in
  ((∃ e, r.1 = Raise e) ∧ same_store w r.2 ∧
   (trace r.2 = trace w ∨
    ∃ uid, trace r.2 = trace w ++ [DsAllocateIds KConference uid])) ∨
  (∃ u d1 d2, user = Some u ∧ truthy (cf_name request) = true ∧
     parse_if_given strptime (cf_startDate request) = Ok d1 ∧
     parse_if_given strptime (cf_endDate request) = Ok d2 ∧
     cf_startDate request ≠ Some "" ∧ cf_endDate request ≠ Some "").
Proof.
  cbv zeta. unfold _createConferenceObject.
  destruct user as [u|]; [|left; split_and!; [by eexists|done|by left]].
  destruct (truthy (cf_name request)) eqn:Hn; cbn [negb];
    [|left; split_and!; [by eexists|done|by left]].
  destruct (parse_if_given strptime (cf_startDate request)) as [d1|e1] eqn:H1;
    [|left; split_and!; [by eexists|done|by left]].
  destruct (parse_if_given strptime (cf_endDate request)) as [d2|e2] eqn:H2;
    [|left; split_and!; [by eexists|done|by left]].
  destruct (decide (cf_startDate request = Some "")) as [Hs|Hs].
  { left. unfold_m. cbn. rewrite (bool_decide_eq_true_2 _ Hs). cbn.
    split_and!; [by eexists|done|right; by eexists]. }
  destruct (decide (cf_endDate request = Some "")) as [He|He].
  { left. unfold_m. cbn. rewrite (bool_decide_eq_true_2 _ He).
    rewrite orb_true_r. cbn.
    split_and!; [by eexists|done|right; by eexists]. }
  right. by exists u, d1, d2.
Qed.

(** X10.  Capacity and seats are only tied together for a positive
    capacity.  A conference created with [maxAttendees <= 0] is stored
    with the [seatsAvailable] of the request, or 500 when the request has
    none, so it can start with more seats than capacity. *)
Theorem create_without_capacity (strptime : string -> option Date)
    (user : option User) (request form : ConferenceForm) (k : string)
    (w w' : World) :
  _createConferenceObject strptime user request k w = (Ok form, w') ->
  (default DEFAULT_maxAttendees (cf_maxAttendees request) <= 0)%Z ->
  ∃ c, conferences w' !! k = Some c ∧
       maxAttendees c = default DEFAULT_maxAttendees (cf_maxAttendees request) ∧
       seatsAvailable c =
         default DEFAULT_seatsAvailable (cf_seatsAvailable request).
Proof.
  intros Hcreate Hmax.
  pose proof (create_conference_cases strptime user request k w) as Hcases.
  cbv zeta in Hcases. rewrite Hcreate in Hcases.
  destruct Hcases as [[[e He] _]|(u & d1 & d2 & -> & Hn & H1 & H2 & Hs & He)];
    [done|].
  pose proof (create_conference_run strptime u request k w Hn d1 d2 H1 H2 Hs He)
    as Hrun.
  cbv zeta in Hrun. rewrite Hcreate in Hrun.
  destruct Hrun as (_ & Hc & _). cbn in Hc.
  eexists. split; [rewrite Hc; apply lookup_insert_eq|]. cbn.
  split; [done|]. apply Z.ltb_ge in Hmax. by rewrite Hmax.
Qed.

Lemma create_without_capacity_witness :
  ∃ c, conferences
         (_createConferenceObject no_date (Some alice)
            (conference_request "Empty" (Some 0%Z) None) "k0" empty_world).2
         !! "k0" = Some c ∧
       maxAttendees c = 0%Z ∧ seatsAvailable c = 500%Z.
Proof.
  eapply (create_without_capacity no_date (Some alice)
            (conference_request "Empty" (Some 0%Z) None) _ "k0" empty_world).
  - vm_compute. reflexivity.
  - cbn. lia.
Defined.



(** ** Updating conferences *)

Section UpdateMore.
Context (strptime : string -> option Date) (str_date : Date -> string).
Context (request : ConferenceForm) (k : string).

Lemma copy_field_keeps_organizer o o' f :
  f ≠ F_organizerUserId ->
  copy_field strptime request k o f = Ok o' ->
  organizerUserId (co_entity o') = organizerUserId (co_entity o).
Proof.
  intros Hf. destruct f; try done; cbn;
    repeat case_match; intros [= <-]; done.
Qed.

Lemma copy_fields_keep_organizer fs : ∀ o o',
  F_organizerUserId ∉ fs ->
  copy_fields strptime request k fs o = Ok o' ->
  organizerUserId (co_entity o') = organizerUserId (co_entity o).
Proof.
  induction fs as [|f fs IH]; intros o o' Hn; cbn; [by intros [= <-]|].
  apply not_elem_of_cons in Hn as [Hf Hn].
  destruct (copy_field strptime request k o f) as [o1|e] eqn:H1; [|done].
  intros H2. rewrite (IH o1 o') by done.
  eapply copy_field_keeps_organizer; [|done]. congruence.
Qed.

Lemma copy_all_fields_organizer o o' :
  copy_fields strptime request k all_fields o = Ok o' ->
  organizerUserId (co_entity o') =
    default (organizerUserId (co_entity o)) (cf_organizerUserId request).
Proof.
  change all_fields with
    ([F_name] ++ F_organizerUserId ::
     [F_topics; F_city; F_startDate; F_month; F_maxAttendees;
      F_seatsAvailable; F_endDate; F_websafeKey; F_organizerDisplayName;
      F_websafeConferenceKey]).
  rewrite copy_fields_app.
  destruct (copy_fields _ _ _ [F_name] o) as [o1|e] eqn:H1; [|done].
  apply copy_fields_keep_organizer in H1;
    [|intros H; repeat (apply elem_of_cons in H as [H|H]; [done|]);
      by inversion H].
  rewrite copy_fields_cons.
  assert (∃ o2, copy_field strptime request k o1 F_organizerUserId = Ok o2 ∧
                organizerUserId (co_entity o2) =
                  default (organizerUserId (co_entity o1))
                          (cf_organizerUserId request)) as (o2 & H2 & Ho2).
  { cbn. destruct (cf_organizerUserId request); by eexists. }
  rewrite H2. intros H3.
  apply copy_fields_keep_organizer in H3;
    [|intros H; repeat (apply elem_of_cons in H as [H|H]; [done|]);
      by inversion H].
  congruence.
Qed.

(** The outcomes of an update, by the checks it makes in order. *)
Lemma update_conference_cases (user : option User) (w : World) :
  let r := _updateConferenceObject strptime str_date user request k w in
  match user with
  | None =>
      r.1 = Raise (UnauthorizedException "Authorization required") ∧
      same_store w r.2
  | Some u =>
      match conferences w !! k with
      | None => r.1 = Raise (no_conference k) ∧ same_store w r.2
      | Some c =>
          if decide (user_id u = organizerUserId c) then
            match copy_fields strptime request k all_fields
                    (mkConfObj k c None None None) with
            | Raise e => r.1 = Raise e ∧ same_store w r.2
            | Ok o =>
                match profiles w !! user_id u with
                | None =>
                    r.1 = Raise (AttributeError
                      "'NoneType' object has no attribute 'displayName'") ∧
                    same_store w r.2
                | Some p =>
                    r.1 = Ok (_copyConferenceToForm str_date o (displayName p)) ∧
                    conferences r.2 = <[k := co_entity o]> (conferences w) ∧
                    profiles r.2 = profiles w ∧ sessions r.2 = sessions w ∧
                    memcache r.2 = memcache w
                end
            end
          else
            r.1 = Raise (ForbiddenException
                           "Only the owner can update the conference.") ∧
            same_store w r.2
      end
  end.
Proof.
  cbv zeta. unfold _updateConferenceObject, transactional.
  destruct user as [u|]; [|done].
  unfold bind, get_conference. cbv beta iota.
  destruct (conferences w !! k) as [c|] eqn:Hc; [|done].
  destruct (decide (user_id u = organizerUserId c)) as [Ho|Ho].
  - rewrite (bool_decide_eq_true_2 _ Ho). cbn [negb].
    destruct (copy_fields strptime request k all_fields
                (mkConfObj k c None None None)) as [o|e]; [|done].
    unfold put_conference, get_profile, raise, ret. cbn.
    by destruct (profiles w !! user_id u).
  - by rewrite (bool_decide_eq_false_2 _ Ho).
Qed.
End UpdateMore.

Lemma copy_field_raises strptime request k o f e :
  copy_field strptime request k o f = Raise e -> e = ValueError.
Proof.
  destruct f; cbn; repeat case_match; intros [= <-] || intros [=]; done.
Qed.

Lemma copy_fields_raises strptime request k fs : ∀ o e,
  copy_fields strptime request k fs o = Raise e -> e = ValueError.
Proof.
  induction fs as [|f fs IH]; intros o e; cbn; [done|].
  destruct (copy_field strptime request k o f) as [o1|e1] eqn:H1.
  - apply IH.
  - intros [= <-]. by apply copy_field_raises in H1.
Qed.

Lemma copy_fields_no_dates strptime request k fs : ∀ o,
  F_startDate ∉ fs -> F_endDate ∉ fs ->
  ∃ o', copy_fields strptime request k fs o = Ok o'.
Proof.
  induction fs as [|f fs IH]; intros o Hs He; cbn; [by eexists|].
  apply not_elem_of_cons in Hs as [Hs1 Hs], He as [He1 He].
  assert (∃ o1, copy_field strptime request k o f = Ok o1) as [o1 ->].
  { destruct f; try done; cbn; repeat case_match; by eexists. }
  by apply IH.
Qed.

(** X12.  [createConference] stores no profile, and
    [_updateConferenceObject] needs the organizer's stored profile to build
    its answer.  So an organizer who has no stored profile cannot update
    the conference they have just created: the call raises ([ValueError]
    for a date that does not parse, [AttributeError] otherwise) and the
    transaction leaves every entity as it was. *)
Theorem organizer_without_profile_cannot_update
    (strptime : string -> option Date) (str_date : Date -> string)
    (u : User) (request0 form : ConferenceForm) (k : string) (w w' : World)
    (request : ConferenceForm) :
  profiles w !! user_id u = None ->
  _createConferenceObject strptime (Some u) request0 k w = (Ok form, w') ->
  let r := _updateConferenceObject strptime str_date (Some u) request k w' in
  (r.1 = Raise ValueError ∨
   r.1 = Raise (AttributeError
                  "'NoneType' object has no attribute 'displayName'")) ∧
  same_store w' r.2.
Proof.
  intros Hp Hcreate. cbv zeta.
  pose proof (create_conference_cases strptime (Some u) request0 k w) as Hcases.
  cbv zeta in Hcases. rewrite Hcreate in Hcases.
  destruct Hcases as [[[e He] _]|(u' & d1 & d2 & [= <-] & Hn & H1 & H2 & Hs & He)];
    [done|].
  pose proof (create_conference_run strptime u request0 k w Hn d1 d2 H1 H2
                Hs He) as Hrun.
  cbv zeta in Hrun. rewrite Hcreate in Hrun. cbn [fst snd] in Hrun.
  destruct Hrun as (_ & Hc & Hp' & _).
  pose proof (update_conference_cases strptime str_date request k (Some u) w')
    as Hup.
  cbv zeta in Hup. rewrite Hc, lookup_insert_eq in Hup.
  cbv beta iota in Hup. rewrite decide_True in Hup by done.
  destruct (copy_fields strptime request k all_fields _) as [o|e] eqn:Hcopy.
  - rewrite Hp', Hp in Hup. destruct Hup as [-> ?]. split; [by right|done].
  - apply copy_fields_raises in Hcopy as ->. destruct Hup as [-> ?].
    split; [by left|done].
Qed.

Lemma organizer_without_profile_cannot_update_witness :
  let r := _updateConferenceObject no_date show_date (Some alice)
             (seats_request 100) "pycon" pycon_world in
  (r.1 = Raise ValueError ∨
   r.1 = Raise (AttributeError
                  "'NoneType' object has no attribute 'displayName'")) ∧
  same_store pycon_world r.2.
Proof.
  eapply (organizer_without_profile_cannot_update no_date show_date alice
            (conference_request "PyCon" (Some 2%Z) None) _ "pycon"
            empty_world pycon_world (seats_request 100)).
  - reflexivity.
  - vm_compute. reflexivity.
Defined.

(** X13.  The rejections of [_updateConferenceObject]: NotFound for a key
    that does not resolve, Forbidden for a caller who is not the
    conference's [organizerUserId], [ValueError] for a start date that
    does not parse; in each case no entity is changed, also not by the
    fields of the request that come before the bad date. *)
Theorem update_rejections (strptime : string -> option Date)
    (str_date : Date -> string) (u : User) (request : ConferenceForm)
    (k : string) (w : World) :
  let r := _updateConferenceObject strptime str_date (Some u) request k w in
  (conferences w !! k = None ->
     r.1 = Raise (no_conference k) ∧ same_store w r.2) ∧
  (∀ c, conferences w !! k = Some c -> user_id u ≠ organizerUserId c ->
     r.1 = Raise (ForbiddenException
                    "Only the owner can update the conference.") ∧
     same_store w r.2) ∧
  (∀ c v, conferences w !! k = Some c -> user_id u = organizerUserId c ->
     cf_startDate request = Some v -> strptime v = None ->
     r.1 = Raise ValueError ∧ same_store w r.2).
Proof.
  cbv zeta.
  pose proof (update_conference_cases strptime str_date request k (Some u) w)
    as Hup.
  cbv zeta in Hup. split_and!.
  - intros Hc. by rewrite Hc in Hup.
  - intros c Hc Ho. rewrite Hc in Hup. by rewrite decide_False in Hup.
  - intros c v Hc Ho Hs Hv. rewrite Hc in Hup.
    rewrite decide_True in Hup by done.
    assert (copy_fields strptime request k all_fields
              (mkConfObj k c None None None) = Raise ValueError) as Hcopy.
    { change all_fields with
        ([F_name; F_organizerUserId; F_topics; F_city] ++ F_startDate ::
         [F_month; F_maxAttendees; F_seatsAvailable; F_endDate; F_websafeKey;
          F_organizerDisplayName; F_websafeConferenceKey]).
      rewrite copy_fields_app.
      destruct (copy_fields_no_dates strptime request k
                  [F_name; F_organizerUserId; F_topics; F_city]
                  (mkConfObj k c None None None)) as [o1 ->].
      - intros H; repeat (apply elem_of_cons in H as [H|H]; [done|]);
          by inversion H.
      - intros H; repeat (apply elem_of_cons in H as [H|H]; [done|]);
          by inversion H.
      - rewrite copy_fields_cons. cbn. by rewrite Hs, Hv. }
    by rewrite Hcopy in Hup.
Qed.

Lemma update_rejections_witness :
  let r := _updateConferenceObject no_date show_date (Some alice)
             (start_date_request "tomorrow") "pycon" organizer_world in
  r.1 = Raise ValueError ∧ same_store organizer_world r.2.
Proof.
  destruct (update_rejections no_date show_date alice
              (start_date_request "tomorrow") "pycon" organizer_world)
    as (_ & _ & H).
  by apply (H pycon "tomorrow").
Defined.

(** X14.  Ownership follows the stored [organizerUserId], and the update
    copies that field like any other.  After a successful update whose
    request names another user as organizer, every further update by the
    former organizer is rejected with Forbidden and changes nothing. *)
Theorem update_hands_over (strptime : string -> option Date)
    (str_date : Date -> string) (u : User) (request : ConferenceForm)
    (k : string) (w : World) (form : ConferenceForm) (v : string)
    (request' : ConferenceForm) :
  (_updateConferenceObject strptime str_date (Some u) request k w).1 = Ok form ->
  cf_organizerUserId request = Some v ->
  v ≠ user_id u ->
  let w1 := (_updateConferenceObject strptime str_date (Some u) request k w).2 in
  let r := _updateConferenceObject strptime str_date (Some u) request' k w1 in
  (organizerUserId <$> conferences w1 !! k) = Some v ∧
  r.1 = Raise (ForbiddenException "Only the owner can update the conference.") ∧
  same_store w1 r.2.
Proof.
  intros Hok Hv Hne. cbv zeta.
  pose proof (update_conference_cases strptime str_date request k (Some u) w)
    as Hup.
  cbv zeta in Hup.
  destruct (conferences w !! k) as [c|]; [|destruct Hup; congruence].
  destruct (decide (user_id u = organizerUserId c));
    [|destruct Hup; congruence].
  destruct (copy_fields strptime request k all_fields
              (mkConfObj k c None None None)) as [o|e'] eqn:Hcopy;
    [|destruct Hup; congruence].
  destruct (profiles w !! user_id u); [|destruct Hup; congruence].
  destruct Hup as (_ & Hc & _).
  apply copy_all_fields_organizer in Hcopy. rewrite Hv in Hcopy. cbn in Hcopy.
  set (w1 := (_updateConferenceObject strptime str_date (Some u) request k w).2)
    in *.
  assert (conferences w1 !! k = Some (co_entity o)) as Hk
    by (rewrite Hc; apply lookup_insert_eq).
  split; [by rewrite Hk; cbn; rewrite Hcopy|].
  pose proof (update_conference_cases strptime str_date request' k (Some u) w1)
    as Hup'.
  cbv zeta in Hup'. rewrite Hk in Hup'.
  rewrite decide_False in Hup'; [done|]. rewrite Hcopy. congruence.
Qed.

Lemma update_hands_over_witness :
  let w1 := (_updateConferenceObject no_date show_date (Some alice)
               (hand_over_request "bob") "pycon" organizer_world).2 in
  let r := _updateConferenceObject no_date show_date (Some alice)
             (seats_request 1) "pycon" w1 in
  (organizerUserId <$> conferences w1 !! "pycon") = Some "bob" ∧
  r.1 = Raise (ForbiddenException "Only the owner can update the conference.") ∧
  same_store w1 r.2.
Proof.
  eapply (update_hands_over no_date show_date alice (hand_over_request "bob")
            "pycon" organizer_world _ "bob" (seats_request 1)).
  - vm_compute. reflexivity.
  - reflexivity.
  - done.
Defined.

(** ** Query filters *)

Lemma FIELDS_nonempty k v : FIELDS !! k = Some v -> v ≠ "".
Proof.
  intros H.
  assert (map_Forall (fun _ v => v ≠ "") FIELDS) as Hall
    by (apply (bool_decide_unpack _); by vm_compute).
  by apply (Hall k).
Qed.

Lemma filter_field_nonempty f fld : filter_field f = Some fld -> fld ≠ "".
Proof.
  unfold filter_field. destruct (qf_field f) as [k|]; [|done]. cbn.
  apply FIELDS_nonempty.
Qed.

(** The loop on success: one formatted filter per filter, in order; every
    inequality among them is on the field that is returned; and the field
    the loop started with, if any, is the one returned. *)
Lemma format_loop_ok filters : ∀ i acc i' out,
  i ≠ Some "" ->
  format_loop filters i acc = Ok (i', out) ->
  ∃ out', out = acc ++ out' ∧ Forall2 formats filters out' ∧
    (∀ o, o ∈ out' -> ff_operator o ≠ "=" -> i' = Some (ff_field o)) ∧
    (i = None ∨ i' = i) ∧
    ((∀ o, o ∈ out' -> ff_operator o = "=") -> i' = i).
Proof.
  induction filters as [|f rest IH]; intros i acc i' out Hi; cbn.
  - intros [= <- <-]. exists []. rewrite app_nil_r.
    split_and!; [done|constructor|by inversion 1|by right|done].
  - destruct (filter_field f) as [fld|] eqn:Hf; [|done].
    destruct (filter_operator f) as [op|] eqn:Hop; [|done].
    set (o := mkFormattedFilter fld op (qf_value f)).
    assert (formats f o) as Hfo by done.
    destruct (decide (op = "=")) as [->|Hne].
    + rewrite bool_decide_eq_true_2 by done. cbn [negb].
      intros Hloop.
      destruct (IH i (acc ++ [o]) i' out Hi Hloop)
        as (out1 & -> & HF & HA & HB & HC).
      exists (o :: out1). rewrite <- app_assoc.
      split_and!; [done|by constructor| |done|].
      * intros o' [->|Ho']%elem_of_cons; [done|by apply HA].
      * intros Hall. apply HC. intros o' Ho'. apply Hall.
        by apply list_elem_of_further.
    + rewrite bool_decide_eq_false_2 by done. cbn [negb].
      destruct (truthy i && negb (bool_decide (i = Some fld))) eqn:Hchk;
        [done|].
      intros Hloop.
      assert (i = None ∨ i = Some fld) as Hi'.
      { destruct i as [x|]; [|by left]. right.
        apply andb_false_iff in Hchk as [Ht|Hb].
        - cbn in Ht. apply negb_false_iff, bool_decide_eq_true in Ht.
          congruence.
        - by apply negb_false_iff, bool_decide_eq_true in Hb. }
      destruct (IH (Some fld) (acc ++ [o]) i' out) as
        (out1 & -> & HF & HA & HB & HC); [|done|].
      { intros [= ->]. by apply (filter_field_nonempty f ""). }
      assert (i' = Some fld) as -> by (by destruct HB).
      exists (o :: out1). rewrite <- app_assoc.
      split_and!; [done|by constructor| | |].
      * intros o' [->|Ho']%elem_of_cons; [done|by apply HA].
      * destruct Hi' as [->| ->]; [by left|by right].
      * intros Hall. exfalso. apply Hne. apply (Hall o), list_elem_of_here.
Qed.

(** X15.  What [_formatFilters] returns when it returns: one formatted
    filter per filter of the request, in order, with field and operator
    translated by the two tables and the value untouched; every filter
    with an operator other than ["="] is on one and the same field, the
    one returned as inequality field; and no inequality field is returned
    exactly when every operator is ["="]. *)
Theorem format_filters_result (filters : list QueryFilter)
    (inequality_field : option string) (out : list FormattedFilter) :
  _formatFilters filters = Ok (inequality_field, out) ->
  Forall2 formats filters out ∧
  (∀ o, o ∈ out -> ff_operator o ≠ "=" ->
        inequality_field = Some (ff_field o)) ∧
  (inequality_field = None ↔ ∀ o, o ∈ out -> ff_operator o = "=").
Proof.
  intros Hr. unfold _formatFilters in Hr.
  destruct (format_loop_ok filters None [] inequality_field out)
    as (out' & -> & HF & HA & _ & HC); [done|done|].
  cbn. split_and!; [done|done|]. split.
  - intros -> o Ho. destruct (decide (ff_operator o = "=")) as [|Hne]; [done|].
    by specialize (HA o Ho Hne).
  - done.
Qed.

Lemma format_filters_result_witness :
  Forall2 formats sample_filters
    [mkFormattedFilter "city" "=" (Some "London");
     mkFormattedFilter "month" ">" (Some "5");
     mkFormattedFilter "month" "<=" (Some "9")] ∧
  (∀ o, o ∈ [mkFormattedFilter "city" "=" (Some "London");
             mkFormattedFilter "month" ">" (Some "5");
             mkFormattedFilter "month" "<=" (Some "9")] ->
        ff_operator o ≠ "=" -> Some "month" = Some (ff_field o)) ∧
  (Some "month" = None ↔
   ∀ o, o ∈ [mkFormattedFilter "city" "=" (Some "London");
             mkFormattedFilter "month" ">" (Some "5");
             mkFormattedFilter "month" "<=" (Some "9")] ->
        ff_operator o = "=").
Proof.
  apply (format_filters_result sample_filters). by vm_compute.
Defined.

Lemma format_loop_accepts filters : ∀ i acc,
  (∀ f, f ∈ filters ->
        is_Some (filter_field f) ∧ is_Some (filter_operator f)) ->
  (∀ f, f ∈ filters -> is_inequality f -> i = None ∨ i = filter_field f) ->
  (∀ f g, f ∈ filters -> g ∈ filters -> is_inequality f -> is_inequality g ->
          filter_field f = filter_field g) ->
  ∃ res, format_loop filters i acc = Ok res.
Proof.
  induction filters as [|f rest IH]; intros i acc Hvalid Hi Hsame; cbn;
    [by eexists|].
  destruct (Hvalid f) as [[fld Hf] [op Hop]]; [apply list_elem_of_here|].
  rewrite Hf, Hop.
  assert (∀ g, g ∈ rest ->
            is_Some (filter_field g) ∧ is_Some (filter_operator g)) as Hvalid'
    by (intros g Hg; by apply Hvalid, list_elem_of_further).
  assert (∀ g h, g ∈ rest -> h ∈ rest -> is_inequality g -> is_inequality h ->
            filter_field g = filter_field h) as Hsame'
    by (intros g h Hg Hh; by apply Hsame; apply list_elem_of_further).
  destruct (decide (op = "=")) as [->|Hne].
  - rewrite bool_decide_eq_true_2 by done. cbn [negb].
    apply IH; [done| |done].
    intros g Hg. by apply Hi, list_elem_of_further.
  - rewrite bool_decide_eq_false_2 by done. cbn [negb].
    assert (is_inequality f) as Hineq by by exists op.
    assert (truthy i && negb (bool_decide (i = Some fld)) = false) as ->.
    { destruct (Hi f) as [->| ->]; [apply list_elem_of_here|done|done|].
      rewrite Hf, bool_decide_eq_true_2 by done. apply andb_false_r. }
    apply IH; [done| |done].
    intros g Hg Hgi. right. rewrite <- Hf.
    apply Hsame; [apply list_elem_of_here|by apply list_elem_of_further|done..].
Qed.

Lemma format_loop_raises filters : ∀ i acc e,
  format_loop filters i acc = Raise e -> ∃ msg, e = BadRequestException msg.
Proof.
  induction filters as [|f rest IH]; intros i acc e; cbn; [done|].
  destruct (filter_field f); [|intros [= <-]; by eexists].
  destruct (filter_operator f); [|intros [= <-]; by eexists].
  destruct (negb _); [|apply IH].
  destruct (_ && _); [intros [= <-]; by eexists|apply IH].
Qed.

(** X16.  Which filter lists [_formatFilters] accepts: it returns exactly
    when every filter names a field and an operator of the two tables and
    all filters with an operator other than ["="] are on the same field;
    in every other case it raises BadRequest. *)
Theorem format_filters_accepts (filters : list QueryFilter) :
  ((∃ res, _formatFilters filters = Ok res) ↔
   (∀ f, f ∈ filters ->
         is_Some (filter_field f) ∧ is_Some (filter_operator f)) ∧
   (∀ f g, f ∈ filters -> g ∈ filters -> is_inequality f -> is_inequality g ->
           filter_field f = filter_field g)) ∧
  (∀ e, _formatFilters filters = Raise e -> ∃ msg, e = BadRequestException msg).
Proof.
  split; [split|].
  - intros [[i out] Hr]. unfold _formatFilters in Hr.
    destruct (format_loop_ok filters None [] i out)
      as (out' & -> & HF & HA & _ & _); [done|done|].
    assert (∀ f, f ∈ filters -> ∃ o, o ∈ out' ∧ formats f o) as Hout.
    { intros f [n Hn]%list_elem_of_lookup.
      destruct (Forall2_lookup_l _ _ _ _ _ HF Hn) as (o & Ho & Hfo).
      exists o. split; [|done]. apply list_elem_of_lookup. by exists n. }
    split.
    + intros f Hf. destruct (Hout f Hf) as (o & _ & H1 & H2 & _).
      split; by eexists.
    + intros f g Hf Hg [opf [Hopf Hnef]] [opg [Hopg Hneg]].
      destruct (Hout f Hf) as (o1 & Ho1 & H1 & H2 & _).
      destruct (Hout g Hg) as (o2 & Ho2 & H3 & H4 & _).
      rewrite H1, H3.
      rewrite <- (HA o1 Ho1), <- (HA o2 Ho2); [done|congruence|congruence].
  - intros [Hvalid Hsame]. apply format_loop_accepts; [done| |done].
    intros f _ _. by left.
  - intros e. apply format_loop_raises.
Qed.

Lemma format_filters_accepts_witness :
  ∃ res, _formatFilters sample_filters = Ok res.
Proof.
  destruct (format_filters_accepts sample_filters) as [[_ H] _].
  apply H. split.
  - intros f Hf.
    repeat (apply elem_of_cons in Hf as [->|Hf]; [split; by eexists|]).
    by inversion Hf.
  - intros f g Hf Hg [opf [Hopf Hnef]] [opg [Hopg Hneg]].
    repeat (apply elem_of_cons in Hf as [->|Hf];
            [|try by inversion Hf]);
    repeat (apply elem_of_cons in Hg as [->|Hg];
            [|try by inversion Hg]);
    try reflexivity;
    vm_compute in Hopf, Hopg; congruence.
Defined.

(** ** Sessions *)

Section SessionProps.
Context {SessionType : Type}.
Context (getattr_SessionType : option string -> Outcome SessionType).
Context (str_SessionType : SessionType -> string) (Lecture : SessionType).
Context (strptime : string -> option Date) (str_date : Date -> string).
Context {Time : Type} (strptime_time : string -> option Time).
Context (str_time : Time -> string).

Abbreviation createSession :=
  (_createSessionObject SessionType getattr_SessionType str_SessionType
     Lecture strptime str_date Time strptime_time str_time).

(** The checks of [_createSessionObject], in the order it makes them. *)
Lemma create_session_rejects user request k s_key w :
  let r := createSession user request k s_key w in
  match conferences w !! k with
  | None => r.1 = Raise none_has_no_key ∧ same_store w r.2 ∧
            trace r.2 = trace w ++ [DsGet KConference k]
  | Some c =>
      match user with
      | None =>
          r.1 = Raise (UnauthorizedException "Authorization required") ∧
          same_store w r.2 ∧ trace r.2 = trace w ++ [DsGet KConference k]
      | Some u =>
          user_id u ≠ organizerUserId c ->
          r.1 = Raise not_the_owner ∧ same_store w r.2 ∧
          trace r.2 = trace w ++ [DsGet KConference k]
      end
  end.
Proof.
  cbv zeta. unfold _createSessionObject, bind, get_conference.
  cbv beta iota. destruct (conferences w !! k) as [c|]; [|done].
  destruct user as [u|]; [|done]. intros Hne.
  by rewrite bool_decide_eq_false_2.
Qed.

(** What a call that returns has done. *)
Lemma create_session_ok user request k s_key w form :
  (createSession user request k s_key w).1 = Ok form ->
  let r := createSession user request k s_key w in
  ∃ u c s, user = Some u ∧ conferences w !! k = Some c ∧
    user_id u = organizerUserId c ∧
    sessions r.2 = <[s_key := s]> (sessions w) ∧
    sess_parent s = k ∧
    sess_name s = Some (default DEFAULT_session_name (sf_name request)) ∧
    sess_speaker s =
      Some (default DEFAULT_session_speaker (sf_speaker request)) ∧
    sess_typeOfSession s =
      Some (str_SessionType (default Lecture (sf_typeOfSession request))) ∧
    conferences r.2 = conferences w ∧ profiles r.2 = profiles w ∧
    memcache r.2 = memcache w ∧
    trace r.2 = trace w ++ [DsGet KConference k; DsAllocateIds KSession k;
                            DsPut KSession s_key;
                            TqAdd "/tasks/featured_speaker";
                            DsGet KSession s_key] ∧
    sf_websafeKey form = Some s_key.
Proof.
  cbv zeta. unfold _createSessionObject, bind, get_conference.
  cbv beta iota. destruct (conferences w !! k) as [c|]; [|done].
  destruct user as [u|]; [|done].
  destruct (decide (user_id u = organizerUserId c)) as [Ho|Ho];
    [|by rewrite bool_decide_eq_false_2].
  rewrite bool_decide_eq_true_2 by done. cbn [negb]. cbv zeta.
  destruct (parse_if_given strptime _) as [date|]; [|done].
  destruct (parse_time_if_given Time strptime_time _) as [startTime|]; [|done].
  destruct (parse_time_if_given Time strptime_time _) as [duration|]; [|done].
  cbv beta iota.
  destruct (_ || _); [done|].
  unfold put_session, taskqueue_add, get_session, _copySessionToForm, raise,
    ret, log. cbn. rewrite lookup_insert_eq. cbn.
  destruct (getattr_SessionType _) as [ty|]; [|done]. cbn.
  intros [= <-]. eexists u, c, _.
  split_and!; try done. by rewrite <- !app_assoc.
Qed.

(** X17.  [_createSessionObject] reads [conf.key] before it checks
    anything: with a conference key that does not resolve it raises
    [AttributeError] for every caller, signed in or not, so its NotFound
    answer is never given.  With a key that resolves it answers
    Unauthorized to a caller who is not signed in and Forbidden to one who
    is not the organizer.  In all three cases the only call issued is the
    lookup of the conference: nothing is stored and no task is enqueued. *)
Theorem create_session_rejections (user : option User)
    (request : SessionForm SessionType) (k s_key : string) (w : World) :
  let r := createSession user request k s_key w in
  (conferences w !! k = None ->
     r.1 = Raise none_has_no_key ∧ same_store w r.2 ∧
     trace r.2 = trace w ++ [DsGet KConference k]) ∧
  (is_Some (conferences w !! k) -> user = None ->
     r.1 = Raise (UnauthorizedException "Authorization required") ∧
     same_store w r.2 ∧ trace r.2 = trace w ++ [DsGet KConference k]) ∧
  (∀ u c, user = Some u -> conferences w !! k = Some c ->
     user_id u ≠ organizerUserId c ->
     r.1 = Raise not_the_owner ∧ same_store w r.2 ∧
     trace r.2 = trace w ++ [DsGet KConference k]).
Proof.
  cbv zeta. pose proof (create_session_rejects user request k s_key w) as H.
  cbv zeta in H. split_and!.
  - intros Hc. by rewrite Hc in H.
  - intros [c Hc] ->. by rewrite Hc in H.
  - intros u c -> Hc Hne. rewrite Hc in H. by apply H.
Qed.
End SessionProps.

Lemma create_session_rejections_witness :
  let r := _createSessionObject string any_SessionType id "Lecture" any_date
             show_date string any_time id None (speaker_request None)
             "ghost" "s1" organizer_world in
  r.1 = Raise none_has_no_key ∧ same_store organizer_world r.2 ∧
  trace r.2 = trace organizer_world ++ [DsGet KConference "ghost"].
Proof.
  destruct (create_session_rejections any_SessionType id "Lecture" any_date
              show_date any_time id None (speaker_request None) "ghost" "s1"
              organizer_world) as (H & _).
  by apply H.
Defined.

(** Storing a session under a fresh key adds it once to the tally of its
    speaker in its conference and to no other tally. *)
Lemma sessions_by_insert k w w' key s x :
  sessions w' = <[key := s]> (sessions w) ->
  sessions w !! key = None ->
  sessions_by k w' x =
    (sessions_by k w x +
     (if decide (sess_parent s = k ∧ sess_speaker s = Some x) then 1 else 0))%nat.
Proof.
  intros Hs Hfresh. unfold sessions_by, sessions_under. rewrite Hs.
  rewrite (map_to_list_insert _ _ _ Hfresh).
  rewrite !filter_cons. cbn [snd].
  destruct (decide (sess_parent s = k)) as [Hp|Hp].
  - rewrite filter_cons. cbn [snd].
    destruct (decide (sess_speaker s = Some x)) as [Hx|Hx].
    + rewrite decide_True by done. cbn. lia.
    + rewrite decide_False by tauto. lia.
  - rewrite decide_False by tauto. lia.
Qed.

Section SessionTally.
Context {SessionType : Type}.
Context (getattr_SessionType : option string -> Outcome SessionType).
Context (str_SessionType : SessionType -> string) (Lecture : SessionType).
Context (strptime : string -> option Date) (str_date : Date -> string).
Context {Time : Type} (strptime_time : string -> option Time).
Context (str_time : Time -> string).

Abbreviation createSession' :=
  (_createSessionObject SessionType getattr_SessionType str_SessionType
     Lecture strptime str_date Time strptime_time str_time).

(** X18.  A session that [_createSessionObject] has created is stored
    under the conference of the request, with the speaker of the request
    or ["Michael Johnson"] when the request names none, and it counts once:
    the number of sessions of that speaker in that conference grows by
    one, every other count and every other conference's counts stay, no
    conference or profile is written, and one task for
    [/tasks/featured_speaker] is enqueued. *)
Theorem create_session_counts (user : option User)
    (request : SessionForm SessionType) (k s_key : string) (w : World)
    (form : SessionForm SessionType) :
  sessions w !! s_key = None ->
  (createSession' user request k s_key w).1 = Ok form ->
  let w1 := (createSession' user request k s_key w).2 in
  let spk := default DEFAULT_session_speaker (sf_speaker request) in
  (∃ s, sessions w1 !! s_key = Some s ∧ sess_parent s = k ∧
        sess_speaker s = Some spk) ∧
  sessions_by k w1 spk = S (sessions_by k w spk) ∧
  (∀ k' x, (k', x) ≠ (k, spk) -> sessions_by k' w1 x = sessions_by k' w x) ∧
  conferences w1 = conferences w ∧ profiles w1 = profiles w ∧
  (∃ evs1 evs2, trace w1 = trace w ++ evs1 ++
                           [TqAdd "/tasks/featured_speaker"] ++ evs2 ∧
                (∀ url, TqAdd url ∉ evs1 ++ evs2)).
Proof.
  intros Hfresh Hok. cbv zeta.
  destruct (create_session_ok getattr_SessionType str_SessionType Lecture
              strptime str_date strptime_time str_time user request k s_key
              w form Hok)
    as (u & c & s & _ & _ & _ & Hs & Hpar & _ & Hspk & _ & Hc & Hp & _ & Htr & _).
  split_and!; [| | |done|done|].
  - exists s. split_and!; [|done..]. rewrite Hs. apply lookup_insert_eq.
  - rewrite (sessions_by_insert k w _ s_key s _ Hs Hfresh).
    rewrite decide_True by done. lia.
  - intros k' x Hne.
    rewrite (sessions_by_insert k' w _ s_key s _ Hs Hfresh).
    rewrite decide_False; [lia|]. intros [H1 H2]. apply Hne.
    rewrite Hspk in H2. congruence.
  - exists [DsGet KConference k; DsAllocateIds KSession k; DsPut KSession s_key],
           [DsGet KSession s_key].
    split; [by rewrite Htr|].
    intros url Hin. cbn in Hin.
    repeat (apply elem_of_cons in Hin as [Hin|Hin]; [done|]).
    by inversion Hin.
Qed.

(** X19.  Creating a session can make its speaker the featured one: when
    the speaker of the new session already has a session in the conference
    and no other speaker has more, then after the creation
    [_cacheFeaturedSpeaker] returns that speaker and stores it in
    memcache, whatever the iteration order of the counter. *)
Theorem new_session_makes_featured (dict_keys : list string -> list string)
    (user : option User) (request : SessionForm SessionType)
    (k s_key : string) (w : World) (form : SessionForm SessionType) :
  (∀ l x, x ∈ dict_keys l ↔ x ∈ l) ->
  sessions w !! s_key = None ->
  (createSession' user request k s_key w).1 = Ok form ->
  let w1 := (createSession' user request k s_key w).2 in
  let spk := default DEFAULT_session_speaker (sf_speaker request) in
  spk ≠ "" ->
  (1 <= sessions_by k w spk)%nat ->
  (∀ x, x ≠ "" -> (sessions_by k w x <= sessions_by k w spk)%nat) ->
  let r := _cacheFeaturedSpeaker dict_keys k w1 in
  r.1 = Ok (Some spk) ∧
  memcache r.2 = <[MEMCACHE_FEATURED_KEY := spk]> (memcache w).
Proof.
  intros Hkeys Hfresh Hok. cbv zeta. intros Hne H1 Hmax.
  destruct (create_session_ok getattr_SessionType str_SessionType Lecture
              strptime str_date strptime_time str_time user request k s_key
              w form Hok)
    as (u & c & s & _ & Hconf & _ & Hs & Hpar & _ & Hspk & _ & Hc & _ & Hm & _).
  set (w1 := (createSession' user request k s_key w).2) in *.
  set (spk := default DEFAULT_session_speaker (sf_speaker request)) in *.
  assert (sessions_by k w1 spk = S (sessions_by k w spk)) as Hcount.
  { rewrite (sessions_by_insert k w w1 s_key s _ Hs Hfresh).
    rewrite decide_True by done. lia. }
  rewrite <- Hm.
  apply (featured_strict_maximum_run dict_keys k w1 c spk);
    [done|by rewrite Hc|done|lia|].
  intros x Hx Hx'. rewrite Hcount.
  rewrite (sessions_by_insert k w w1 s_key s _ Hs Hfresh).
  rewrite decide_False by (intros [_ H2]; rewrite Hspk in H2; congruence).
  specialize (Hmax x Hx'). lia.
Qed.
End SessionTally.

Lemma create_session_counts_witness :
  let create :=
    _createSessionObject string any_SessionType id "Lecture" any_date
      show_date string any_time id (Some alice)
      (speaker_request (Some "Ada")) "pycon" "s1" organizer_world in
  (∃ s, sessions create.2 !! "s1" = Some s ∧ sess_parent s = "pycon" ∧
        sess_speaker s = Some "Ada") ∧
  sessions_by "pycon" create.2 "Ada"
    = S (sessions_by "pycon" organizer_world "Ada") ∧
  (∀ k' x, (k', x) ≠ ("pycon", "Ada") ->
     sessions_by k' create.2 x = sessions_by k' organizer_world x) ∧
  conferences create.2 = conferences organizer_world ∧
  profiles create.2 = profiles organizer_world ∧
  (∃ evs1 evs2, trace create.2 = trace organizer_world ++ evs1 ++
                           [TqAdd "/tasks/featured_speaker"] ++ evs2 ∧
                (∀ url, TqAdd url ∉ evs1 ++ evs2)).
Proof.
  eapply (create_session_counts any_SessionType id "Lecture" any_date
            show_date any_time id (Some alice) (speaker_request (Some "Ada"))
            "pycon" "s1" organizer_world).
  - reflexivity.
  - vm_compute. reflexivity.
Defined.

Lemma new_session_makes_featured_witness :
  let w1 :=
    (_createSessionObject string any_SessionType id "Lecture" any_date
       show_date string any_time id (Some alice)
       (speaker_request (Some "Ada")) "pycon" "s1" tie_world).2 in
  let r := _cacheFeaturedSpeaker reverse "pycon" w1 in
  r.1 = Ok (Some "Ada") ∧
  memcache r.2 = <[MEMCACHE_FEATURED_KEY := "Ada"]> (memcache tie_world).
Proof.
  eapply (new_session_makes_featured any_SessionType id "Lecture" any_date
            show_date any_time id reverse (Some alice)
            (speaker_request (Some "Ada")) "pycon" "s1" tie_world).
  - intros l x. apply elem_of_reverse.
  - reflexivity.
  - vm_compute. reflexivity.
  - done.
  - vm_compute. lia.
  - intros x Hx.
    replace (sessions_by "pycon" tie_world
               (default DEFAULT_session_speaker
                  (sf_speaker (speaker_request (Some "Ada")))))
      with 1%nat by by vm_compute.
    unfold sessions_by.
    first [ replace (sessions_under "pycon" tie_world)
              with [("t1", talk (Some "Ada")); ("t2", talk (Some "Bob"))]
              by by vm_compute
          | replace (sessions_under "pycon" tie_world)
              with [("t2", talk (Some "Bob")); ("t1", talk (Some "Ada"))]
              by by vm_compute ].
    rewrite !filter_cons, filter_nil. cbn [snd talk sess_speaker].
    repeat (destruct (decide (Some _ = Some x)) as [[= ?]|?]);
      cbn; try lia; congruence.
Defined.

Section SessionListings.
Context {SessionType : Type}.
Context (getattr_SessionType : option string -> Outcome SessionType).
Context (str_SessionType : SessionType -> string).

Lemma list_sessions_unresolved k keep w :
  conferences w !! k = None ->
  let r := list_sessions SessionType getattr_SessionType k keep w in
  r.1 = Raise none_has_no_key ∧ same_store w r.2.
Proof.
  intros Hc. cbv zeta. unfold list_sessions, bind, get_conference.
  cbv beta iota. by rewrite Hc.
Qed.


(** X20.  The three session listings read [conf.key] before they check
    [conf]: for a conference key that does not resolve each of
    [getConferenceSessions], [getConferenceSessionsByType] and
    [getSessionsBySpeaker] raises [AttributeError], not NotFound, and
    writes nothing. *)
Theorem session_listings_unresolved_conference (k : string) (w : World)
    (typeOfSession : option SessionType) (speaker : option string) :
  conferences w !! k = None ->
  let r1 := getConferenceSessions SessionType getattr_SessionType k w in
  let r2 := getConferenceSessionsByType SessionType getattr_SessionType
              str_SessionType typeOfSession k w in
  let r3 := getSessionsBySpeaker SessionType getattr_SessionType speaker k w in
  (r1.1 = Raise none_has_no_key ∧ same_store w r1.2) ∧
  (r2.1 = Raise none_has_no_key ∧ same_store w r2.2) ∧
  (r3.1 = Raise none_has_no_key ∧ same_store w r3.2).
Proof.
  intros Hc. cbv zeta. split_and!; by apply list_sessions_unresolved.
Qed.

End SessionListings.

Lemma session_listings_unresolved_conference_witness :
  let r1 := getConferenceSessions string any_SessionType "ghost" stale_world in
  let r2 := getConferenceSessionsByType string any_SessionType id
              (Some "Lecture") "ghost" stale_world in
  let r3 := getSessionsBySpeaker string any_SessionType (Some "Ada") "ghost"
              stale_world in
  (r1.1 = Raise none_has_no_key ∧ same_store stale_world r1.2) ∧
  (r2.1 = Raise none_has_no_key ∧ same_store stale_world r2.2) ∧
  (r3.1 = Raise none_has_no_key ∧ same_store stale_world r3.2).
Proof.
  by apply (session_listings_unresolved_conference any_SessionType id "ghost"
              stale_world).
Defined.



(** ** Profiles *)

Section ProfileProps.
Context {TeeShirtSize : Type}.
Context (getattr_TeeShirtSize : string -> Outcome TeeShirtSize).
Context (str_TeeShirtSize : TeeShirtSize -> string).

(** The profile that a call hands to the endpoint, and the store after. *)
Lemma profile_from_user_run (u : User) (w : World) :
  let r := _getProfileFromUser (Some u) w in
  r.1 = Ok (user_id u, profile_of u w) ∧
  profiles r.2 = <[user_id u := profile_of u w]> (profiles w) ∧
  conferences r.2 = conferences w ∧ sessions r.2 = sessions w ∧
  memcache r.2 = memcache w.
Proof.
  cbv zeta.
  unfold _getProfileFromUser, bind, ret, get_profile, put_profile, profile_of,
    log.
  destruct (profiles w !! user_id u) as [p|] eqn:Hp; cbn.
  - by rewrite insert_id.
  - done.
Qed.

(** One run of [_doProfile] for a signed-in caller. *)
Lemma do_profile_run (u : User)
    (save_request : option (ProfileMiniForm TeeShirtSize)) (w : World) :
  let r := _doProfile TeeShirtSize getattr_TeeShirtSize str_TeeShirtSize
             (Some u) save_request w in
  let p0 := profile_of u w in
  let p1 := match save_request with
            | Some req =>
                if truthy (pmf_displayName req)
                then set_displayName (default "" (pmf_displayName req)) p0
                else p0
            | None => p0
            end in
  let p2 := match save_request with
            | Some req =>
                match pmf_teeShirtSize req with
                | Some t => set_teeShirtSize (str_TeeShirtSize t) p1
                | None => p1
                end
            | None => p1
            end in
  profiles r.2 = <[user_id u := p2]> (profiles w) ∧
  conferences r.2 = conferences w ∧ sessions r.2 = sessions w ∧
  memcache r.2 = memcache w ∧
  r.1 = match getattr_TeeShirtSize (teeShirtSize p2) with
        | Ok t => Ok (mkProfileForm (displayName p2) (mainEmail p2) t
                        (conferenceKeysToAttend p2) (sessWishlist p2))
        | Raise e => Raise e
        end.
Proof.
  cbv zeta. unfold _doProfile, bind.
  destruct (profile_from_user_run u w) as (Hr & Hp & Hc & Hs & Hm).
  destruct (_getProfileFromUser (Some u) w) as [[[uid p]|e] w1];
    cbn in Hr, Hp, Hc, Hs, Hm; [|done].
  injection Hr as -> ->.
  destruct save_request as [req|]; cbn.
  - destruct (truthy (pmf_displayName req)); cbn;
      destruct (pmf_teeShirtSize req) as [t|]; cbn;
      unfold _copyProfileToForm, put_profile, ret, raise, log; cbn;
      match goal with
      | |- context [getattr_TeeShirtSize ?x] =>
          destruct (getattr_TeeShirtSize x)
      end; cbn; rewrite ?Hp, ?insert_insert_eq, Hc, Hs, Hm; done.
  - unfold _copyProfileToForm, ret, raise.
    destruct (getattr_TeeShirtSize (teeShirtSize (profile_of u w))); cbn;
      rewrite Hp, Hc, Hs, Hm; done.
Qed.

(** X22.  [saveProfile] writes the caller's display name and t-shirt size
    and nothing else, whether or not it returns a form: the caller's mail
    address, registrations and wish list, every other profile, the
    conferences, the sessions and memcache stay as they were.  An empty
    display name in the request is not written.  Without a signed-in user
    the call is refused and changes nothing. *)
Theorem save_profile_touches_two_fields (user : option User)
    (request : ProfileMiniForm TeeShirtSize) (w : World) :
  let r := saveProfile TeeShirtSize getattr_TeeShirtSize str_TeeShirtSize
             user request w in
  match user with
  | None =>
      r.1 = Raise (UnauthorizedException "Authorization required") ∧
      same_store w r.2
  | Some u =>
      conferences r.2 = conferences w ∧ sessions r.2 = sessions w ∧
      memcache r.2 = memcache w ∧
      (∀ uid, uid ≠ user_id u -> profiles r.2 !! uid = profiles w !! uid) ∧
      ∃ p, profiles r.2 !! user_id u = Some p ∧
           mainEmail p = mainEmail (profile_of u w) ∧
           conferenceKeysToAttend p = conferenceKeysToAttend (profile_of u w) ∧
           sessWishlist p = sessWishlist (profile_of u w) ∧
           displayName p =
             (if truthy (pmf_displayName request)
              then default "" (pmf_displayName request)
              else displayName (profile_of u w)) ∧
           teeShirtSize p =
             match pmf_teeShirtSize request with
             | Some t => str_TeeShirtSize t
             | None => teeShirtSize (profile_of u w)
             end
  end.
Proof.
  cbv zeta. destruct user as [u|]; [|by split].
  unfold saveProfile.
  destruct (do_profile_run u (Some request) w) as (Hp & Hc & Hs & Hm & _).
  split; [done|]. split; [done|]. split; [done|]. split.
  - intros uid Hne. rewrite Hp. by rewrite lookup_insert_ne.
  - eexists. split; [rewrite Hp; apply lookup_insert_eq|].
    destruct (truthy (pmf_displayName request)),
             (pmf_teeShirtSize request); done.
Qed.

(** X23.  What [saveProfile] stored is what [getProfile] reads back: when
    the size given is a member of the enum under its own name, saving a
    non-empty display name and that size returns a form, the next
    [getProfile] of the same caller returns the same form and leaves the
    store as the save left it, and the form shows the name and the size of
    the request. *)
Theorem saved_profile_is_read_back (u : User) (n : string) (t : TeeShirtSize)
    (w : World) :
  n ≠ "" ->
  getattr_TeeShirtSize (str_TeeShirtSize t) = Ok t ->
  let r1 := saveProfile TeeShirtSize getattr_TeeShirtSize str_TeeShirtSize
              (Some u) (mkProfileMiniForm (Some n) (Some t)) w in
  let r2 := getProfile TeeShirtSize getattr_TeeShirtSize str_TeeShirtSize
              (Some u) r1.2 in
  ∃ form, r1.1 = Ok form ∧ r2.1 = Ok form ∧ same_store r1.2 r2.2 ∧
          pf_displayName form = n ∧ pf_teeShirtSize form = t.
Proof.
  intros Hn Ht. cbv zeta. unfold saveProfile, getProfile.
  destruct (do_profile_run u (Some (mkProfileMiniForm (Some n) (Some t))) w)
    as (Hp & Hc & Hs & Hm & Hr).
  cbn in Hp, Hr. rewrite bool_decide_false in Hp, Hr by done.
  cbn in Hp, Hr. rewrite Ht in Hr.
  set (w1 := (_doProfile TeeShirtSize getattr_TeeShirtSize str_TeeShirtSize
                (Some u) (Some (mkProfileMiniForm (Some n) (Some t))) w).2)
    in *.
  destruct (do_profile_run u None w1) as (Hp2 & Hc2 & Hs2 & Hm2 & Hr2).
  assert (profile_of u w1 =
          set_teeShirtSize (str_TeeShirtSize t)
            (set_displayName n (profile_of u w))) as Hprof.
  { unfold profile_of at 1. rewrite Hp. by rewrite lookup_insert_eq. }
  rewrite Hprof in Hp2, Hr2. cbn in Hr2. rewrite Ht in Hr2.
  eexists. split; [exact Hr|]. split; [exact Hr2|].
  split; [|done].
  split; [|done]. rewrite Hp2, Hp. by rewrite insert_insert_eq.
Qed.

(** X24.  The profile endpoints change no registration: after [getProfile]
    or [saveProfile], by anyone and whatever the outcome, every conference
    has the registrations and the seats it had, so the seat accounting of
    a conference holds after the call exactly when it held before. *)
Theorem profile_calls_keep_seat_accounting (user : option User)
    (save_request : option (ProfileMiniForm TeeShirtSize)) (k : string)
    (w : World) :
  let r := match save_request with
           | None => getProfile TeeShirtSize getattr_TeeShirtSize
                       str_TeeShirtSize user w
           | Some request => saveProfile TeeShirtSize getattr_TeeShirtSize
                               str_TeeShirtSize user request w
           end in
  attending k (profiles r.2) = attending k (profiles w) ∧
  conferences r.2 = conferences w ∧
  (seats_accounted k r.2 ↔ seats_accounted k w).
Proof.
  cbv zeta.
  assert (let r := _doProfile TeeShirtSize getattr_TeeShirtSize
                     str_TeeShirtSize user save_request w in
          attending k (profiles r.2) = attending k (profiles w) ∧
          conferences r.2 = conferences w) as [Ha Hc].
  { cbv zeta. destruct user as [u|]; [|done].
    destruct (do_profile_run u save_request w) as (Hp & Hc & _).
    split; [|done]. rewrite Hp.
    match goal with
    | |- attending k (<[_ := ?p]> _) = _ =>
        pose proof (attending_insert k (profiles w) (user_id u) p) as H;
        assert (conferenceKeysToAttend p =
                conferenceKeysToAttend (profile_of u w)) as Hk
    end.
    { destruct save_request as [req|]; [|done].
      destruct (truthy (pmf_displayName req)), (pmf_teeShirtSize req); done. }
    rewrite Hk, counter_profile_of in H. lia. }
  assert (∀ r : Outcome (ProfileForm TeeShirtSize) * World,
            attending k (profiles r.2) = attending k (profiles w) ->
            conferences r.2 = conferences w ->
            attending k (profiles r.2) = attending k (profiles w) ∧
            conferences r.2 = conferences w ∧
            (seats_accounted k r.2 ↔ seats_accounted k w)) as Hgen.
  { intros r Ha' Hc'. split; [done|]. split; [done|].
    unfold seats_accounted. by rewrite Ha', Hc'. }
  destruct save_request as [request|]; apply Hgen; done.
Qed.
End ProfileProps.

Lemma saved_profile_is_read_back_witness :
  ∃ form,
    (saveProfile string any_TeeShirtSize id (Some bob)
       (mkProfileMiniForm (Some "Robert") (Some "XL")) pycon_world).1
      = Ok form ∧
    pf_displayName form = "Robert" ∧ pf_teeShirtSize form = "XL".
Proof.
  destruct (saved_profile_is_read_back any_TeeShirtSize id bob "Robert" "XL"
              pycon_world) as (form & H1 & _ & _ & Hn & Ht);
    [done|reflexivity|].
  exists form. done.
Defined.


(** ** Conferences to attend *)

(** [get_multi] answers each key with the stored entity or [None] and
    writes nothing. *)
Lemma get_multi_conferences_spec keys w :
  let r := get_multi_conferences keys w in
  r.1 = Ok ((fun k => (fun x => (k, x)) <$> conferences w !! k) <$> keys) ∧
  same_store w r.2.
Proof.
  revert w. induction keys as [|k keys IH]; intros w; [done|].
  cbn. unfold bind, get_conference. cbn.
  destruct (IH (log (DsGet KConference k) w)) as [Hr Hsame].
  destruct (get_multi_conferences keys (log (DsGet KConference k) w))
    as [[l|e] w']; cbn in *; [|done].
  injection Hr as ->. done.
Qed.

Lemma get_multi_profiles_spec keys w :
  let r := get_multi_profiles keys w in
  r.1 = Ok ((fun k => (fun x => (k, x)) <$> profiles w !! k) <$> keys) ∧
  same_store w r.2.
Proof.
  revert w. induction keys as [|k keys IH]; intros w; [done|].
  cbn. unfold bind, get_profile. cbn.
  destruct (IH (log (DsGet KProfile k) w)) as [Hr Hsame].
  destruct (get_multi_profiles keys (log (DsGet KProfile k) w))
    as [[l|e] w']; cbn in *; [|done].
  injection Hr as ->. done.
Qed.

(** The organizers of a batch in which every key resolved. *)
Lemma organisers_of_resolved (cs : gmap string Conference) keys :
  (∀ k, k ∈ keys -> is_Some (cs !! k)) ->
  organisers_of ((fun k => (fun x => (k, x)) <$> cs !! k) <$> keys)
  = Ok (omap (fun k => organizerUserId <$> cs !! k) keys).
Proof.
  induction keys as [|k keys IH]; intros Hall; [done|].
  destruct (Hall k) as [c Hc]; [apply list_elem_of_here|].
  cbn. rewrite Hc. cbn. rewrite IH; [done|].
  intros k' Hk'. apply Hall. by apply list_elem_of_further.
Qed.

(** The dictionary of display names: a name for each organizer. *)
Lemma names_of_resolved (ps : gmap string Profile) orgs : ∀ acc,
  (∀ uid, uid ∈ orgs -> is_Some (ps !! uid)) ->
  ∃ names,
    names_of ((fun k => (fun x => (k, x)) <$> ps !! k) <$> orgs) acc
      = Ok names ∧
    ∀ uid, uid ∈ orgs -> names !! uid = displayName <$> ps !! uid.
Proof.
  induction orgs as [|o orgs IH]; intros acc Hall.
  - exists acc. split; [done|]. by inversion 1.
  - destruct (Hall o) as [p Hp]; [apply list_elem_of_here|].
    cbn. rewrite Hp. cbn.
    assert (∀ l acc', (∀ uid, uid ∉ l -> ∀ names,
              names_of ((fun k => (fun x => (k, x)) <$> ps !! k) <$> l) acc'
                = Ok names -> names !! uid = acc' !! uid)) as Hkeep.
    { induction l as [|x l IHl]; intros acc' uid Hni names Hn.
      - cbn in Hn. by injection Hn as ->.
      - apply not_elem_of_cons in Hni as [Hne Hni]. cbn in Hn.
        destruct (ps !! x) as [q|]; cbn in Hn; [|done].
        rewrite (IHl _ uid Hni names Hn). by rewrite lookup_insert_ne. }
    destruct (IH (<[o := displayName p]> acc)) as (names & Hn & Hnames).
    { intros uid Huid. apply Hall. by apply list_elem_of_further. }
    exists names. split; [done|]. intros uid Huid.
    destruct (decide (uid ∈ orgs)) as [Hin|Hni]; [by apply Hnames|].
    apply elem_of_cons in Huid as [->|Huid]; [|done].
    rewrite (Hkeep orgs _ o Hni names Hn), Hp. apply lookup_insert_eq.
Qed.

(** One organizer without a stored profile fails the loop over the
    profiles. *)
Lemma names_of_unresolved (ps : gmap string Profile) orgs : ∀ acc,
  (∃ uid, uid ∈ orgs ∧ ps !! uid = None) ->
  names_of ((fun k => (fun x => (k, x)) <$> ps !! k) <$> orgs) acc
    = Raise none_has_no_key.
Proof.
  induction orgs as [|o orgs IH]; intros acc (uid & Hin & Hnone).
  - by inversion Hin.
  - cbn. destruct (ps !! o) as [p|] eqn:Hp; cbn; [|done].
    apply IH. exists uid. split; [|done].
    apply elem_of_cons in Hin as [->|Hin]; [congruence|done].
Qed.

Section AttendingList.
Context (str_date : Date -> string).

(** One run of [getConferencesToAttend] for a signed-in caller. *)
Lemma conferences_to_attend_run (u : User) (w : World) :
  let r := getConferencesToAttend str_date (Some u) w in
  let ps := <[user_id u := profile_of u w]> (profiles w) in
  let confs := (fun k => (fun x => (k, x)) <$> conferences w !! k)
                 <$> conferenceKeysToAttend (profile_of u w) in
  profiles r.2 = ps ∧ conferences r.2 = conferences w ∧
  sessions r.2 = sessions w ∧ memcache r.2 = memcache w ∧
  r.1 = match organisers_of confs with
        | Raise e => Raise e
        | Ok organisers =>
            match names_of ((fun k => (fun x => (k, x)) <$> ps !! k)
                              <$> organisers) ∅ with
            | Raise e => Raise e
            | Ok names =>
                Ok (omap (fun o : option (string * Conference) =>
                            (fun kc : string * Conference =>
                               _copyConferenceToForm str_date
                                 (mkConfObj kc.1 kc.2 None None None)
                                 (default "" (names !! organizerUserId kc.2)))
                            <$> o) confs)
            end
        end.
Proof.
  cbv zeta. unfold getConferencesToAttend, bind.
  destruct (profile_from_user_run u w) as (Hr & Hp & Hc & Hs & Hm).
  destruct (_getProfileFromUser (Some u) w) as [[[uid p]|e] w1];
    cbn in Hr, Hp, Hc, Hs, Hm; [|done].
  injection Hr as -> ->. cbn [fst snd].
  destruct (get_multi_conferences_spec
              (conferenceKeysToAttend (profile_of u w)) w1)
    as (Hr1 & Hp1 & Hc1 & Hs1 & Hm1).
  destruct (get_multi_conferences
              (conferenceKeysToAttend (profile_of u w)) w1)
    as [[confs|e] w2]; cbn in Hr1, Hp1, Hc1, Hs1, Hm1; [|done].
  injection Hr1 as ->. rewrite Hc.
  destruct (organisers_of _) as [organisers|e]; cbn.
  2:{ unfold raise. cbn. by rewrite Hp1, Hc1, Hs1, Hm1, Hp, Hc, Hs, Hm. }
  destruct (get_multi_profiles_spec organisers w2)
    as (Hr2 & Hp2 & Hc2 & Hs2 & Hm2).
  destruct (get_multi_profiles organisers w2) as [[profs|e] w3];
    cbn in Hr2, Hp2, Hc2, Hs2, Hm2; [|done].
  injection Hr2 as ->. rewrite Hp1, Hp.
  destruct (names_of _ ∅) as [names|e]; unfold ret, raise; cbn;
    by rewrite Hp2, Hc2, Hs2, Hm2, Hp1, Hc1, Hs1, Hm1, Hp, Hc, Hs, Hm.
Qed.

(** X25.  The list of the conferences a caller attends needs a stored
    profile for every organizer: when every key on the caller's list
    resolves and the organizer of one of these conferences has no profile
    in the store, the call fails on the missing profile
    ([AttributeError] on [None]) and the datastore and memcache keep what
    they held.  Creating a conference stores no profile for its organizer,
    so a registration for the conference of an organizer who never opened
    the profile blocks the attendee's list. *)
Theorem attending_list_needs_organizer_profiles (u : User) (w : World)
    (k : string) (c : Conference) :
  (∀ k', k' ∈ conferenceKeysToAttend (profile_of u w) ->
         is_Some (conferences w !! k')) ->
  k ∈ conferenceKeysToAttend (profile_of u w) ->
  conferences w !! k = Some c ->
  profiles w !! organizerUserId c = None ->
  let r := getConferencesToAttend str_date (Some u) w in
  r.1 = Raise none_has_no_key ∧
  same_store w r.2.
Proof.
  intros Hall Hk Hc Hnone. cbv zeta.
  destruct (conferences_to_attend_run u w) as (Hp & Hcs & Hs & Hm & Hr).
  destruct (profiles w !! user_id u) as [p|] eqn:Hprof.
  2:{ unfold profile_of in Hk. rewrite Hprof in Hk. by inversion Hk. }
  assert (<[user_id u := profile_of u w]> (profiles w) = profiles w) as Hid.
  { apply insert_id. unfold profile_of. by rewrite Hprof. }
  rewrite Hid in Hp, Hr.
  split; [|done].
  rewrite Hr, (organisers_of_resolved _ _ Hall).
  rewrite names_of_unresolved; [done|].
  exists (organizerUserId c). split; [|done].
  apply list_elem_of_omap. exists k. split; [done|]. by rewrite Hc.
Qed.

(** X26.  When every key on the caller's list resolves and every
    organizer has a profile, the call returns one form per key, in the
    order of the list: the form of key [k] carries [k], the name and the
    free seats of the conference stored under [k], and the display name
    of its organizer unless that name is empty.  A caller without a
    profile gets the empty list.  Nothing but the caller's profile of
    first access is written. *)
Theorem attending_list_forms (u : User) (w : World) :
  (∀ k, k ∈ conferenceKeysToAttend (profile_of u w) ->
        ∃ c, conferences w !! k = Some c ∧
             is_Some (profiles w !! organizerUserId c)) ->
  let r := getConferencesToAttend str_date (Some u) w in
  profiles r.2 = <[user_id u := profile_of u w]> (profiles w) ∧
  conferences r.2 = conferences w ∧ sessions r.2 = sessions w ∧
  memcache r.2 = memcache w ∧
  ∃ forms,
    r.1 = Ok forms ∧
    (profiles w !! user_id u = None -> forms = []) ∧
    Forall2 (fun k f =>
               ∃ c o, conferences w !! k = Some c ∧
                      profiles w !! organizerUserId c = Some o ∧
                      cf_websafeKey f = Some k ∧
                      cf_name f = Some (name c) ∧
                      cf_seatsAvailable f = Some (seatsAvailable c) ∧
                      cf_organizerDisplayName f =
                        (if decide (displayName o = "") then None
                         else Some (displayName o)))
            (conferenceKeysToAttend (profile_of u w)) forms.
Proof.
  intros Hall. cbv zeta.
  destruct (conferences_to_attend_run u w) as (Hp & Hcs & Hs & Hm & Hr).
  split; [done|]. split; [done|]. split; [done|]. split; [done|].
  destruct (profiles w !! user_id u) as [p|] eqn:Hprof.
  2:{ exists []. unfold profile_of in Hr |- *. rewrite Hprof in Hr |- *.
      cbn in Hr |- *. split; [done|]. split; [done|]. constructor. }
  assert (<[user_id u := profile_of u w]> (profiles w) = profiles w) as Hid.
  { apply insert_id. unfold profile_of. by rewrite Hprof. }
  rewrite Hid in Hr.
  rewrite organisers_of_resolved in Hr.
  2:{ intros k Hk. destruct (Hall k Hk) as (c & -> & _). by eexists. }
  destruct (names_of_resolved (profiles w)
              (omap (fun k => organizerUserId <$> conferences w !! k)
                    (conferenceKeysToAttend (profile_of u w))) ∅)
    as (names & Hn & Hnames).
  { intros uid (k & Hk & Huid)%list_elem_of_omap.
    destruct (Hall k Hk) as (c & Hc & Ho). rewrite Hc in Huid.
    by injection Huid as <-. }
  rewrite Hn in Hr. eexists. split; [exact Hr|]. split; [done|].
  assert (∀ k, k ∈ conferenceKeysToAttend (profile_of u w) ->
               ∃ c o, conferences w !! k = Some c ∧
                      profiles w !! organizerUserId c = Some o ∧
                      names !! organizerUserId c = Some (displayName o))
    as Hres.
  { intros k Hk. destruct (Hall k Hk) as (c & Hc & [o Ho]).
    exists c, o. split; [done|]. split; [done|].
    rewrite Hnames, Ho; [done|].
    apply list_elem_of_omap. exists k. split; [done|]. by rewrite Hc. }
  clear Hr Hn Hnames Hall.
  induction (conferenceKeysToAttend (profile_of u w)) as [|k keys IH];
    [constructor|].
  destruct (Hres k) as (c & o & Hc & Ho & Hname); [apply list_elem_of_here|].
  cbn. rewrite Hc. cbn. constructor.
  - exists c, o. split; [done|]. split; [done|]. rewrite Hname. cbn.
    split; [done|]. split; [done|]. split; [done|].
    unfold truthy. destruct (decide (displayName o = "")) as [He|He];
      [rewrite bool_decide_true by done|rewrite bool_decide_false by done];
      done.
  - apply IH. intros k' Hk'. apply Hres. by apply list_elem_of_further.
Qed.
End AttendingList.

Lemma attending_list_needs_organizer_profiles_witness :
  (registerForConference (Some bob) "pycon" pycon_world).1 = Ok true ∧
  (getConferencesToAttend show_date (Some bob) attendee_world).1
    = Raise none_has_no_key.
Proof.
  split; [vm_compute; reflexivity|].
  apply (attending_list_needs_organizer_profiles show_date bob attendee_world
           "pycon" (set_seatsAvailable 1 pycon)).
  - intros k' Hk'. vm_compute in Hk'.
    apply list_elem_of_singleton in Hk' as ->. vm_compute. by eexists.
  - vm_compute. apply list_elem_of_here.
  - vm_compute. reflexivity.
  - vm_compute. reflexivity.
Defined.

Lemma attending_list_forms_witness :
  ∃ form,
    (getConferencesToAttend show_date (Some alice)
       (registerForConference (Some alice) "pycon" pycon_world).2).1
      = Ok [form] ∧
    cf_websafeKey form = Some "pycon" ∧
    cf_seatsAvailable form = Some 1%Z ∧
    cf_organizerDisplayName form = Some "Alice".
Proof.
  destruct (attending_list_forms show_date alice
              (registerForConference (Some alice) "pycon" pycon_world).2)
    as (_ & _ & _ & _ & forms & Hr & _ & Hforms).
  - intros k Hk. vm_compute in Hk.
    apply list_elem_of_singleton in Hk as ->.
    exists (set_seatsAvailable 1 pycon). split; [vm_compute; reflexivity|].
    vm_compute. by eexists.
  - vm_compute in Hr. injection Hr as <-. eexists.
    split; [reflexivity|]. vm_compute. done.
Defined.
